(** * ADB2RE wrapper (adb2re.py): request building, execution and result assertions

    A shallow embedding of the [Adb2re] class of [src/adb2re.py].

    - The text of a Python [str] is a [string]; the built-in methods the
      class uses ([str.count], [str.find], [str.split], [str.join],
      [str(int)]) are given executable definitions in [PyStr].
    - An instance is a record: the public option attributes live in a
      dictionary from attribute name to value that falls back on the class
      attributes, the remaining attributes are fields.
    - Methods run in a small monad that threads the instance, records the
      interactions with the outside (connection, procedure call, data set
      read, cursor) and may raise.  An exception keeps the state reached so
      far, as in Python.
    - The option attributes hold string objects: a text together with the
      identity of the object, since [__build_parameter_list] compares
      objects with [is not].
    - What lies outside the class (the configuration module, the database
      driver, the report data set) is a parameter: every call made on it
      may raise. *)

From Stdlib Require Import ZArith Ascii DecimalString.
From stdpp Require Import base decidable option list strings gmap.

Local Open Scope Z_scope.
Local Open Scope nat_scope.

(** ** Python string built-ins *)

Module PyStr.

(** [s.startswith(p)] *)
Fixpoint startswith (s p : string) {struct p} : bool :=
  match p with
  | EmptyString => true
  | String a p' =>
      match s with
      | EmptyString => false
      | String b s' => if decide (a = b) then startswith s' p' else false
      end
  end.

(** The scan behind [s.count(sub)] for a non-empty [sub]: occurrences are
    counted left to right and do not overlap; [skip] is the number of
    characters of the last occurrence still to be passed. *)
Fixpoint count_go (sub s : string) (skip : nat) : nat :=
  match s with
  | EmptyString => 0
  | String _ s' =>
      match skip with
      | S k => count_go sub s' k
      | O =>
          if startswith s sub
          then S (count_go sub s' (String.length sub - 1))
          else count_go sub s' 0
      end
  end.

(** [s.count(sub)]; the empty string is counted [len(s) + 1] times. *)
Definition count (s sub : string) : nat :=
  match sub with
  | EmptyString => S (String.length s)
  | String _ _ => count_go sub s 0
  end.

Fixpoint find_go (sub s : string) (i : Z) : Z :=
  if startswith s sub then i
  else match s with
       | EmptyString => (-1)%Z
       | String _ s' => find_go sub s' (i + 1)%Z
       end.

(** [s.find(sub)]: the lowest index of [sub] in [s], or [-1]. *)
Definition find (s sub : string) : Z := find_go sub s 0%Z.

(** The scan behind [s.split(sep)] for a non-empty [sep]; [cur] is the piece
    being collected. *)
Fixpoint split_go (sep s : string) (skip : nat) (cur : string) : list string :=
  match s with
  | EmptyString => [cur]
  | String c s' =>
      match skip with
      | S k => split_go sep s' k cur
      | O =>
          if startswith s sep
          then cur :: split_go sep s' (String.length sep - 1) ""
          else split_go sep s' 0 (cur +:+ String c "")
      end
  end.

(** [s.split(sep)]; [None] is the [ValueError] of an empty separator. *)
Definition split (s sep : string) : option (list string) :=
  match sep with
  | EmptyString => None
  | String _ _ => Some (split_go sep s 0 "")
  end.

(** [sep.join(l)] *)
Fixpoint join (sep : string) (l : list string) : string :=
  match l with
  | [] => ""
  | x :: l' =>
      match l' with
      | [] => x
      | _ :: _ => x +:+ sep +:+ join sep l'
      end
  end.

(** [str(n)] for a non-negative integer. *)
Definition str (n : nat) : string := NilEmpty.string_of_uint (Nat.to_uint n).

(** [sub in s]: [sub] occurs in [s] as a contiguous substring. *)
Definition occurs (sub s : string) : Prop :=
  ∃ pre post, s = pre +:+ sub +:+ post.

End PyStr.

(** ** String objects

    [execute] and the list builders decide with [is] and [is not], which
    compare objects, not texts.  A string object is its text and an
    identity.  Two objects with different texts are different objects.  The
    empty string is one object in CPython, whatever produced it.  String
    constants of the program with the same text are one object
    ([Interned]: the constants compared here, ['N'], ['Y'], ['K'], ['A'] and
    ['DEFINED'], look like identifiers and are interned).  Every other
    object has an identity of its own: [Object n] for an object the
    configuration module or a caller hands in, [Built name] for the object a
    concatenation in the class builds for the attribute [name].  CPython
    builds a new object each time such a concatenation runs; the model
    gives the objects built for one attribute one identity.  The
    comparisons of the class have an attribute on the left and, on the
    right, a constant, a name of the configuration, a sum built on the spot
    (a new object, whatever the attribute holds) or, for [TGTDB2], the
    attribute [DB2REL_CONFIG]: two objects built for [DB2SERV] by different
    runs of [execute] meet in a comparison only if a caller copies them
    into [TGTDB2] and [DB2REL_CONFIG]. *)
Inductive ident :=
| Interned
| Object (n : N)
| Built (name : string).

#[global] Instance ident_eq_dec : EqDecision ident.
Proof. solve_decision. Defined.

Record pystr := PyObj { chars :> string; ident_of : ident }.

(** A string literal of the program. *)
Definition lit (s : string) : pystr := PyObj s Interned.

(** [a is b] and [a is not b]. *)
Definition is_ (a b : pystr) : bool :=
  bool_decide (chars a = chars b ∧ (chars a = "" ∨ ident_of a = ident_of b)).
Definition is_not (a b : pystr) : bool := negb (is_ a b).

(** [a + b]: CPython hands back the other operand when one operand is the
    empty string; [None] is every other case, in which the result is a new
    object with the text [a +:+ b]. *)
Definition add (a b : pystr) : option pystr :=
  if decide (chars a = "") then Some b
  else if decide (chars b = "") then Some a
  else None.

(** [name = a + b]: the object the sum leaves in [name]. *)
Definition sum (name : string) (a b : pystr) : pystr :=
  default (PyObj (a +:+ b) (Built name)) (add a b).

(** ** Configuration and outside world *)

(** The names [adb2re.py] takes from [libs.aoc.utility]; that module is not
    part of the sources, so its constants are parameters. *)
Module utility.
Record Config := {
  DB2_VERSION : pystr;
  LPAR : pystr;
  DB2_SUBSYSTEM_ID : pystr;
  TSO_USER_ID : pystr;
  ACCEPT_FL : pystr;
  TARGET : string;
  PASSWORD : string;
  (** [LPAR_SSID[lpar][ssid]]; [None] is the [KeyError] of a missing key. *)
  LPAR_SSID : string → string → option string
}.
End utility.

(** A column of a result row: a string, or a value of another type
    ([None] for a null, a number). *)
Inductive column :=
| Str (s : string)
| NotStr.

#[global] Instance column_eq_dec : EqDecision column.
Proof. solve_decision. Defined.

(** What the outside answers during one [execute]: every call made on the
    driver or on the data set reader may raise. *)
Record World := {
  (** does [jaydebeapi.connect] to this URL succeed *)
  connect : string → bool;
  (** does [jdb.cursor()] succeed *)
  cursor : bool;
  (** the result set of the [ADB2RE] call with these six arguments, each row
      a list of columns; [None] when [cursor.execute] raises *)
  call_ADB2RE : list string → option (list (list column));
  (** [zOSMFConnector(...).read_ds(dsname)]; [None] when it raises *)
  read_ds : string → option string;
  (** does [cursor.fetchall()] hand the result set over *)
  fetchall : bool;
  (** does [cursor.close()] succeed *)
  close : bool
}.

(** The calls made on the outside, in the order they are made, whether they
    succeed or raise; [EFetchAll rows] is [cursor.fetchall()] on a cursor
    that holds [rows]. *)
Inductive event :=
| EConnect (url : string)
| ECursor
| ECall (statement : string) (args : list string)
| EReadDs (dsname : string)
| EFetchAll (rows : list (list column))
| ECursorClose.

#[global] Instance event_eq_dec : EqDecision event.
Proof. solve_decision. Defined.

(** ** Exceptions

    [adb2re.py] raises plain [Exception(message)]; [kind] records which of
    the error kinds of the design the raise site belongs to.  The last
    kinds are the built-in errors of Python and failures of the outside. *)
Inductive error_kind :=
| ConfigurationError
| NotExecutedError
| FormatError
| ChecklistMismatchError
| ReportAssertionError
| KeyError
| ValueError
| IndexError
| TypeError
| UnboundLocalError
| ExternalError.

Record exception := Exception { kind : error_kind; message : string }.

Definition LF : string := String "010"%char "".

(** ** The class [Adb2re]

    *** Option attributes

    The upper-case class attributes that hold an option.  An instance reads
    them through its own dictionary first and the class second. *)
Inductive attr :=
(* configuration *)
| DB2REL_CONFIG
(* General Db2 options *)
| DB2SYS | DB2ALOC | DB2SERV | DB2AUTH | DB2REL
(* Options to generate DDL statements *)
| GENSG | GENDB | GENTS | GENTABLE | GENVIEW | GENINDEX | GENSYN | GENALIAS
| GENUDT | GENUDF | GENSTP | GENSEQ | GENVAR | GENLABEL | GENCOMM | GENRELS
| GENTRIG | GENTRUST | GENROLE | GENMASK | GENPERM | GENSEQAL
(* Options to generate GRANT statements *)
| GRANTSG | GRANTDB | GRANTTS | GRANTTAB | GRANTVW | GRANTSCH | GRANTUDT
| GRANTUDF | GRANTSTP | GRANTSEQ | GRANTVAR
(* Additional options to generate statements *)
| ACCEPT_FL | ACTVCNTL | CATALOGSTATISTICS | TCATQUAL | TGTFL
(* STATISTICS options *)
| SYSCOLDIST | SYSCOLDISTSTATS | SYSCOLSTATS | SYSCOLUMNS | SYSINDEX
| SYSIXPART | SYSIXSTATS | SYSLOBSTATS | SYSTBPART | SYSTABLES
| SYSTABLESPACE | SYSIXPSTATS | SYSTSPSTATS | SYSROUTINES | SYSKEYTGTDIST
| SYSKEYTGTDISTSTATS | SYSKEYTARGETSTATS
(* Options to change DDL during generation *)
| NEWSQLID | NEWGRANTOR | NEWDB | NEWTSSG | NEWIXSG
(* Additional options to customize the DDL *)
| PENDCHGS | SPCALLOC | TGTDB2 | DEFAULTS | COMMITFR | RUNSQLID | SQLCMTS
(* sql-output options *)
| SQL_OUTFLAG | SQL_DSNAME | SQL_MEMBER | SQL_UNIT | SQL_VOLSER
(* report-output options *)
| RPT_OUTFLAG | RPT_DSNAME | RPT_MEMBER | RPT_UNIT | RPT_VOLSER.

Definition all_attrs : list attr :=
  [DB2REL_CONFIG; DB2SYS; DB2ALOC; DB2SERV; DB2AUTH; DB2REL; GENSG; GENDB;
   GENTS; GENTABLE; GENVIEW; GENINDEX; GENSYN; GENALIAS; GENUDT; GENUDF;
   GENSTP; GENSEQ; GENVAR; GENLABEL; GENCOMM; GENRELS; GENTRIG; GENTRUST;
   GENROLE; GENMASK; GENPERM; GENSEQAL; GRANTSG; GRANTDB; GRANTTS; GRANTTAB;
   GRANTVW; GRANTSCH; GRANTUDT; GRANTUDF; GRANTSTP; GRANTSEQ; GRANTVAR;
   ACCEPT_FL; ACTVCNTL; CATALOGSTATISTICS; TCATQUAL; TGTFL; SYSCOLDIST;
   SYSCOLDISTSTATS; SYSCOLSTATS; SYSCOLUMNS; SYSINDEX; SYSIXPART; SYSIXSTATS;
   SYSLOBSTATS; SYSTBPART; SYSTABLES; SYSTABLESPACE; SYSIXPSTATS;
   SYSTSPSTATS; SYSROUTINES; SYSKEYTGTDIST; SYSKEYTGTDISTSTATS;
   SYSKEYTARGETSTATS; NEWSQLID; NEWGRANTOR; NEWDB; NEWTSSG; NEWIXSG;
   PENDCHGS; SPCALLOC; TGTDB2; DEFAULTS; COMMITFR; RUNSQLID; SQLCMTS;
   SQL_OUTFLAG; SQL_DSNAME; SQL_MEMBER; SQL_UNIT; SQL_VOLSER; RPT_OUTFLAG;
   RPT_DSNAME; RPT_MEMBER; RPT_UNIT; RPT_VOLSER].

Definition attr_name (a : attr) : string :=
  match a with
  | DB2REL_CONFIG => "DB2REL_CONFIG"
  | DB2SYS => "DB2SYS"
  | DB2ALOC => "DB2ALOC"
  | DB2SERV => "DB2SERV"
  | DB2AUTH => "DB2AUTH"
  | DB2REL => "DB2REL"
  | GENSG => "GENSG"
  | GENDB => "GENDB"
  | GENTS => "GENTS"
  | GENTABLE => "GENTABLE"
  | GENVIEW => "GENVIEW"
  | GENINDEX => "GENINDEX"
  | GENSYN => "GENSYN"
  | GENALIAS => "GENALIAS"
  | GENUDT => "GENUDT"
  | GENUDF => "GENUDF"
  | GENSTP => "GENSTP"
  | GENSEQ => "GENSEQ"
  | GENVAR => "GENVAR"
  | GENLABEL => "GENLABEL"
  | GENCOMM => "GENCOMM"
  | GENRELS => "GENRELS"
  | GENTRIG => "GENTRIG"
  | GENTRUST => "GENTRUST"
  | GENROLE => "GENROLE"
  | GENMASK => "GENMASK"
  | GENPERM => "GENPERM"
  | GENSEQAL => "GENSEQAL"
  | GRANTSG => "GRANTSG"
  | GRANTDB => "GRANTDB"
  | GRANTTS => "GRANTTS"
  | GRANTTAB => "GRANTTAB"
  | GRANTVW => "GRANTVW"
  | GRANTSCH => "GRANTSCH"
  | GRANTUDT => "GRANTUDT"
  | GRANTUDF => "GRANTUDF"
  | GRANTSTP => "GRANTSTP"
  | GRANTSEQ => "GRANTSEQ"
  | GRANTVAR => "GRANTVAR"
  | ACCEPT_FL => "ACCEPT_FL"
  | ACTVCNTL => "ACTVCNTL"
  | CATALOGSTATISTICS => "CATALOGSTATISTICS"
  | TCATQUAL => "TCATQUAL"
  | TGTFL => "TGTFL"
  | SYSCOLDIST => "SYSCOLDIST"
  | SYSCOLDISTSTATS => "SYSCOLDISTSTATS"
  | SYSCOLSTATS => "SYSCOLSTATS"
  | SYSCOLUMNS => "SYSCOLUMNS"
  | SYSINDEX => "SYSINDEX"
  | SYSIXPART => "SYSIXPART"
  | SYSIXSTATS => "SYSIXSTATS"
  | SYSLOBSTATS => "SYSLOBSTATS"
  | SYSTBPART => "SYSTBPART"
  | SYSTABLES => "SYSTABLES"
  | SYSTABLESPACE => "SYSTABLESPACE"
  | SYSIXPSTATS => "SYSIXPSTATS"
  | SYSTSPSTATS => "SYSTSPSTATS"
  | SYSROUTINES => "SYSROUTINES"
  | SYSKEYTGTDIST => "SYSKEYTGTDIST"
  | SYSKEYTGTDISTSTATS => "SYSKEYTGTDISTSTATS"
  | SYSKEYTARGETSTATS => "SYSKEYTARGETSTATS"
  | NEWSQLID => "NEWSQLID"
  | NEWGRANTOR => "NEWGRANTOR"
  | NEWDB => "NEWDB"
  | NEWTSSG => "NEWTSSG"
  | NEWIXSG => "NEWIXSG"
  | PENDCHGS => "PENDCHGS"
  | SPCALLOC => "SPCALLOC"
  | TGTDB2 => "TGTDB2"
  | DEFAULTS => "DEFAULTS"
  | COMMITFR => "COMMITFR"
  | RUNSQLID => "RUNSQLID"
  | SQLCMTS => "SQLCMTS"
  | SQL_OUTFLAG => "SQL_OUTFLAG"
  | SQL_DSNAME => "SQL_DSNAME"
  | SQL_MEMBER => "SQL_MEMBER"
  | SQL_UNIT => "SQL_UNIT"
  | SQL_VOLSER => "SQL_VOLSER"
  | RPT_OUTFLAG => "RPT_OUTFLAG"
  | RPT_DSNAME => "RPT_DSNAME"
  | RPT_MEMBER => "RPT_MEMBER"
  | RPT_UNIT => "RPT_UNIT"
  | RPT_VOLSER => "RPT_VOLSER"
  end.

Definition attr_of_name (s : string) : option attr :=
  head (filter (λ a, attr_name a = s) all_attrs).

#[global] Instance attr_eq_dec : EqDecision attr.
Proof. solve_decision. Defined.

#[global] Program Instance attr_countable : Countable attr :=
  inj_countable attr_name attr_of_name _.
Next Obligation. intros a. destruct a; vm_compute; reflexivity. Qed.

(** *** Instances *)

Record Adb2re := {
  (** the instance dictionary of the option attributes *)
  attrs : gmap attr pystr;
  PORT : string;
  DEBUG_MODE : bool;
  parameter_list : string;
  request_list : string;
  __sql_output_list : string;
  __rpt_output_list : string;
  __ddl_as_array : list column;
  __ddl_as_string : string;
  __executed_at_least_once : bool;
  __saved_report : string
}.

Definition set_attrs (v : gmap attr pystr) (self : Adb2re) : Adb2re :=
  {| attrs := v; PORT := PORT self; DEBUG_MODE := DEBUG_MODE self;
     parameter_list := parameter_list self; request_list := request_list self;
     __sql_output_list := __sql_output_list self;
     __rpt_output_list := __rpt_output_list self;
     __ddl_as_array := __ddl_as_array self;
     __ddl_as_string := __ddl_as_string self;
     __executed_at_least_once := __executed_at_least_once self;
     __saved_report := __saved_report self |}.

Definition set_PORT (v : string) (self : Adb2re) : Adb2re :=
  {| attrs := attrs self; PORT := v; DEBUG_MODE := DEBUG_MODE self;
     parameter_list := parameter_list self; request_list := request_list self;
     __sql_output_list := __sql_output_list self;
     __rpt_output_list := __rpt_output_list self;
     __ddl_as_array := __ddl_as_array self;
     __ddl_as_string := __ddl_as_string self;
     __executed_at_least_once := __executed_at_least_once self;
     __saved_report := __saved_report self |}.

Definition set_DEBUG_MODE (v : bool) (self : Adb2re) : Adb2re :=
  {| attrs := attrs self; PORT := PORT self; DEBUG_MODE := v;
     parameter_list := parameter_list self; request_list := request_list self;
     __sql_output_list := __sql_output_list self;
     __rpt_output_list := __rpt_output_list self;
     __ddl_as_array := __ddl_as_array self;
     __ddl_as_string := __ddl_as_string self;
     __executed_at_least_once := __executed_at_least_once self;
     __saved_report := __saved_report self |}.

Definition set_parameter_list (v : string) (self : Adb2re) : Adb2re :=
  {| attrs := attrs self; PORT := PORT self; DEBUG_MODE := DEBUG_MODE self;
     parameter_list := v; request_list := request_list self;
     __sql_output_list := __sql_output_list self;
     __rpt_output_list := __rpt_output_list self;
     __ddl_as_array := __ddl_as_array self;
     __ddl_as_string := __ddl_as_string self;
     __executed_at_least_once := __executed_at_least_once self;
     __saved_report := __saved_report self |}.

Definition set_request_list (v : string) (self : Adb2re) : Adb2re :=
  {| attrs := attrs self; PORT := PORT self; DEBUG_MODE := DEBUG_MODE self;
     parameter_list := parameter_list self; request_list := v;
     __sql_output_list := __sql_output_list self;
     __rpt_output_list := __rpt_output_list self;
     __ddl_as_array := __ddl_as_array self;
     __ddl_as_string := __ddl_as_string self;
     __executed_at_least_once := __executed_at_least_once self;
     __saved_report := __saved_report self |}.

Definition set_sql_output_list (v : string) (self : Adb2re) : Adb2re :=
  {| attrs := attrs self; PORT := PORT self; DEBUG_MODE := DEBUG_MODE self;
     parameter_list := parameter_list self; request_list := request_list self;
     __sql_output_list := v;
     __rpt_output_list := __rpt_output_list self;
     __ddl_as_array := __ddl_as_array self;
     __ddl_as_string := __ddl_as_string self;
     __executed_at_least_once := __executed_at_least_once self;
     __saved_report := __saved_report self |}.

Definition set_rpt_output_list (v : string) (self : Adb2re) : Adb2re :=
  {| attrs := attrs self; PORT := PORT self; DEBUG_MODE := DEBUG_MODE self;
     parameter_list := parameter_list self; request_list := request_list self;
     __sql_output_list := __sql_output_list self;
     __rpt_output_list := v;
     __ddl_as_array := __ddl_as_array self;
     __ddl_as_string := __ddl_as_string self;
     __executed_at_least_once := __executed_at_least_once self;
     __saved_report := __saved_report self |}.

Definition set_ddl_as_array (v : list column) (self : Adb2re) : Adb2re :=
  {| attrs := attrs self; PORT := PORT self; DEBUG_MODE := DEBUG_MODE self;
     parameter_list := parameter_list self; request_list := request_list self;
     __sql_output_list := __sql_output_list self;
     __rpt_output_list := __rpt_output_list self;
     __ddl_as_array := v;
     __ddl_as_string := __ddl_as_string self;
     __executed_at_least_once := __executed_at_least_once self;
     __saved_report := __saved_report self |}.

Definition set_ddl_as_string (v : string) (self : Adb2re) : Adb2re :=
  {| attrs := attrs self; PORT := PORT self; DEBUG_MODE := DEBUG_MODE self;
     parameter_list := parameter_list self; request_list := request_list self;
     __sql_output_list := __sql_output_list self;
     __rpt_output_list := __rpt_output_list self;
     __ddl_as_array := __ddl_as_array self;
     __ddl_as_string := v;
     __executed_at_least_once := __executed_at_least_once self;
     __saved_report := __saved_report self |}.

Definition set_executed_at_least_once (v : bool) (self : Adb2re) : Adb2re :=
  {| attrs := attrs self; PORT := PORT self; DEBUG_MODE := DEBUG_MODE self;
     parameter_list := parameter_list self; request_list := request_list self;
     __sql_output_list := __sql_output_list self;
     __rpt_output_list := __rpt_output_list self;
     __ddl_as_array := __ddl_as_array self;
     __ddl_as_string := __ddl_as_string self;
     __executed_at_least_once := v;
     __saved_report := __saved_report self |}.

Definition set_saved_report (v : string) (self : Adb2re) : Adb2re :=
  {| attrs := attrs self; PORT := PORT self; DEBUG_MODE := DEBUG_MODE self;
     parameter_list := parameter_list self; request_list := request_list self;
     __sql_output_list := __sql_output_list self;
     __rpt_output_list := __rpt_output_list self;
     __ddl_as_array := __ddl_as_array self;
     __ddl_as_string := __ddl_as_string self;
     __executed_at_least_once := __executed_at_least_once self;
     __saved_report := v |}.

(** ** The method monad

    A method takes the instance and gives the instance it leaves behind, the
    outside interactions it made, and either its return value or the
    exception it raised. *)

Record outcome (A : Type) := Outcome {
  out_self : Adb2re;
  out_events : list event;
  out_result : exception + A
}.
Arguments Outcome {A} _ _ _.
Arguments out_self {A} _.
Arguments out_events {A} _.
Arguments out_result {A} _.

Definition M (A : Type) : Type := Adb2re → outcome A.

#[global] Instance M_ret : MRet M := λ A x self, Outcome self [] (inr x).

#[global] Instance M_bind : MBind M := λ A B f m self,
  match m self with
  | Outcome s1 ev1 (inl e) => Outcome s1 ev1 (inl e)
  | Outcome s1 ev1 (inr x) =>
      match f x s1 with
      | Outcome s2 ev2 r => Outcome s2 (ev1 ++ ev2) r
      end
  end.

Definition raise {A} (e : exception) : M A := λ self, Outcome self [] (inl e).
Definition gets {A} (f : Adb2re → A) : M A := λ self, Outcome self [] (inr (f self)).
Definition modify (f : Adb2re → Adb2re) : M unit := λ self, Outcome (f self) [] (inr ()).
Definition emit (ev : event) : M unit := λ self, Outcome self [ev] (inr ()).

(** A value that may be missing (a failed lookup or index, an outside call
    that raises): the value, or an exception of that kind. *)
Definition answer {A} (k : error_kind) (o : option A) : M A :=
  match o with
  | Some x => mret x
  | None => raise (Exception k "")
  end.

(** [for x in l: body(x)] without [break]. *)
Fixpoint for_each {A} (l : list A) (body : A → M unit) : M unit :=
  match l with
  | [] => mret ()
  | x :: l' => body x ;; for_each l' body
  end.

(** Truth value of an [int] in a condition. *)
Definition truthy (n : nat) : bool := negb (n =? 0).

(** ** The class body and its methods *)

Section Adb2re.
Context (cfg : utility.Config).

(** [DB2REL_CONFIG = DB2_VERSION], completed to four characters when the
    configuration still gives two. *)
Definition DB2REL_CONFIG_class : pystr :=
  if bool_decide (String.length (utility.DB2_VERSION cfg) = 2)
  then sum "DB2REL_CONFIG" (utility.DB2_VERSION cfg) (lit "15")
  else utility.DB2_VERSION cfg.

(** The class attributes. *)
Definition class_attr (a : attr) : pystr :=
  match a with
  | DB2REL_CONFIG => DB2REL_CONFIG_class
  | DB2SYS => utility.DB2_SUBSYSTEM_ID cfg
  | DB2ALOC => lit ""
  | DB2SERV => sum "DB2SERV" (utility.LPAR cfg) (utility.DB2_SUBSYSTEM_ID cfg)
  | DB2AUTH => utility.TSO_USER_ID cfg
  | DB2REL => DB2REL_CONFIG_class
  | GENSG | GENDB | GENTS | GENTABLE | GENVIEW | GENINDEX | GENSYN | GENALIAS
  | GENUDT | GENUDF | GENSTP | GENSEQ | GENVAR | GENLABEL | GENCOMM | GENRELS
  | GENTRIG | GENTRUST | GENROLE | GENMASK | GENPERM | GENSEQAL => lit "N"
  | GRANTSG | GRANTDB | GRANTTS | GRANTTAB | GRANTVW | GRANTSCH | GRANTUDT
  | GRANTUDF | GRANTSTP | GRANTSEQ | GRANTVAR => lit "N"
  | ACCEPT_FL => utility.ACCEPT_FL cfg
  | ACTVCNTL => lit "N"
  | CATALOGSTATISTICS => lit "N"
  | TCATQUAL => lit ""
  | TGTFL => utility.ACCEPT_FL cfg
  | SYSCOLDIST | SYSCOLDISTSTATS | SYSCOLSTATS | SYSCOLUMNS | SYSINDEX
  | SYSIXPART | SYSIXSTATS | SYSLOBSTATS | SYSTBPART | SYSTABLES
  | SYSTABLESPACE | SYSIXPSTATS | SYSTSPSTATS | SYSROUTINES | SYSKEYTGTDIST
  | SYSKEYTGTDISTSTATS | SYSKEYTARGETSTATS => lit "Y"
  | NEWSQLID | NEWGRANTOR | NEWDB | NEWTSSG | NEWIXSG => lit ""
  | PENDCHGS => lit "Y"
  | SPCALLOC => lit "DEFINED"
  | TGTDB2 => DB2REL_CONFIG_class
  | DEFAULTS => lit "K"
  | COMMITFR => lit "A"
  | RUNSQLID => lit ""
  | SQLCMTS => lit "N"
  | SQL_OUTFLAG => lit "RS"
  | SQL_DSNAME | SQL_MEMBER | SQL_UNIT | SQL_VOLSER => lit ""
  | RPT_OUTFLAG => lit "BO"
  | RPT_DSNAME => sum "RPT_DSNAME" (utility.TSO_USER_ID cfg) (lit ".REPORT.TEMP")
  | RPT_MEMBER | RPT_UNIT | RPT_VOLSER => lit ""
  end.

(** A fresh instance, [Adb2re()]: an empty instance dictionary, every other
    attribute read from the class.  The class body sets
    [PORT = LPAR_SSID[LPAR][DB2_SUBSYSTEM_ID]] and fails to load when that
    key is missing, so [PORT] falls back on the empty string only where no
    class exists. *)
Definition new : Adb2re :=
  {| attrs := ∅;
     PORT := default "" (utility.LPAR_SSID cfg (utility.LPAR cfg)
                           (utility.DB2_SUBSYSTEM_ID cfg));
     DEBUG_MODE := false;
     parameter_list := "";
     request_list := "";
     __sql_output_list := "";
     __rpt_output_list := "";
     __ddl_as_array := [];
     __ddl_as_string := "";
     __executed_at_least_once := false;
     __saved_report := "" |}.

(** [self.A] for an option attribute: the object it evaluates to, and the
    text of that object. *)
Definition attr_object (self : Adb2re) (a : attr) : pystr :=
  default (class_attr a) (attrs self !! a).

Definition attr_value (self : Adb2re) (a : attr) : string :=
  chars (attr_object self a).

(** Reading [self.A]: for its text, as in a concatenation, and for the
    object, as in a comparison. *)
Definition getattr (a : attr) : M string := gets (λ self, attr_value self a).
Definition getobject (a : attr) : M pystr := gets (λ self, attr_object self a).

(** [self.A = v] *)
Definition setattr (a : attr) (v : pystr) : M unit :=
  modify (λ self, set_attrs (<[a := v]> (attrs self)) self).

(** The right-hand side of a comparison [self.A is not d]: a literal, a
    name of the module, another attribute of the instance, or a sum of two
    names. *)
Inductive operand :=
| Lit (s : string)
| Name (o : pystr)
| Self (a : attr)
| Sum (x y : pystr).

(** The text of the right-hand side. *)
Definition operand_value (self : Adb2re) (d : operand) : string :=
  match d with
  | Lit s => s
  | Name o => o
  | Self a => attr_value self a
  | Sum x y => x +:+ y
  end.

(** The object of the right-hand side; [None] is an object built on the
    spot, which no attribute can hold. *)
Definition operand_object (self : Adb2re) (d : operand) : option pystr :=
  match d with
  | Lit s => Some (lit s)
  | Name o => Some o
  | Self a => Some (attr_object self a)
  | Sum x y => add x y
  end.

Definition eval (d : operand) : M (option pystr) :=
  gets (λ self, operand_object self d).

(** [v is not d] for an evaluated right-hand side. *)
Definition is_not_operand (v : pystr) (d : option pystr) : bool :=
  match d with
  | Some o => is_not v o
  | None => true
  end.

(** *** Building the request list *)

Definition add_stogroup (sgname : string) : M unit :=
  modify (λ self,
    set_request_list (request_list self +:+ "TYPE='SG',NAME='" +:+ sgname +:+ "';") self).

Definition add_database (dbname : string) : M unit :=
  modify (λ self,
    set_request_list (request_list self +:+ "TYPE='DB',NAME='" +:+ dbname +:+ "';") self).

Definition __add_object (type qual name : string) : M unit :=
  modify (λ self,
    set_request_list
      (request_list self
         +:+ "TYPE='" +:+ type +:+ "',QUAL='" +:+ qual +:+ "',NAME='" +:+ name +:+ "';")
      self).

Definition add_tablespace (dbname tsname : string) : M unit :=
  __add_object "TS" dbname tsname.
Definition add_table (qual name : string) : M unit := __add_object "TB" qual name.
Definition add_view (qual name : string) : M unit := __add_object "VW" qual name.
Definition add_alias (qual name : string) : M unit := __add_object "AL" qual name.
Definition add_index (qual name : string) : M unit := __add_object "IX" qual name.
Definition add_user_defined_type (qual name : string) : M unit :=
  __add_object "DT" qual name.
Definition add_user_defined_function (qual name : string) : M unit :=
  __add_object "FU" qual name.
Definition add_stored_procedure (qual name : string) : M unit :=
  __add_object "SP" qual name.
Definition add_sequence (qual name : string) : M unit := __add_object "SQ" qual name.

Definition add_sequence_alias (qual name : string) : M unit :=
  modify (λ self,
    set_request_list
      (request_list self +:+ "SCH='" +:+ qual +:+ "'," +:+ "SEQ='" +:+ name +:+ "';")
      self).

Definition add_schema (name : string) : M unit :=
  modify (λ self,
    set_request_list (request_list self +:+ "SCH='" +:+ name +:+ "';") self).

Definition add_trigger (qual name : string) : M unit := __add_object "TG" qual name.
Definition add_synonym (qual name : string) : M unit := __add_object "SY" qual name.

(** *** Building the parameter list *)

(** One guarded line of [__build_parameter_list]:
    [if self.A is not d: self.parameter_list += ",KEY='" + self.A + "'"]. *)
Definition add_parameter (c : attr * operand * string) : M unit :=
  let '(a, d, key) := c in
  v ← getobject a;
  d ← eval d;
  if is_not_operand v d then
    v ← getattr a;
    modify (λ self,
      set_parameter_list (parameter_list self +:+ "," +:+ key +:+ "='" +:+ v +:+ "'") self)
  else mret ().

(** The guarded lines of [__build_parameter_list], in source order: the
    attribute read, the value it is compared with, the keyword written. *)
Definition parameter_checks : list (attr * operand * string) :=
  [
    (DB2ALOC, Lit "", "DB2ALOC");
    (DB2SERV, Sum (utility.LPAR cfg) (utility.DB2_SUBSYSTEM_ID cfg), "DB2SERV");
    (DB2AUTH, Name (utility.TSO_USER_ID cfg), "DB2AUTH");
    (GENSG, Lit "N", "GENSG");
    (GENDB, Lit "N", "GENDB");
    (GENTS, Lit "N", "GENTS");
    (GENTABLE, Lit "N", "GENTABLE");
    (GENVIEW, Lit "N", "GENVIEW");
    (GENINDEX, Lit "N", "GENINDEX");
    (GENSYN, Lit "N", "GENSYN");
    (GENALIAS, Lit "N", "GENALIAS");
    (GENUDT, Lit "N", "GENUDT");
    (GENUDF, Lit "N", "GENUDF");
    (GENSTP, Lit "N", "GENSTP");
    (GENSEQ, Lit "N", "GENSEQ");
    (GENVAR, Lit "N", "GENVAR");
    (GENLABEL, Lit "N", "GENLABEL");
    (GENCOMM, Lit "N", "GENCOMM");
    (GENRELS, Lit "N", "GENRELS");
    (GENTRIG, Lit "N", "GENTRIG");
    (GENTRUST, Lit "N", "GENTRUST");
    (GENROLE, Lit "N", "GENROLE");
    (GENMASK, Lit "N", "GENMASK");
    (GENPERM, Lit "N", "GENPERM");
    (GENSEQAL, Lit "N", "GENSEQAL");
    (GRANTSG, Lit "N", "GRANTSG");
    (GRANTDB, Lit "N", "GRANTDB");
    (GRANTTS, Lit "N", "GRANTTS");
    (GRANTTAB, Lit "N", "GRANTTAB");
    (GRANTVW, Lit "N", "GRANTVW");
    (GRANTSCH, Lit "N", "GRANTSCH");
    (GRANTUDT, Lit "N", "GRANTUDT");
    (GRANTUDF, Lit "N", "GRANTUDF");
    (GRANTSTP, Lit "N", "GRANTSTP");
    (GRANTSEQ, Lit "N", "GRANTSEQ");
    (GRANTVAR, Lit "N", "GRANTVAR");
    (ACCEPT_FL, Name (utility.ACCEPT_FL cfg), "ACCEPT_FL");
    (ACTVCNTL, Lit "N", "ACTVCNTL");
    (CATALOGSTATISTICS, Lit "N", "CATALOGSTATISTICS");
    (TCATQUAL, Lit "", "TCATQUAL");
    (TGTFL, Name (utility.ACCEPT_FL cfg), "TGTFL");
    (SYSCOLDIST, Lit "Y", "GENSTATS.SYSCOLDIST");
    (SYSCOLDISTSTATS, Lit "Y", "GENSTATS.SYSCOLDISTSTATS");
    (SYSCOLSTATS, Lit "Y", "GENSTATS.SYSCOLSTATS");
    (SYSCOLUMNS, Lit "Y", "GENSTATS.SYSCOLUMNS");
    (SYSINDEX, Lit "Y", "GENSTATS.SYSINDEXES");
    (SYSIXPART, Lit "Y", "GENSTATS.SYSINDEXPART");
    (SYSIXSTATS, Lit "Y", "GENSTATS.SYSINDEXSTATS");
    (SYSLOBSTATS, Lit "Y", "GENSTATS.SYSLOBSTATS");
    (SYSTBPART, Lit "Y", "GENSTATS.SYSTABLEPART");
    (SYSTABLES, Lit "Y", "GENSTATS.SYSTABLES");
    (SYSTABLESPACE, Lit "Y", "GENSTATS.SYSTABLESPACE");
    (SYSIXPSTATS, Lit "Y", "GENSTATS.SYSINDEXSPACESTATS");
    (SYSTSPSTATS, Lit "Y", "GENSTATS.SYSTABLESPACESTATS");
    (SYSKEYTGTDISTSTATS, Lit "Y", "GENSTATS.SYSKEYTGTDISTSTATS");
    (SYSKEYTARGETSTATS, Lit "Y", "GENSTATS.SYSKEYTARGETSTATS");
    (SYSKEYTGTDIST, Lit "Y", "GENSTATS.SYSKEYTGTDIST");
    (SYSROUTINES, Lit "Y", "GENSTATS.SYSROUTINES");
    (NEWGRANTOR, Lit "", "NEWGRANTOR");
    (NEWDB, Lit "", "NEWDB");
    (NEWTSSG, Lit "", "NEWTSSG");
    (NEWIXSG, Lit "", "NEWIXSG");
    (NEWSQLID, Lit "", "NEWSQLID");
    (PENDCHGS, Lit "Y", "PENDCHGS");
    (SPCALLOC, Lit "DEFINED", "SPCALLOC");
    (TGTDB2, Self DB2REL_CONFIG, "TGTDB2");
    (DEFAULTS, Lit "K", "DEFAULTS");
    (COMMITFR, Lit "A", "COMMITFR");
    (RUNSQLID, Lit "", "RUNSQLID");
    (SQLCMTS, Lit "", "SQLCMTS")
  ].

Definition __build_parameter_list : M unit :=
  (* always add these two as they are required *)
  sys ← getattr DB2SYS;
  rel ← getattr DB2REL;
  modify (set_parameter_list ("DB2SYS='" +:+ sys +:+ "',DB2REL='" +:+ rel +:+ "'"));;
  (* for remaining variables, only add if they differ from the default *)
  for_each parameter_checks add_parameter;;
  (* add semicolon *)
  modify (λ self, set_parameter_list (parameter_list self +:+ ";") self).

(** *** Building the output lists *)

Definition add_sql_output (c : attr * operand * string) : M unit :=
  let '(a, d, key) := c in
  v ← getobject a;
  d ← eval d;
  if is_not_operand v d then
    v ← getattr a;
    modify (λ self,
      set_sql_output_list (__sql_output_list self +:+ "," +:+ key +:+ "='" +:+ v +:+ "'") self)
  else mret ().

Definition add_rpt_output (c : attr * operand * string) : M unit :=
  let '(a, d, key) := c in
  v ← getobject a;
  d ← eval d;
  if is_not_operand v d then
    v ← getattr a;
    modify (λ self,
      set_rpt_output_list (__rpt_output_list self +:+ "," +:+ key +:+ "='" +:+ v +:+ "'") self)
  else mret ().

Definition __build_output_lists : M unit :=
  (* sql-output options; outflag is always required *)
  flag ← getattr SQL_OUTFLAG;
  modify (set_sql_output_list ("SQL_OUTFLAG='" +:+ flag +:+ "'"));;
  for_each
    [ (SQL_DSNAME, Lit "", "SQL_DSNAME");
      (SQL_MEMBER, Lit "", "SQL_MEMBER");
      (SQL_UNIT, Lit "", "SQL_UNIT");
      (SQL_VOLSER, Lit "", "SQL_VOLSER") ] add_sql_output;;
  modify (λ self, set_sql_output_list (__sql_output_list self +:+ ";") self);;
  (* report-output options; outflag is always required *)
  flag ← getattr RPT_OUTFLAG;
  modify (set_rpt_output_list ("RPT_OUTFLAG='" +:+ flag +:+ "'"));;
  dsname ← getattr RPT_DSNAME;
  modify (λ self,
    set_rpt_output_list (__rpt_output_list self +:+ ",RPT_DSNAME='" +:+ dsname +:+ "'") self);;
  for_each
    [ (RPT_MEMBER, Lit "", "RPT_MEMBER");
      (RPT_UNIT, Lit "", "RPT_UNIT");
      (RPT_VOLSER, Lit "", "RPT_VOLSER") ] add_rpt_output;;
  modify (λ self, set_rpt_output_list (__rpt_output_list self +:+ ";") self).

(** *** Result accessors *)

Definition get_ddl_as_array : M (list column) :=
  executed ← gets __executed_at_least_once;
  if negb executed
  then raise (Exception NotExecutedError "adb2re.py: Call execute() before retrieving DDL")
  else gets __ddl_as_array.

Definition get_ddl_as_string : M string :=
  executed ← gets __executed_at_least_once;
  if negb executed
  then raise (Exception NotExecutedError "adb2re.py: Call execute() before retrieving DDL")
  else gets __ddl_as_string.

Definition get_report_as_string : M string :=
  executed ← gets __executed_at_least_once;
  if negb executed
  then raise (Exception NotExecutedError "adb2re.py: Call execute() before retrieving report")
  else gets __saved_report.

(** *** Assertions on the report *)

Fixpoint report_loop (positive_test : bool) (text : list string) : M unit :=
  match text with
  | [] => mret ()
  | line :: text' =>
      report ← gets __saved_report;
      if positive_test && negb (truthy (PyStr.count report line)) then
        report ← gets __saved_report;
        raise (Exception ReportAssertionError
                 ("adb2re.py Failed to find line '" +:+ line
                    +:+ "' in report. Full report:" +:+ LF +:+ LF +:+ report))
      else if negb positive_test && truthy (PyStr.count report line) then
        report ← gets __saved_report;
        raise (Exception ReportAssertionError
                 ("adb2re.py Unexpectedly found line '" +:+ line
                    +:+ "' in report. Full report:" +:+ LF +:+ LF +:+ report))
      else report_loop positive_test text'
  end.

Definition assert_text_in_report (text : list string) (positive_test : bool) : M unit :=
  dsname ← getobject RPT_DSNAME;
  if is_ dsname (lit "")
  then raise (Exception ConfigurationError
                "adb2re.py: RPT_DSNAME must be set before calling execute()")
  else report_loop positive_test text.

Definition assert_text_not_in_report (text : list string) : M unit :=
  assert_text_in_report text false.

(** *** The checklist assertion *)

(** [for item in sublist: ...] on one statement; the value is
    [found_first_one] when the loop ends or breaks. *)
Fixpoint item_loop (sublist : list string) (stmt term : string)
    (items : list string) (found_first_one : bool) (count : nat) : M bool :=
  match items with
  | [] => mret found_first_one
  | item :: items' =>
      (* only start checking once the first element is found *)
      if truthy (PyStr.count stmt item) then
        item_loop sublist stmt term items' true (count + 1)
      (* this stmt contained at least the first item, but not one later in
         the list, so fail *)
      else if found_first_one then
        ddl ← get_ddl_as_string;
        raise (Exception ChecklistMismatchError
                 ("adb2re.py: Failed on sub-checklist:" +:+ LF
                    +:+ PyStr.join LF sublist +:+ LF +:+ "Could not "
                    +:+ "find item#: " +:+ PyStr.str count
                    +:+ ", string value '" +:+ item
                    +:+ "' in this statement:" +:+ LF
                    +:+ stmt +:+ term +:+ LF +:+ "Full DDL:" +:+ LF +:+ ddl))
      (* didn't find the first one? move on to next stmt *)
      else mret found_first_one
  end.

(** [for stmt in split_ddl: ...]; [found_first_one] is [None] while the
    variable is unbound. *)
Fixpoint stmt_loop (sublist : list string) (term : string)
    (split_ddl : list string) (found_first_one : option bool) : M (option bool) :=
  match split_ddl with
  | [] => mret found_first_one
  | stmt :: split_ddl' =>
      (* split took off the terminator. add it back *)
      let stmt := stmt +:+ term in
      found_first_one ← item_loop sublist stmt term sublist false 1;
      (* if found_first_one and didn't fail, move on *)
      if (found_first_one : bool) then mret (Some true)
      else stmt_loop sublist term split_ddl' (Some false)
  end.

(** [for sublist in checklist: ...] *)
Fixpoint sublist_loop (term : string) (split_ddl : list string)
    (checklist : list (list string)) (found_first_one : option bool) : M unit :=
  match checklist with
  | [] => mret ()
  | sublist :: checklist' =>
      found_first_one ← stmt_loop sublist term split_ddl found_first_one;
      match found_first_one with
      | None => raise (Exception UnboundLocalError "found_first_one")
      (* iterated entire DDL but didn't get a single hit on the sublist *)
      | Some false =>
          raise (Exception ChecklistMismatchError
                   ("adb2re.py: Could not find any items in DDL from sub-checklist:"
                      +:+ LF +:+ PyStr.join LF sublist))
      | Some true => sublist_loop term split_ddl checklist' found_first_one
      end
  end.

Definition assert_text_between_terminators
    (checklist : list (list string)) (term : string) : M unit :=
  executed ← gets __executed_at_least_once;
  if negb executed
  then raise (Exception NotExecutedError "adb2re.py: Call execute() before retrieving DDL")
  else
    ddl ← get_ddl_as_string;
    if bool_decide (PyStr.find ddl term < 0)%Z then
      ddl ← get_ddl_as_string;
      raise (Exception FormatError
               ("adb2re.py: Could not find terminator '" +:+ term +:+ "' in DDL:"
                  +:+ LF +:+ ddl))
    else
      ddl ← get_ddl_as_string;
      split_ddl ← answer ValueError (PyStr.split ddl term);
      sublist_loop term split_ddl checklist None.

(** *** Bulk setters *)

Definition set_all_gen_options (value : pystr) : M unit :=
  for_each
    [GENSG; GENDB; GENTS; GENTABLE; GENVIEW; GENINDEX; GENSYN; GENALIAS;
     GENUDT; GENUDF; GENSTP; GENSEQ; GENVAR; GENLABEL; GENCOMM; GENRELS;
     GENTRIG; GENTRUST; GENROLE; GENMASK; GENPERM; GENSEQAL]
    (λ a, setattr a value).

Definition set_all_grant_options (value : pystr) : M unit :=
  for_each
    [GRANTSG; GRANTDB; GRANTTS; GRANTTAB; GRANTVW; GRANTSCH; GRANTUDT;
     GRANTUDF; GRANTSTP; GRANTSEQ; GRANTVAR]
    (λ a, setattr a value).

(** *** Execution *)

Context (w : World).

(** [execute(ssid)].  The calls to the logger and the lookup of the driver
    files next to the [db2] module have no effect on the instance and are
    left out.  Every call on the driver and on the data set reader is
    recorded, and may raise. *)
Definition execute (ssid : pystr) : M unit :=
  rl ← gets request_list;
  if bool_decide (String.length rl < 1) then
    raise (Exception ConfigurationError
             "adb2re.py: request_list cannot be empty; use functions like add_table to build the list")
  else
    (* update SSID if given *)
    port ← answer KeyError (utility.LPAR_SSID cfg (utility.LPAR cfg) ssid);
    modify (set_PORT port);;
    setattr DB2SYS ssid;;
    setattr DB2ALOC (lit "");;
    setattr DB2SERV (sum "DB2SERV" (utility.LPAR cfg) ssid);;
    (* build parameter list *)
    __build_parameter_list;;
    (* build sql and rpt options *)
    __build_output_lists;;
    (* connect *)
    port ← gets PORT;
    serv ← getattr DB2SERV;
    let url := "jdbc:db2://" +:+ utility.LPAR cfg +:+ ".rocketsoftware.com:"
                 +:+ port +:+ "/" +:+ serv in
    emit (EConnect url);;
    (if connect w url then mret () else raise (Exception ExternalError ""));;
    (* call the stored procedure *)
    emit ECursor;;
    (if cursor w then mret () else raise (Exception ExternalError ""));;
    args ← gets (λ self,
      [parameter_list self; request_list self; __sql_output_list self;
       __rpt_output_list self; if DEBUG_MODE self then "DEBUG" else ""; ""]);
    let statement := "Call " +:+ utility.TSO_USER_ID cfg +:+ ".ADB2RE(?, ?, ?, ?, ?, ?)" in
    emit (ECall statement args);;
    (* the result set the cursor holds after the call *)
    rows ← answer ExternalError (call_ADB2RE w args);
    dsname ← getobject RPT_DSNAME;
    (if is_not dsname (lit "") then
       dsname ← getattr RPT_DSNAME;
       emit (EReadDs dsname);;
       report ← answer ExternalError (read_ds w dsname);
       modify (set_saved_report report);;
       (* validate report *)
       assert_text_in_report ["ADB2GEN - Create DDL from catalog info"] true;;
       (* automatically check for -805 *)
       assert_text_not_in_report ["SQLCODE=-805"; "SQLCODE = -805"]
     else mret ());;
    (* fetch ddl *)
    modify (set_ddl_as_array []);;
    modify (set_ddl_as_string "");;
    emit (EFetchAll rows);;
    (if fetchall w then mret () else raise (Exception ExternalError ""));;
    for_each rows (λ row,
      col ← answer IndexError (row !! 1);
      modify (λ self, set_ddl_as_array (__ddl_as_array self ++ [col]) self));;
    array ← gets __ddl_as_array;
    for_each array (λ row,
      match row with
      | Str row =>
          modify (λ self, set_ddl_as_string (__ddl_as_string self +:+ row +:+ LF) self)
      | NotStr => raise (Exception TypeError "")
      end);;
    modify (set_executed_at_least_once true);;
    emit ECursorClose;;
    (if close w then mret () else raise (Exception ExternalError "")).

End Adb2re.

(** ** Callers

    A caller drives an instance through its public interface: method calls
    and assignments to the option attributes.  An exception a call raises is
    the caller's to handle; the instance lives on in the state the call left
    it in. *)
Inductive call :=
| Cadd_stogroup (sgname : string)
| Cadd_database (dbname : string)
| Cadd_tablespace (dbname tsname : string)
| Cadd_table (qual name : string)
| Cadd_view (qual name : string)
| Cadd_alias (qual name : string)
| Cadd_index (qual name : string)
| Cadd_user_defined_type (qual name : string)
| Cadd_user_defined_function (qual name : string)
| Cadd_stored_procedure (qual name : string)
| Cadd_sequence (qual name : string)
| Cadd_sequence_alias (qual name : string)
| Cadd_schema (name : string)
| Cadd_trigger (qual name : string)
| Cadd_synonym (qual name : string)
| Csetattr (a : attr) (v : pystr)
| Cset_DEBUG_MODE (v : bool)
| Cset_all_gen_options (value : pystr)
| Cset_all_grant_options (value : pystr)
| Cexecute (w : World) (ssid : pystr)
| Cget_ddl_as_array
| Cget_ddl_as_string
| Cget_report_as_string
| Cassert_text_between_terminators (checklist : list (list string)) (term : string)
| Cassert_text_in_report (text : list string) (positive_test : bool)
| Cassert_text_not_in_report (text : list string).

Definition perform (cfg : utility.Config) (c : call) : M unit :=
  match c with
  | Cadd_stogroup sgname => add_stogroup sgname
  | Cadd_database dbname => add_database dbname
  | Cadd_tablespace dbname tsname => add_tablespace dbname tsname
  | Cadd_table qual name => add_table qual name
  | Cadd_view qual name => add_view qual name
  | Cadd_alias qual name => add_alias qual name
  | Cadd_index qual name => add_index qual name
  | Cadd_user_defined_type qual name => add_user_defined_type qual name
  | Cadd_user_defined_function qual name => add_user_defined_function qual name
  | Cadd_stored_procedure qual name => add_stored_procedure qual name
  | Cadd_sequence qual name => add_sequence qual name
  | Cadd_sequence_alias qual name => add_sequence_alias qual name
  | Cadd_schema name => add_schema name
  | Cadd_trigger qual name => add_trigger qual name
  | Cadd_synonym qual name => add_synonym qual name
  | Csetattr a v => setattr a v
  | Cset_DEBUG_MODE v => modify (set_DEBUG_MODE v)
  | Cset_all_gen_options value => set_all_gen_options value
  | Cset_all_grant_options value => set_all_grant_options value
  | Cexecute w ssid => execute cfg w ssid
  | Cget_ddl_as_array => get_ddl_as_array ;; mret ()
  | Cget_ddl_as_string => get_ddl_as_string ;; mret ()
  | Cget_report_as_string => get_report_as_string ;; mret ()
  | Cassert_text_between_terminators checklist term =>
      assert_text_between_terminators checklist term
  | Cassert_text_in_report text positive_test =>
      assert_text_in_report cfg text positive_test
  | Cassert_text_not_in_report text => assert_text_not_in_report cfg text
  end.

(** The instance after a sequence of calls. *)
Definition run_calls (cfg : utility.Config) (cs : list call) (self : Adb2re) : Adb2re :=
  foldl (λ s c, out_self (perform cfg c s)) self cs.

(** [execute] ran to completion somewhere in the sequence. *)
Fixpoint executed_successfully (cfg : utility.Config) (cs : list call)
    (self : Adb2re) : bool :=
  match cs with
  | [] => false
  | c :: cs' =>
      match c, out_result (perform cfg c self) with
      | Cexecute _ _, inr _ => true
      | _, _ => executed_successfully cfg cs' (out_self (perform cfg c self))
      end
  end.

(** Some [execute] of the sequence got as far as closing the cursor: it
    returned, or it raised in [cursor.close()]. *)
Fixpoint reached_close (cfg : utility.Config) (cs : list call)
    (self : Adb2re) : bool :=
  match cs with
  | [] => false
  | c :: cs' =>
      match c with
      | Cexecute _ _ => bool_decide (ECursorClose ∈ out_events (perform cfg c self))
      | _ => false
      end
      || reached_close cfg cs' (out_self (perform cfg c self))
  end.

(** ** A sample configuration and outside *)

Definition sample_cfg : utility.Config :=
  {| utility.DB2_VERSION := PyObj "12" (Object 0);
     utility.LPAR := PyObj "RS22" (Object 1);
     utility.DB2_SUBSYSTEM_ID := PyObj "DC1A" (Object 2);
     utility.TSO_USER_ID := PyObj "TS5816" (Object 3);
     utility.ACCEPT_FL := PyObj "V12R1M500" (Object 4);
     utility.TARGET := "rs22.example.com";
     utility.PASSWORD := "secret";
     utility.LPAR_SSID := λ lpar ssid,
       if bool_decide (lpar = "RS22" ∧ ssid = "DC1A") then Some "3720" else None |}.

(** An outside on which no call raises: it answers the procedure call with
    [rows], all columns strings, and the read of the report with [report]. *)
Definition sample_world (rows : list (list string)) (report : string) : World :=
  {| connect := λ _, true;
     cursor := true;
     call_ADB2RE := λ _, Some (map (map Str) rows);
     read_ds := λ _, Some report;
     fetchall := true;
     close := true |}.

Definition banner : string := "ADB2GEN - Create DDL from catalog info".

(** An instance with one table requested, ready to execute. *)
Definition sample_ready : Adb2re := out_self (add_table "Q" "T" (new sample_cfg)).

(** The outcome of executing [sample_ready] against an outside that answers
    with [rows] and [report]. *)
Definition sample_run (rows : list (list string)) (report : string) : outcome unit :=
  execute sample_cfg (sample_world rows report) (lit "DC1A") sample_ready.

(** ** Specification functions *)

(** Concatenation of a list of strings. *)
Definition cat (l : list string) : string := foldr String.append "" l.

(** Does the guarded line [c] of [__build_parameter_list] fire on [self]:
    it does unless the attribute holds the very object it is compared with;
    and what does it write. *)
Definition changed (cfg : utility.Config) (self : Adb2re)
    (c : attr * operand * string) : bool :=
  match operand_object cfg self c.1.2 with
  | Some o => is_not (attr_object cfg self c.1.1) o
  | None => true
  end.

Definition fragment (cfg : utility.Config) (self : Adb2re)
    (c : attr * operand * string) : string :=
  "," +:+ c.2 +:+ "='" +:+ attr_value cfg self c.1.1 +:+ "'".

Definition fragments (cfg : utility.Config) (self : Adb2re)
    (l : list (attr * operand * string)) : string :=
  cat (fragment cfg self <$> filter (λ c, changed cfg self c = true) l).

(** The text [__build_parameter_list] leaves in [parameter_list]. *)
Definition rendered_parameter_list (cfg : utility.Config) (self : Adb2re) : string :=
  "DB2SYS='" +:+ attr_value cfg self DB2SYS
    +:+ "',DB2REL='" +:+ attr_value cfg self DB2REL +:+ "'"
    +:+ fragments cfg self (parameter_checks cfg) +:+ ";".

(** The entry [add_table] appends for a qualifier and a name, without the
    closing [;]. *)
Definition table_entry (p : string * string) : string :=
  "TYPE='TB',QUAL='" +:+ p.1 +:+ "',NAME='" +:+ p.2 +:+ "'".

(** [add_table] called for each pair in turn. *)
Definition add_tables (pairs : list (string * string)) : M unit :=
  for_each pairs (λ p, add_table p.1 p.2).

(** The message of the exception [assert_text_in_report] raises for [line]. *)
Definition report_message (positive_test : bool) (line report : string) : string :=
  (if positive_test
   then "adb2re.py Failed to find line '"
   else "adb2re.py Unexpectedly found line '")
    +:+ line +:+ "' in report. Full report:" +:+ LF +:+ LF +:+ report.

(** What [assert_text_in_report] asks of a line: to occur in the report
    when [positive_test] holds, not to occur otherwise. *)
Definition line_expected (positive_test : bool) (report line : string) : Prop :=
  PyStr.occurs line report ↔ positive_test = true.

(** A checklist row is satisfied by the split statements: the first
    statement that, with its terminator put back, contains the first item of
    the row contains every other item of the row too. *)
Definition row_satisfied (term : string) (split_ddl : list string)
    (row : list string) : Prop :=
  ∃ first rest pre c post,
    row = first :: rest ∧
    split_ddl = pre ++ c :: post ∧
    Forall (λ s, ¬ PyStr.occurs first (s +:+ term)) pre ∧
    PyStr.occurs first (c +:+ term) ∧
    Forall (λ item, PyStr.occurs item (c +:+ term)) rest.

(** An instance that has executed and holds [ddl] as its DDL string. *)
Definition executed_with (cfg : utility.Config) (ddl : string) : Adb2re :=
  set_executed_at_least_once true (set_ddl_as_string ddl (new cfg)).

(** The results of the last successful execution an instance holds. *)
Definition results (self : Adb2re) : list column * string * bool :=
  (__ddl_as_array self, __ddl_as_string self, __executed_at_least_once self).

(** The DDL string [execute] builds from the fetched lines: every line
    followed by a newline. *)
Definition lines_text (lines : list string) : string :=
  cat ((λ line, line +:+ LF) <$> lines).

(** [wp m self Q E]: run from [self], the method [m] either returns a value
    satisfying [Q] or raises an exception satisfying [E]; both see the
    instance left behind and the interactions made. *)
Definition wp {A} (m : M A) (self : Adb2re)
    (Q : A → Adb2re → list event → Prop)
    (E : exception → Adb2re → list event → Prop) : Prop :=
  match m self with
  | Outcome s ev (inr x) => Q x s ev
  | Outcome s ev (inl e) => E e s ev
  end.

(** [silent m]: [m] makes no outside interaction and, whether it returns or
    raises, leaves the stored DDL and the has-executed flag as they were. *)
Definition silent {A} (m : M A) : Prop :=
  ∀ self, out_events (m self) = []
          ∧ results (out_self (m self)) = results self.

(** What [execute] guarantees when it returns: the flag is set, the cursor
    was closed, and the rows fetched all had a string in their second
    column, which the array holds and the string holds newline-terminated. *)
Definition executed_post (s : Adb2re) (ev : list event) : Prop :=
  __executed_at_least_once s = true
  ∧ ECursorClose ∈ ev
  ∧ ∃ rows lines,
      EFetchAll rows ∈ ev
      ∧ Forall2 (λ row line, row !! 1 = Some (Str line)) rows lines
      ∧ __ddl_as_array s = Str <$> lines
      ∧ __ddl_as_string s = lines_text lines.

(** The error kinds [execute] raises before it resets the stored DDL. *)
Definition before_reset (k : error_kind) : Prop :=
  k = ConfigurationError ∨ k = KeyError ∨ k = ReportAssertionError.

(** What [execute] guarantees when it raises [e]: the flag is set exactly
    when the run got as far as closing the cursor, and is left alone
    otherwise; an exception of a kind raised only before the reset leaves
    the stored DDL and the flag alone. *)
Definition failed_post (self : Adb2re) (e : exception) (s : Adb2re)
    (ev : list event) : Prop :=
  (ECursorClose ∈ ev → __executed_at_least_once s = true)
  ∧ (ECursorClose ∉ ev →
     __executed_at_least_once s = __executed_at_least_once self)
  ∧ (before_reset (kind e) → results s = results self).

(** [read_only m]: whether it returns or raises, [m] leaves the instance as
    it found it and makes no outside interaction. *)
Definition read_only {A} (m : M A) : Prop :=
  ∀ self, out_self (m self) = self ∧ out_events (m self) = [].

(** [preserves proj m]: whether it returns or raises, [m] leaves the part
    [proj] of the instance as it found it. *)
Definition preserves {A B} (proj : Adb2re → B) (m : M A) : Prop :=
  ∀ self, proj (out_self (m self)) = proj self.

(** The options [set_all_gen_options] and [set_all_grant_options] assign. *)
Definition gen_options : list attr :=
  [GENSG; GENDB; GENTS; GENTABLE; GENVIEW; GENINDEX; GENSYN; GENALIAS;
   GENUDT; GENUDF; GENSTP; GENSEQ; GENVAR; GENLABEL; GENCOMM; GENRELS;
   GENTRIG; GENTRUST; GENROLE; GENMASK; GENPERM; GENSEQAL].

Definition grant_options : list attr :=
  [GRANTSG; GRANTDB; GRANTTS; GRANTTAB; GRANTVW; GRANTSCH; GRANTUDT;
   GRANTUDF; GRANTSTP; GRANTSEQ; GRANTVAR].

(** What an optional field of an output list contributes: its assignment
    when it has a value, nothing when it is empty. *)
Definition optional_field (key value : string) : string :=
  if bool_decide (value ≠ "") then "," +:+ key +:+ "='" +:+ value +:+ "'" else "".

(** The texts [__build_output_lists] leaves in the two output lists. *)
Definition rendered_sql_output_list (cfg : utility.Config) (self : Adb2re) : string :=
  "SQL_OUTFLAG='" +:+ attr_value cfg self SQL_OUTFLAG +:+ "'"
    +:+ optional_field "SQL_DSNAME" (attr_value cfg self SQL_DSNAME)
    +:+ optional_field "SQL_MEMBER" (attr_value cfg self SQL_MEMBER)
    +:+ optional_field "SQL_UNIT" (attr_value cfg self SQL_UNIT)
    +:+ optional_field "SQL_VOLSER" (attr_value cfg self SQL_VOLSER)
    +:+ ";".

Definition rendered_rpt_output_list (cfg : utility.Config) (self : Adb2re) : string :=
  "RPT_OUTFLAG='" +:+ attr_value cfg self RPT_OUTFLAG +:+ "'"
    +:+ ",RPT_DSNAME='" +:+ attr_value cfg self RPT_DSNAME +:+ "'"
    +:+ optional_field "RPT_MEMBER" (attr_value cfg self RPT_MEMBER)
    +:+ optional_field "RPT_UNIT" (attr_value cfg self RPT_UNIT)
    +:+ optional_field "RPT_VOLSER" (attr_value cfg self RPT_VOLSER)
    +:+ ";".

(** The entry an "add" call appends to the request list, without the
    closing [;]; [None] for the calls that are not one of the "add"s. *)
Definition add_entry (c : call) : option string :=
  match c with
  | Cadd_stogroup sgname => Some ("TYPE='SG',NAME='" +:+ sgname +:+ "'")
  | Cadd_database dbname => Some ("TYPE='DB',NAME='" +:+ dbname +:+ "'")
  | Cadd_tablespace q n => Some ("TYPE='TS',QUAL='" +:+ q +:+ "',NAME='" +:+ n +:+ "'")
  | Cadd_table q n => Some ("TYPE='TB',QUAL='" +:+ q +:+ "',NAME='" +:+ n +:+ "'")
  | Cadd_view q n => Some ("TYPE='VW',QUAL='" +:+ q +:+ "',NAME='" +:+ n +:+ "'")
  | Cadd_alias q n => Some ("TYPE='AL',QUAL='" +:+ q +:+ "',NAME='" +:+ n +:+ "'")
  | Cadd_index q n => Some ("TYPE='IX',QUAL='" +:+ q +:+ "',NAME='" +:+ n +:+ "'")
  | Cadd_user_defined_type q n =>
      Some ("TYPE='DT',QUAL='" +:+ q +:+ "',NAME='" +:+ n +:+ "'")
  | Cadd_user_defined_function q n =>
      Some ("TYPE='FU',QUAL='" +:+ q +:+ "',NAME='" +:+ n +:+ "'")
  | Cadd_stored_procedure q n =>
      Some ("TYPE='SP',QUAL='" +:+ q +:+ "',NAME='" +:+ n +:+ "'")
  | Cadd_sequence q n => Some ("TYPE='SQ',QUAL='" +:+ q +:+ "',NAME='" +:+ n +:+ "'")
  | Cadd_sequence_alias q n => Some ("SCH='" +:+ q +:+ "',SEQ='" +:+ n +:+ "'")
  | Cadd_schema n => Some ("SCH='" +:+ n +:+ "'")
  | Cadd_trigger q n => Some ("TYPE='TG',QUAL='" +:+ q +:+ "',NAME='" +:+ n +:+ "'")
  | Cadd_synonym q n => Some ("TYPE='SY',QUAL='" +:+ q +:+ "',NAME='" +:+ n +:+ "'")
  | _ => None
  end.

(** The qualifier and name a caller passes to an "add" call. *)
Definition add_arguments (c : call) : list string :=
  match c with
  | Cadd_stogroup n | Cadd_database n | Cadd_schema n => [n]
  | Cadd_tablespace q n | Cadd_table q n | Cadd_view q n | Cadd_alias q n
  | Cadd_index q n | Cadd_user_defined_type q n
  | Cadd_user_defined_function q n | Cadd_stored_procedure q n
  | Cadd_sequence q n | Cadd_sequence_alias q n | Cadd_trigger q n
  | Cadd_synonym q n => [q; n]
  | _ => []
  end.

(** The instance as [execute(ssid)] has prepared it when it turns to the
    outside: the port looked up, [DB2SYS], [DB2ALOC] and [DB2SERV]
    overwritten, the parameter list and the two output lists built. *)
Definition prepared (cfg : utility.Config) (ssid : pystr) (port : string)
    (self : Adb2re) : Adb2re :=
  let s1 :=
    set_attrs
      (<[DB2SERV := sum "DB2SERV" (utility.LPAR cfg) ssid]>
         (<[DB2ALOC := lit ""]> (<[DB2SYS := ssid]> (attrs self))))
      (set_PORT port self) in
  let s2 := set_parameter_list (rendered_parameter_list cfg s1) s1 in
  set_rpt_output_list (rendered_rpt_output_list cfg s2)
    (set_sql_output_list (rendered_sql_output_list cfg s2) s2).

(** The URL [execute(ssid)] connects to. *)
Definition execute_url (cfg : utility.Config) (ssid port : string) : string :=
  "jdbc:db2://" +:+ utility.LPAR cfg +:+ ".rocketsoftware.com:" +:+ port
    +:+ "/" +:+ utility.LPAR cfg +:+ ssid.

(** The statement and the six arguments of the procedure call. *)
Definition call_statement (cfg : utility.Config) : string :=
  "Call " +:+ utility.TSO_USER_ID cfg +:+ ".ADB2RE(?, ?, ?, ?, ?, ?)".

Definition call_arguments (self : Adb2re) : list string :=
  [parameter_list self; request_list self; __sql_output_list self;
   __rpt_output_list self; if DEBUG_MODE self then "DEBUG" else ""; ""].

(** The messages of the two exceptions of the checklist assertion: for an
    item missing from the candidate statement [stmt] (terminator put back),
    at the 1-based position [count] of the row, and for a row whose first
    item is in no statement. *)
Definition mismatch_message
    (row : list string) (count : nat) (item stmt term ddl : string) : string :=
  "adb2re.py: Failed on sub-checklist:" +:+ LF +:+ PyStr.join LF row
    +:+ LF +:+ "Could not find item#: " +:+ PyStr.str count
    +:+ ", string value '" +:+ item +:+ "' in this statement:" +:+ LF
    +:+ stmt +:+ term +:+ LF +:+ "Full DDL:" +:+ LF +:+ ddl.

Definition unmatched_message (row : list string) : string :=
  "adb2re.py: Could not find any items in DDL from sub-checklist:" +:+ LF
    +:+ PyStr.join LF row.

(** The exception message with which the validation of a report in
    [execute] fails, if it does: the banner must be there, the two spellings
    of [SQLCODE -805] must not. *)
Definition validation_error (report : string) : option string :=
  if negb (truthy (PyStr.count report banner))
  then Some (report_message true banner report)
  else if truthy (PyStr.count report "SQLCODE=-805")
  then Some (report_message false "SQLCODE=-805" report)
  else if truthy (PyStr.count report "SQLCODE = -805")
  then Some (report_message false "SQLCODE = -805" report)
  else None.

(** * Verification *)

(** ** Facts about the string built-ins *)

Lemma string_app_cons (c : ascii) (s t : string) :
  String c s +:+ t = String c (s +:+ t).
Proof. reflexivity. Qed.

Lemma string_app_nil_l (s : string) : "" +:+ s = s.
Proof. reflexivity. Qed.

Lemma string_app_nil_r (s : string) : s +:+ "" = s.
Proof.
  induction s as [|c s IH]; [done |]. by rewrite string_app_cons, IH.
Qed.

Lemma string_app_assoc (a b c : string) : (a +:+ b) +:+ c = a +:+ b +:+ c.
Proof.
  induction a as [|x a IH]; [done |]. by rewrite !string_app_cons, IH.
Qed.

Lemma string_app_length (a b : string) :
  String.length (a +:+ b) = String.length a + String.length b.
Proof.
  induction a as [|x a IH]; [done |]. rewrite string_app_cons. simpl.
  by rewrite IH.
Qed.

Lemma startswith_spec (s p : string) :
  PyStr.startswith s p = true ↔ ∃ r, s = p +:+ r.
Proof.
  revert s. induction p as [|a p IH]; intros s; simpl.
  - split; [intros _; by exists s | reflexivity].
  - destruct s as [|b s].
    + split; [done | intros [r Hr]; discriminate].
    + case_decide as Hab.
      * subst b. rewrite IH. split.
        -- intros [r ->]. by exists r.
        -- intros [r Hr]. rewrite string_app_cons in Hr.
           injection Hr as ->. by exists r.
      * split; [done |]. intros [r Hr]. rewrite string_app_cons in Hr.
        by injection Hr as -> _.
Qed.

Lemma occurs_nil (s : string) : PyStr.occurs "" s.
Proof. by exists "", s. Qed.

Lemma occurs_here (sub r : string) : PyStr.occurs sub (sub +:+ r).
Proof. by exists "", r. Qed.

Lemma occurs_cons (sub : string) (c : ascii) (s : string) :
  PyStr.occurs sub s → PyStr.occurs sub (String c s).
Proof. intros (pre & post & ->). by exists (String c pre), post. Qed.

(** Either [sub] starts [String c s], or any occurrence lies in [s]. *)
Lemma occurs_cons_inv (sub : string) (c : ascii) (s : string) :
  PyStr.occurs sub (String c s) →
  PyStr.startswith (String c s) sub = true ∨ PyStr.occurs sub s.
Proof.
  intros (pre & post & H). destruct pre as [|d pre].
  - left. apply startswith_spec. by exists post.
  - right. rewrite string_app_cons in H. injection H as _ ->.
    by exists pre, post.
Qed.

Lemma occurs_empty_inv (sub : string) : PyStr.occurs sub "" → sub = "".
Proof.
  intros (pre & post & H). destruct pre; [| discriminate].
  destruct sub; [done | discriminate].
Qed.

Lemma count_go_zero_pos (sub s : string) :
  sub ≠ "" → (0 < PyStr.count_go sub s 0 ↔ PyStr.occurs sub s).
Proof.
  intros Hne. induction s as [|c s IH]; simpl.
  - split; [lia |]. by intros ?%occurs_empty_inv.
  - destruct (PyStr.startswith (String c s) sub) eqn:Hst.
    + split; [intros _ | lia].
      apply startswith_spec in Hst as [r ->]. apply occurs_here.
    + rewrite IH. split; [apply occurs_cons |].
      intros [H|H]%occurs_cons_inv; [congruence | done].
Qed.

(** [s.count(sub)] is positive exactly when [sub] occurs in [s]. *)
Lemma count_pos (s sub : string) :
  0 < PyStr.count s sub ↔ PyStr.occurs sub s.
Proof.
  destruct sub as [|a sub]; simpl.
  - split; [intros _; apply occurs_nil | lia].
  - by apply count_go_zero_pos.
Qed.

Lemma find_go_neg (sub s : string) (i : Z) :
  (0 <= i)%Z → ((PyStr.find_go sub s i < 0)%Z ↔ ¬ PyStr.occurs sub s).
Proof.
  revert i. induction s as [|c s IH]; intros i Hi; simpl.
  - destruct (PyStr.startswith "" sub) eqn:Hst.
    + split; [lia |]. intros []. apply startswith_spec in Hst as [r ->].
      apply occurs_here.
    + split; [intros _ | lia]. intros ->%occurs_empty_inv. discriminate Hst.
  - destruct (PyStr.startswith (String c s) sub) eqn:Hst.
    + split; [lia |]. intros []. apply startswith_spec in Hst as [r ->].
      apply occurs_here.
    + rewrite IH by lia. split.
      * intros Hn [H|H]%occurs_cons_inv; [congruence | done].
      * intros Hn H. by apply Hn, occurs_cons.
Qed.

(** [s.find(sub) < 0] exactly when [sub] does not occur in [s]. *)
Lemma find_neg (s sub : string) :
  (PyStr.find s sub < 0)%Z ↔ ¬ PyStr.occurs sub s.
Proof. by apply find_go_neg. Qed.

Lemma split_go_nonempty (sep s : string) (skip : nat) (cur : string) :
  PyStr.split_go sep s skip cur ≠ [].
Proof.
  revert skip cur. induction s as [|c s IH]; intros skip cur; simpl; [done |].
  destruct skip; [| by apply IH].
  destruct (PyStr.startswith _ _); [done | by apply IH].
Qed.

(** [s.split(sep)] never returns an empty list. *)
Lemma split_nonempty (s sep : string) (l : list string) :
  PyStr.split s sep = Some l → l ≠ [].
Proof.
  destruct sep; simpl; [done |]. intros [= <-]. apply split_go_nonempty.
Qed.

(** Splitting on a one-character separator [c]. *)
Lemma not_occurs_char_cons (c d : ascii) (a : string) :
  ¬ PyStr.occurs (String c "") (String d a) →
  c ≠ d ∧ ¬ PyStr.occurs (String c "") a.
Proof.
  intros Hn. split.
  - intros ->. apply Hn. by exists "", a.
  - intros H. by apply Hn, occurs_cons.
Qed.

Lemma split_go_char_app (c : ascii) (a rest cur : string) :
  ¬ PyStr.occurs (String c "") a →
  PyStr.split_go (String c "") (a +:+ String c rest) 0 cur
  = (cur +:+ a) :: PyStr.split_go (String c "") rest 0 "".
Proof.
  revert cur. induction a as [|d a IH]; intros cur Hn.
  - rewrite string_app_nil_l, string_app_nil_r. simpl.
    by rewrite decide_True by done.
  - apply not_occurs_char_cons in Hn as [Hcd Hn].
    rewrite string_app_cons. simpl. rewrite decide_False by done.
    rewrite IH by done. by rewrite string_app_assoc.
Qed.

(** ** Facts about string objects *)

Lemma chars_sum (name : string) (a b : pystr) : chars (sum name a b) = a +:+ b.
Proof.
  unfold sum, add. repeat case_decide; simpl; [| | done].
  - by replace (chars a) with "".
  - replace (chars b) with "". by rewrite string_app_nil_r.
Qed.

Lemma is_refl (a : pystr) : is_ a a = true.
Proof. apply bool_decide_eq_true_2. by split; [| right]. Qed.

(** Objects with different texts are different objects. *)
Lemma is_not_chars (a b : pystr) : chars a ≠ chars b → is_not a b = true.
Proof.
  intros Hne. unfold is_not, is_. rewrite bool_decide_eq_false_2; [done |].
  by intros [? _].
Qed.

(** The empty string is one object. *)
Lemma is_lit_empty (a : pystr) : is_ a (lit "") = bool_decide (chars a = "").
Proof.
  unfold is_. apply bool_decide_ext. simpl. split; [by intros [? _] |].
  intros H. split; [done | by left].
Qed.

Lemma is_not_lit_empty (a : pystr) :
  is_not a (lit "") = bool_decide (chars a ≠ "").
Proof.
  unfold is_not. rewrite is_lit_empty.
  destruct (decide (chars a = "")) as [H | H].
  - rewrite bool_decide_eq_true_2 by done.
    by rewrite bool_decide_eq_false_2 by (by intros []).
  - rewrite bool_decide_eq_false_2 by done.
    by rewrite bool_decide_eq_true_2.
Qed.

(** ** Reasoning about methods *)

Lemma wp_ret {A} (x : A) self Q E : Q x self [] → wp (mret x) self Q E.
Proof. done. Qed.

Lemma wp_raise {A} (e : exception) self (Q : A → _) E :
  E e self [] → wp (raise e) self Q E.
Proof. done. Qed.

Lemma wp_gets {A} (f : Adb2re → A) self Q E :
  Q (f self) self [] → wp (gets f) self Q E.
Proof. done. Qed.

Lemma wp_modify (f : Adb2re → Adb2re) self Q E :
  Q () (f self) [] → wp (modify f) self Q E.
Proof. done. Qed.

Lemma wp_emit (ev : event) self Q E : Q () self [ev] → wp (emit ev) self Q E.
Proof. done. Qed.

Lemma wp_answer {A} (k : error_kind) (o : option A) self Q E :
  (∀ x, o = Some x → Q x self []) →
  (o = None → E (Exception k "") self []) →
  wp (answer k o) self Q E.
Proof. destruct o; unfold wp; simpl; auto. Qed.

Lemma wp_bind {A B} (m : M A) (f : A → M B) self Q E :
  wp m self
     (λ x s ev, wp (f x) s (λ y s' ev', Q y s' (ev ++ ev'))
                           (λ e s' ev', E e s' (ev ++ ev')))
     E →
  wp (m ≫= f) self Q E.
Proof.
  unfold wp, mbind, M_bind. destruct (m self) as [s1 ev1 [e|x]].
  - done.
  - by destruct (f x s1) as [s2 ev2 [e|y]].
Qed.

Lemma wp_mono {A} (m : M A) self (Q Q' : A → _) (E E' : exception → _) :
  wp m self Q E →
  (∀ x s ev, Q x s ev → Q' x s ev) →
  (∀ e s ev, E e s ev → E' e s ev) →
  wp m self Q' E'.
Proof. unfold wp. destruct (m self) as [s ev [e|x]]; auto. Qed.

(** A loop with invariant [I], which sees the elements already handled. *)
Lemma wp_for_each_from {A} (l seen : list A) (body : A → M unit)
    (I : list A → Adb2re → list event → Prop) E self ev0 :
  I seen self ev0 →
  (∀ seen x s ev, I seen s ev →
     wp (body x) s (λ _ s' ev', I (seen ++ [x]) s' (ev ++ ev'))
                   (λ e s' ev', E e s' (ev ++ ev'))) →
  wp (for_each l body) self (λ _ s' ev', I (seen ++ l) s' (ev0 ++ ev'))
                            (λ e s' ev', E e s' (ev0 ++ ev')).
Proof.
  intros HI Hbody. revert seen self ev0 HI.
  induction l as [|x l IH]; intros seen self ev0 HI; simpl.
  - apply wp_ret. cbn beta. by rewrite (app_nil_r seen), (app_nil_r ev0).
  - apply wp_bind. eapply wp_mono; [by apply Hbody | |].
    + intros [] s ev Hs. eapply wp_mono; [by apply IH | |]; cbn beta.
      * intros _ s' ev'. by rewrite <- (app_assoc seen), <- (app_assoc ev0).
      * intros e s' ev'. by rewrite <- (app_assoc ev0).
    + done.
Qed.

Lemma wp_for_each {A} (l : list A) (body : A → M unit)
    (I : list A → Adb2re → list event → Prop) Q E self :
  I [] self [] →
  (∀ seen x s ev, I seen s ev →
     wp (body x) s (λ _ s' ev', I (seen ++ [x]) s' (ev ++ ev'))
                   (λ e s' ev', E e s' (ev ++ ev'))) →
  (∀ s ev, I l s ev → Q () s ev) →
  wp (for_each l body) self Q E.
Proof.
  intros HI Hbody HQ.
  eapply wp_mono; [by apply (wp_for_each_from l [] body I E self []) | |].
  - intros [] s ev. apply HQ.
  - done.
Qed.

Lemma wp_outcome {A} (m : M A) self Q E :
  wp m self Q E →
  match out_result (m self) with
  | inr x => Q x (out_self (m self)) (out_events (m self))
  | inl e => E e (out_self (m self)) (out_events (m self))
  end.
Proof. unfold wp. by destruct (m self) as [s ev [e|x]]. Qed.


(** ** Running methods, equationally *)

Lemma bind_run {A B} (m : M A) (f : A → M B) self s ev x :
  m self = Outcome s ev (inr x) →
  (m ≫= f) self
  = Outcome (out_self (f x s)) (ev ++ out_events (f x s)) (out_result (f x s)).
Proof.
  intros H. unfold mbind, M_bind. rewrite H. by destruct (f x s).
Qed.

Lemma bind_run_raise {A B} (m : M A) (f : A → M B) self s ev e :
  m self = Outcome s ev (inl e) → (m ≫= f) self = Outcome s ev (inl e).
Proof. intros H. unfold mbind, M_bind. by rewrite H. Qed.

Lemma outcome_of_result {A} (o : outcome A) (r : exception + A) :
  out_result o = r → o = Outcome (out_self o) (out_events o) r.
Proof. intros <-. by destruct o. Qed.

Lemma outcome_eta {A} (o : outcome A) :
  Outcome (out_self o) (out_events o) (out_result o) = o.
Proof. by destruct o. Qed.

Lemma bind_run_pure {A B} (m : M A) (f : A → M B) self x :
  m self = Outcome self [] (inr x) → (m ≫= f) self = f x self.
Proof. intros H. erewrite bind_run by done. simpl. apply outcome_eta. Qed.

Lemma set_parameter_list_id self :
  set_parameter_list (parameter_list self) self = self.
Proof. by destruct self. Qed.

(** ** The parameter list *)

Section parameter_list.
Context (cfg : utility.Config).

Lemma eval_run (d : operand) self :
  eval cfg d self = Outcome self [] (inr (operand_object cfg self d)).
Proof. reflexivity. Qed.

Lemma add_parameter_run (c : attr * operand * string) self :
  add_parameter cfg c self
  = Outcome
      (set_parameter_list
         (parameter_list self
            +:+ (if changed cfg self c then fragment cfg self c else ""))
         self)
      [] (inr ()).
Proof.
  destruct c as [[a d] key]. unfold add_parameter, changed, fragment.
  unfold mbind, M_bind, getobject, getattr, gets. rewrite eval_run. simpl.
  fold (is_not_operand (attr_object cfg self a) (operand_object cfg self d)).
  destruct (is_not_operand _ _); simpl; [done |].
  by rewrite string_app_nil_r, set_parameter_list_id.
Qed.

Lemma fragments_cons (c : attr * operand * string) l self :
  fragments cfg self (c :: l)
  = (if changed cfg self c then fragment cfg self c else "")
      +:+ fragments cfg self l.
Proof.
  unfold fragments. rewrite filter_cons.
  destruct (changed cfg self c); simpl; by rewrite ?decide_True, ?decide_False.
Qed.

Lemma for_each_add_parameter (l : list (attr * operand * string)) self :
  for_each l (add_parameter cfg) self
  = Outcome
      (set_parameter_list (parameter_list self +:+ fragments cfg self l) self)
      [] (inr ()).
Proof.
  revert self. induction l as [|c l IH]; intros self.
  - simpl. unfold fragments. simpl.
    by rewrite string_app_nil_r, set_parameter_list_id.
  - simpl. erewrite bind_run by apply add_parameter_run. rewrite IH. simpl.
    rewrite fragments_cons, string_app_assoc. reflexivity.
Qed.

(** [__build_parameter_list] only rewrites [parameter_list], never raises
    and does not reach outside. *)
Lemma build_parameter_list_run self :
  __build_parameter_list cfg self
  = Outcome (set_parameter_list (rendered_parameter_list cfg self) self) [] (inr ()).
Proof.
  unfold __build_parameter_list, rendered_parameter_list.
  unfold getattr. erewrite bind_run by reflexivity.
  erewrite bind_run by reflexivity.
  erewrite bind_run by reflexivity.
  erewrite (bind_run (for_each _ _)) by apply for_each_add_parameter.
  simpl. by rewrite !string_app_assoc.
Qed.

End parameter_list.

Lemma cat_app (l1 l2 : list string) : cat (l1 ++ l2) = cat l1 +:+ cat l2.
Proof.
  induction l1 as [|x l1 IH]; [done |]. simpl. unfold cat in *. simpl.
  by rewrite IH, string_app_assoc.
Qed.

Lemma fragments_app cfg self (l1 l2 : list (attr * operand * string)) :
  fragments cfg self (l1 ++ l2) = fragments cfg self l1 +:+ fragments cfg self l2.
Proof. unfold fragments. by rewrite filter_app, fmap_app, cat_app. Qed.

(** Every guarded line but the last compares the attribute with the value
    the class gives it; the last one compares [SQLCMTS], whose class value
    is ['N'], with the empty string. *)
Lemma parameter_checks_compare_class_values cfg :
  Forall (λ c, c.1.1 ≠ SQLCMTS →
               operand_value cfg (new cfg) c.1.2 = class_attr cfg c.1.1)
         (parameter_checks cfg).
Proof.
  unfold parameter_checks.
  repeat (apply Forall_cons; split;
          [first [done | intros _; unfold operand_value, attr_value, attr_object;
                         simpl; by rewrite ?lookup_empty, ?chars_sum] |]).
  by apply Forall_nil.
Qed.

Lemma parameter_checks_last cfg :
  parameter_checks cfg
  = removelast (parameter_checks cfg) ++ [(SQLCMTS, Lit "", "SQLCMTS")].
Proof. reflexivity. Qed.

(** C2 (evaluation at the failing input).  On every instance whose
    [SQLCMTS] still has the value ['N'] the class gives it,
    [__build_parameter_list] writes a parameter list that ends with the
    assignment [SQLCMTS='N']: the option is included although it is unchanged
    from its default, because the guard compares it with the empty string. *)
Theorem build_parameter_list_includes_default_SQLCMTS
    (cfg : utility.Config) (self : Adb2re) :
  attr_value cfg self SQLCMTS = class_attr cfg SQLCMTS →
  ∃ written,
    __build_parameter_list cfg self
    = Outcome (set_parameter_list (written +:+ ",SQLCMTS='N';") self) [] (inr ()).
Proof.
  intros Hdefault. simpl in Hdefault.
  exists ("DB2SYS='" +:+ attr_value cfg self DB2SYS
            +:+ "',DB2REL='" +:+ attr_value cfg self DB2REL +:+ "'"
            +:+ fragments cfg self (removelast (parameter_checks cfg))).
  rewrite build_parameter_list_run. unfold rendered_parameter_list.
  rewrite parameter_checks_last at 1. rewrite fragments_app.
  rewrite fragments_cons. unfold changed, fragment. simpl.
  rewrite is_not_chars by (fold (attr_value cfg self SQLCMTS); by rewrite Hdefault).
  rewrite Hdefault.
  f_equal. f_equal. by rewrite !string_app_assoc.
Qed.

Lemma build_parameter_list_includes_default_SQLCMTS_witness :
  ∃ written,
    __build_parameter_list sample_cfg (new sample_cfg)
    = Outcome (set_parameter_list (written +:+ ",SQLCMTS='N';") (new sample_cfg))
        [] (inr ()).
Proof.
  apply (build_parameter_list_includes_default_SQLCMTS sample_cfg (new sample_cfg)).
  reflexivity.
Defined.

(** ** The request list *)

Lemma occurs_char_app (c : ascii) (a b : string) :
  PyStr.occurs (String c "") (a +:+ b)
  ↔ PyStr.occurs (String c "") a ∨ PyStr.occurs (String c "") b.
Proof.
  induction a as [|d a IH].
  - rewrite string_app_nil_l. split; [by right |].
    intros [H%occurs_empty_inv | H]; [discriminate | done].
  - rewrite string_app_cons. split.
    + intros [H|H]%occurs_cons_inv.
      * left. simpl in H. case_decide; [subst d | done]. by exists "", a.
      * apply IH in H as [H|H]; [left; by apply occurs_cons | by right].
    + intros [[H|H]%occurs_cons_inv | H].
      * simpl in H. case_decide; [subst d | done]. by exists "", (a +:+ b).
      * apply occurs_cons, IH. by left.
      * apply occurs_cons, IH. by right.
Qed.

Lemma filter_all {A} (P : A → Prop) `{∀ x, Decision (P x)} (l : list A) :
  Forall P l → filter P l = l.
Proof.
  induction 1 as [|x l Hx _ IH]; [done |]. by rewrite filter_cons_True, IH.
Qed.

Lemma table_entry_no_semicolon (p : string * string) :
  ¬ PyStr.occurs ";" p.1 → ¬ PyStr.occurs ";" p.2 →
  ¬ PyStr.occurs ";" (table_entry p).
Proof.
  intros H1 H2. unfold table_entry.
  rewrite !occurs_char_app. intros [H|[H|[H|[H|H]]]]; try done.
  all: revert H; apply find_neg; vm_compute; reflexivity.
Qed.

Lemma table_entry_nonempty (p : string * string) : table_entry p ≠ "".
Proof.
  unfold table_entry. intros H. apply (f_equal String.length) in H.
  rewrite string_app_length in H. simpl in H. lia.
Qed.

Lemma add_tables_run (pairs : list (string * string)) self :
  add_tables pairs self
  = Outcome
      (set_request_list
         (request_list self +:+ cat ((λ p, table_entry p +:+ ";") <$> pairs)) self)
      [] (inr ()).
Proof.
  unfold add_tables. revert self. induction pairs as [|p pairs IH]; intros self.
  - simpl. unfold cat. simpl. rewrite string_app_nil_r. by destruct self.
  - simpl. erewrite bind_run by reflexivity. rewrite IH. simpl.
    unfold table_entry, cat. simpl. by rewrite !string_app_assoc.
Qed.

Lemma split_entries (c : ascii) (entries : list string) :
  Forall (λ e, ¬ PyStr.occurs (String c "") e) entries →
  PyStr.split_go (String c "") (cat ((λ e, e +:+ String c "") <$> entries)) 0 ""
  = entries ++ [""].
Proof.
  induction 1 as [|e entries He _ IH]; [done |].
  rewrite fmap_cons. unfold cat in *. simpl. rewrite string_app_assoc.
  rewrite string_app_cons, string_app_nil_l.
  by rewrite split_go_char_app, IH, string_app_nil_l.
Qed.

(** C9.  Starting from an empty request list, [add_table] called for [N]
    qualifier/name pairs, none containing a semicolon, leaves the
    concatenation, in call order, of the [N] entries
    [TYPE='TB',QUAL='q',NAME='n';]; splitting it on [;] gives these [N]
    entries, all non-empty and in the same order, followed by one empty
    piece, so exactly [N] non-empty entries. *)
Theorem add_table_request_list_entries
    (pairs : list (string * string)) (self : Adb2re) :
  request_list self = "" →
  Forall (λ p, ¬ PyStr.occurs ";" p.1 ∧ ¬ PyStr.occurs ";" p.2) pairs →
  ∃ self' pieces,
    add_tables pairs self = Outcome self' [] (inr ()) ∧
    request_list self' = cat ((λ p, table_entry p +:+ ";") <$> pairs) ∧
    PyStr.split (request_list self') ";" = Some pieces ∧
    pieces = (table_entry <$> pairs) ++ [""] ∧
    filter (λ e, e ≠ "") pieces = table_entry <$> pairs ∧
    length (filter (λ e, e ≠ "") pieces) = length pairs.
Proof.
  intros Hempty Hpairs.
  assert (Hsplit :
    PyStr.split_go ";" (cat ((λ p, table_entry p +:+ ";") <$> pairs)) 0 ""
    = (table_entry <$> pairs) ++ [""]).
  { rewrite <- (split_entries ";"%char).
    - by rewrite <- list_fmap_compose.
    - apply Forall_fmap. eapply Forall_impl; [done |]. simpl.
      intros p [H1 H2]. by apply table_entry_no_semicolon. }
  assert (Hfilter :
    filter (λ e, e ≠ "") ((table_entry <$> pairs) ++ [""]) = table_entry <$> pairs).
  { rewrite filter_app, (filter_cons_False _ ""), filter_nil, app_nil_r by naive_solver.
    apply filter_all, Forall_fmap, Forall_true. intros p. apply table_entry_nonempty. }
  exists (set_request_list
            (request_list self +:+ cat ((λ p, table_entry p +:+ ";") <$> pairs)) self),
         ((table_entry <$> pairs) ++ [""]).
  split; [apply add_tables_run |]. simpl. rewrite Hempty, string_app_nil_l.
  split; [done |]. split; [by rewrite <- Hsplit |]. split; [done |].
  split; [done |]. by rewrite Hfilter, length_fmap.
Qed.

Lemma add_table_request_list_entries_witness :
  ∃ self' pieces,
    add_tables [("Q1", "T1"); ("Q2", "T2")] (new sample_cfg)
    = Outcome self' [] (inr ()) ∧
    request_list self'
    = cat ((λ p, table_entry p +:+ ";") <$> [("Q1", "T1"); ("Q2", "T2")]) ∧
    PyStr.split (request_list self') ";" = Some pieces ∧
    pieces = (table_entry <$> [("Q1", "T1"); ("Q2", "T2")]) ++ [""] ∧
    filter (λ e, e ≠ "") pieces = table_entry <$> [("Q1", "T1"); ("Q2", "T2")] ∧
    length (filter (λ e, e ≠ "") pieces) = length [("Q1", "T1"); ("Q2", "T2")].
Proof.
  apply (add_table_request_list_entries [("Q1", "T1"); ("Q2", "T2")] (new sample_cfg)).
  - reflexivity.
  - repeat (apply Forall_cons; split; [split |]); try apply Forall_nil;
      try (apply find_neg; vm_compute; reflexivity); done.
Defined.

(** ** Assertions on the report *)

Lemma truthy_count (s sub : string) :
  truthy (PyStr.count s sub) = true ↔ PyStr.occurs sub s.
Proof.
  rewrite <- count_pos. unfold truthy.
  destruct (PyStr.count s sub); simpl; split; (done || lia).
Qed.

Lemma truthy_count_false (s sub : string) :
  truthy (PyStr.count s sub) = false ↔ ¬ PyStr.occurs sub s.
Proof.
  rewrite <- truthy_count. by destruct (truthy _).
Qed.

Lemma occurs_or_not (sub s : string) : PyStr.occurs sub s ∨ ¬ PyStr.occurs sub s.
Proof.
  destruct (truthy (PyStr.count s sub)) eqn:H.
  - left. by apply truthy_count.
  - right. by apply truthy_count_false.
Qed.

(** A list satisfies [P] throughout, or has a first element that does not. *)
Lemma Forall_or_first_failure {A} (P : A → Prop) (l : list A) :
  (∀ x, P x ∨ ¬ P x) →
  Forall P l
  ∨ ∃ pre x post, l = pre ++ x :: post ∧ Forall P pre ∧ ¬ P x.
Proof.
  intros HP. induction l as [|x l IH]; [by left |].
  destruct (HP x) as [Hx|Hx].
  - destruct IH as [IH|(pre & y & post & -> & Hpre & Hy)].
    + left. by apply Forall_cons_2.
    + right. exists (x :: pre), y, post. split; [done |].
      split; [by apply Forall_cons_2 | done].
  - right. exists [], x, l. split; [done |]. split; [apply Forall_nil_2 | done].
Qed.

Lemma report_loop_step (positive_test : bool) (line : string) text self :
  report_loop positive_test (line :: text) self
  = if bool_decide (truthy (PyStr.count (__saved_report self) line) = positive_test)
    then report_loop positive_test text self
    else Outcome self [] (inl (Exception ReportAssertionError
           (report_message positive_test line (__saved_report self)))).
Proof.
  simpl. unfold mbind, M_bind, gets, report_message.
  destruct positive_test, (truthy _); simpl; try done.
  all: by destruct (report_loop _ text self).
Qed.

Lemma line_expected_truthy (positive_test : bool) (report line : string) :
  line_expected positive_test report line
  ↔ truthy (PyStr.count report line) = positive_test.
Proof.
  unfold line_expected. rewrite <- truthy_count.
  destruct (truthy _), positive_test; intuition congruence.
Qed.

Lemma report_loop_ok (positive_test : bool) text self :
  Forall (line_expected positive_test (__saved_report self)) text →
  report_loop positive_test text self = Outcome self [] (inr ()).
Proof.
  induction 1 as [|line text Hline _ IH]; [done |].
  rewrite report_loop_step, bool_decide_eq_true_2; [done |].
  by apply line_expected_truthy.
Qed.

Lemma report_loop_fail (positive_test : bool) pre line post self :
  Forall (line_expected positive_test (__saved_report self)) pre →
  ¬ line_expected positive_test (__saved_report self) line →
  report_loop positive_test (pre ++ line :: post) self
  = Outcome self [] (inl (Exception ReportAssertionError
      (report_message positive_test line (__saved_report self)))).
Proof.
  intros Hpre Hline. induction Hpre as [|l pre Hl _ IH].
  - rewrite app_nil_l, report_loop_step, bool_decide_eq_false_2; [done |].
    by rewrite <- line_expected_truthy.
  - rewrite <- app_comm_cons, report_loop_step, bool_decide_eq_true_2; [done |].
    by apply line_expected_truthy.
Qed.

Lemma assert_text_in_report_run cfg text positive_test self :
  assert_text_in_report cfg text positive_test self
  = if bool_decide (attr_value cfg self RPT_DSNAME = "")
    then Outcome self [] (inl (Exception ConfigurationError
           "adb2re.py: RPT_DSNAME must be set before calling execute()"))
    else report_loop positive_test text self.
Proof.
  unfold assert_text_in_report, mbind, M_bind, getobject, gets.
  rewrite is_lit_empty. fold (attr_value cfg self RPT_DSNAME).
  destruct (bool_decide _); [done |]. by destruct (report_loop _ _ _).
Qed.

(** C8.  [assert_text_in_report(lines, expect_present)] fails with a
    [ConfigurationError] when no report destination is configured.
    Otherwise it requires each line to occur in the stored report when
    [expect_present] is true and forbids it when false: it returns when every
    line is as expected, and fails with a [ReportAssertionError] naming the
    first line that is not; one of the two is always the case.
    [assert_text_not_in_report] is the call with [expect_present] false. *)
Theorem assert_text_in_report_spec
    (cfg : utility.Config) (self : Adb2re) (text : list string)
    (positive_test : bool) :
  (attr_value cfg self RPT_DSNAME = "" →
   assert_text_in_report cfg text positive_test self
   = Outcome self [] (inl (Exception ConfigurationError
       "adb2re.py: RPT_DSNAME must be set before calling execute()")))
  ∧ (attr_value cfg self RPT_DSNAME ≠ "" →
     Forall (line_expected positive_test (__saved_report self)) text →
     assert_text_in_report cfg text positive_test self = Outcome self [] (inr ()))
  ∧ (attr_value cfg self RPT_DSNAME ≠ "" →
     ∀ pre line post,
       text = pre ++ line :: post →
       Forall (line_expected positive_test (__saved_report self)) pre →
       ¬ line_expected positive_test (__saved_report self) line →
       assert_text_in_report cfg text positive_test self
       = Outcome self [] (inl (Exception ReportAssertionError
           (report_message positive_test line (__saved_report self)))))
  ∧ assert_text_not_in_report cfg text self
    = assert_text_in_report cfg text false self
  ∧ (Forall (line_expected positive_test (__saved_report self)) text
     ∨ ∃ pre line post,
         text = pre ++ line :: post
         ∧ Forall (line_expected positive_test (__saved_report self)) pre
         ∧ ¬ line_expected positive_test (__saved_report self) line).
Proof.
  rewrite !assert_text_in_report_run.
  split; [| split; [| split; [| split]]].
  - intros ->. by rewrite bool_decide_eq_true_2.
  - intros Hds Hall. rewrite bool_decide_eq_false_2 by done.
    by apply report_loop_ok.
  - intros Hds pre line post -> Hpre Hline.
    rewrite bool_decide_eq_false_2 by done. by apply report_loop_fail.
  - unfold assert_text_not_in_report. by rewrite assert_text_in_report_run.
  - apply Forall_or_first_failure. intros line.
    destruct (decide (truthy (PyStr.count (__saved_report self) line) = positive_test));
      [left | right]; by rewrite line_expected_truthy.
Qed.

Lemma assert_text_in_report_spec_witness :
  let self := set_saved_report ("Job OK" +:+ LF) (new sample_cfg) in
  assert_text_in_report sample_cfg ["OK"] true self = Outcome self [] (inr ())
  ∧ assert_text_not_in_report sample_cfg ["ERROR"] self = Outcome self [] (inr ())
  ∧ assert_text_in_report sample_cfg ["OK"; "ERROR"; "Job"] true self
    = Outcome self [] (inl (Exception ReportAssertionError
        (report_message true "ERROR" ("Job OK" +:+ LF))))
  ∧ assert_text_in_report sample_cfg ["OK"] true
      (out_self (setattr RPT_DSNAME (lit "") self))
    = Outcome (out_self (setattr RPT_DSNAME (lit "") self)) []
        (inl (Exception ConfigurationError
           "adb2re.py: RPT_DSNAME must be set before calling execute()")).
Proof.
  intros self.
  assert (Hok : line_expected true (__saved_report self) "OK").
  { split; [done |]. intros _. apply count_pos. vm_compute. lia. }
  assert (Herr : ¬ PyStr.occurs "ERROR" (__saved_report self)).
  { apply find_neg. vm_compute. reflexivity. }
  split; [| split; [| split]].
  - apply (assert_text_in_report_spec sample_cfg self ["OK"] true); [done |].
    by apply Forall_singleton.
  - destruct (assert_text_in_report_spec sample_cfg self ["ERROR"] false)
      as (_ & Hpass & _ & -> & _).
    apply Hpass; [done |]. apply Forall_singleton. split; [by intros ?%Herr | done].
  - destruct (assert_text_in_report_spec sample_cfg self ["OK"; "ERROR"; "Job"] true)
      as (_ & _ & Hfail & _).
    apply (Hfail ltac:(done) ["OK"] "ERROR" ["Job"]); [done | by apply Forall_singleton |].
    intros [_ H]. by apply Herr, H.
  - by apply (assert_text_in_report_spec sample_cfg
                (out_self (setattr RPT_DSNAME (lit "") self)) ["OK"] true).
Defined.

(** ** The checklist assertion *)

Section checklist.
Context (self : Adb2re).
Hypothesis Hexecuted : __executed_at_least_once self = true.

Lemma get_ddl_as_string_run :
  get_ddl_as_string self = Outcome self [] (inr (__ddl_as_string self)).
Proof. unfold get_ddl_as_string, mbind, M_bind, gets. by rewrite Hexecuted. Qed.

(** Once the first item is found, the item loop either sees every further
    item in the statement, or fails at the first one that is missing. *)
Lemma item_loop_found_all sublist stmt term items count :
  Forall (λ item, PyStr.occurs item stmt) items →
  item_loop sublist stmt term items true count self = Outcome self [] (inr true).
Proof.
  intros Hall. revert count.
  induction Hall as [|item items Hitem _ IH]; intros count; simpl; [done |].
  apply truthy_count in Hitem as ->. apply IH.
Qed.

Lemma item_loop_found_missing sublist stmt term r1 item r2 count :
  Forall (λ item, PyStr.occurs item stmt) r1 →
  ¬ PyStr.occurs item stmt →
  item_loop sublist stmt term (r1 ++ item :: r2) true count self
  = Outcome self [] (inl (Exception ChecklistMismatchError
      (mismatch_message sublist (count + length r1) item stmt term
         (__ddl_as_string self)))).
Proof.
  intros Hr1 Hitem. revert count.
  induction Hr1 as [|x r1 Hx _ IH]; intros count; simpl.
  - apply truthy_count_false in Hitem as ->.
    erewrite bind_run by apply get_ddl_as_string_run. simpl.
    by rewrite Nat.add_0_r.
  - apply truthy_count in Hx as ->. rewrite IH. do 4 f_equal. lia.
Qed.

(** A statement without the first item is passed over. *)
Lemma item_loop_no_anchor sublist stmt term items :
  (∀ first, head items = Some first → ¬ PyStr.occurs first stmt) →
  item_loop sublist stmt term items false 1 self = Outcome self [] (inr false).
Proof.
  destruct items as [|first rest]; simpl; [done |]. intros Hno.
  by rewrite (proj2 (truthy_count_false _ _) (Hno first eq_refl)).
Qed.

Lemma item_loop_anchor sublist stmt term first rest :
  PyStr.occurs first stmt →
  item_loop sublist stmt term (first :: rest) false 1 self
  = item_loop sublist stmt term rest true 2 self.
Proof. intros Hfirst. simpl. by apply truthy_count in Hfirst as ->. Qed.

Lemma stmt_loop_cons sublist term stmt split_ddl found_first_one :
  stmt_loop sublist term (stmt :: split_ddl) found_first_one
  = (item_loop sublist (stmt +:+ term) term sublist false 1 ≫= λ found,
     if (found : bool) then mret (Some true)
     else stmt_loop sublist term split_ddl (Some false)).
Proof. reflexivity. Qed.

Lemma stmt_loop_skip sublist term pre tail found_first_one :
  (∀ first, head sublist = Some first →
     Forall (λ s, ¬ PyStr.occurs first (s +:+ term)) pre) →
  stmt_loop sublist term (pre ++ tail) found_first_one self
  = stmt_loop sublist term tail
      (match pre with [] => found_first_one | _ :: _ => Some false end) self.
Proof.
  revert found_first_one. induction pre as [|s pre IH]; intros fo Hpre; [done |].
  simpl. erewrite bind_run.
  2:{ apply item_loop_no_anchor. intros first Hfirst.
      by apply (Forall_inv (Hpre first Hfirst)). }
  simpl. rewrite IH.
  - rewrite outcome_eta. by destruct pre.
  - intros first Hfirst. by apply (Forall_inv_tail (Hpre first Hfirst)).
Qed.

(** No statement has the first item: the scan ends with nothing found. *)
Lemma stmt_loop_unmatched sublist term split_ddl found_first_one :
  split_ddl ≠ [] →
  (∀ first, head sublist = Some first →
     Forall (λ s, ¬ PyStr.occurs first (s +:+ term)) split_ddl) →
  stmt_loop sublist term split_ddl found_first_one self
  = Outcome self [] (inr (Some false)).
Proof.
  intros Hne Hall. rewrite <- (app_nil_r split_ddl), stmt_loop_skip by done.
  by destruct split_ddl.
Qed.

(** The first statement with the first item decides the row. *)
Lemma stmt_loop_candidate_ok first rest term pre c post found_first_one :
  Forall (λ s, ¬ PyStr.occurs first (s +:+ term)) pre →
  PyStr.occurs first (c +:+ term) →
  Forall (λ item, PyStr.occurs item (c +:+ term)) rest →
  stmt_loop (first :: rest) term (pre ++ c :: post) found_first_one self
  = Outcome self [] (inr (Some true)).
Proof.
  intros Hpre Hc Hrest. rewrite stmt_loop_skip by (by intros ? [= <-]).
  rewrite stmt_loop_cons.
  erewrite bind_run
    by (rewrite item_loop_anchor by done; by apply item_loop_found_all).
  done.
Qed.

Lemma stmt_loop_candidate_missing first r1 item r2 term pre c post found_first_one :
  Forall (λ s, ¬ PyStr.occurs first (s +:+ term)) pre →
  PyStr.occurs first (c +:+ term) →
  Forall (λ item, PyStr.occurs item (c +:+ term)) r1 →
  ¬ PyStr.occurs item (c +:+ term) →
  stmt_loop (first :: r1 ++ item :: r2) term (pre ++ c :: post) found_first_one self
  = Outcome self [] (inl (Exception ChecklistMismatchError
      (mismatch_message (first :: r1 ++ item :: r2) (2 + length r1) item
         (c +:+ term) term (__ddl_as_string self)))).
Proof.
  intros Hpre Hc Hr1 Hitem. rewrite stmt_loop_skip by (by intros ? [= <-]).
  rewrite stmt_loop_cons.
  erewrite bind_run_raise
    by (rewrite item_loop_anchor by done; by apply item_loop_found_missing).
  done.
Qed.

Lemma stmt_loop_unbound sublist term split_ddl found_first_one :
  split_ddl ≠ [] →
  stmt_loop sublist term split_ddl found_first_one self
  = stmt_loop sublist term split_ddl None self.
Proof. by destruct split_ddl. Qed.

Lemma sublist_loop_cons term split_ddl sublist checklist found_first_one :
  sublist_loop term split_ddl (sublist :: checklist) found_first_one
  = (stmt_loop sublist term split_ddl found_first_one ≫= λ found,
     match found with
     | None => raise (Exception UnboundLocalError "found_first_one")
     | Some false =>
         raise (Exception ChecklistMismatchError (unmatched_message sublist))
     | Some true => sublist_loop term split_ddl checklist found
     end).
Proof. reflexivity. Qed.

Lemma sublist_loop_unbound term split_ddl checklist found_first_one :
  split_ddl ≠ [] →
  sublist_loop term split_ddl checklist found_first_one self
  = sublist_loop term split_ddl checklist None self.
Proof.
  intros Hne. destruct checklist as [|sublist checklist]; [done |].
  rewrite !sublist_loop_cons. unfold mbind, M_bind.
  by rewrite (stmt_loop_unbound _ _ _ found_first_one).
Qed.


Lemma assert_text_between_terminators_run checklist term split_ddl :
  PyStr.occurs term (__ddl_as_string self) →
  PyStr.split (__ddl_as_string self) term = Some split_ddl →
  assert_text_between_terminators checklist term self
  = sublist_loop term split_ddl checklist None self.
Proof.
  intros Hterm Hsplit. unfold assert_text_between_terminators.
  erewrite bind_run_pure by reflexivity. cbv beta.
  rewrite Hexecuted. cbn [negb].
  erewrite bind_run_pure by apply get_ddl_as_string_run. cbv beta.
  rewrite bool_decide_eq_false_2 by (by rewrite find_neg; intros []).
  erewrite bind_run_pure by apply get_ddl_as_string_run. cbv beta.
  rewrite Hsplit. simpl answer.
  by erewrite bind_run_pure by reflexivity.
Qed.

End checklist.



(** C4.  On an executed instance whose DDL string does not contain the
    terminator, the call fails with a [FormatError] whatever the checklist. *)
Theorem checklist_without_terminator_fails
    (self : Adb2re) (checklist : list (list string)) (term : string) :
  __executed_at_least_once self = true →
  ¬ PyStr.occurs term (__ddl_as_string self) →
  assert_text_between_terminators checklist term self
  = Outcome self [] (inl (Exception FormatError
      ("adb2re.py: Could not find terminator '" +:+ term +:+ "' in DDL:"
         +:+ LF +:+ __ddl_as_string self))).
Proof.
  intros Hexecuted Hterm. unfold assert_text_between_terminators.
  erewrite bind_run_pure by reflexivity. cbv beta.
  rewrite Hexecuted. cbn [negb].
  erewrite bind_run_pure by by apply get_ddl_as_string_run. cbv beta.
  rewrite bool_decide_eq_true_2 by by apply find_neg.
  by erewrite bind_run_pure by by apply get_ddl_as_string_run.
Qed.

Ltac occurs_by_count := apply count_pos; vm_compute; lia.
Ltac absent_by_find := apply find_neg; vm_compute; reflexivity.



Lemma checklist_without_terminator_fails_witness :
  let self := executed_with sample_cfg "CREATE TABLE A COL1" in
  assert_text_between_terminators [["CREATE TABLE A"]] ";" self
  = Outcome self [] (inl (Exception FormatError
      ("adb2re.py: Could not find terminator ';' in DDL:" +:+ LF
         +:+ "CREATE TABLE A COL1"))).
Proof.
  intros self.
  apply (checklist_without_terminator_fails self [["CREATE TABLE A"]] ";");
    [reflexivity | absent_by_find].
Defined.

(** ** Methods that leave the results alone *)

Lemma silent_ret {A} (x : A) : silent (mret x : M A).
Proof. done. Qed.

Lemma silent_raise {A} (e : exception) : silent (raise e : M A).
Proof. done. Qed.

Lemma silent_gets {A} (f : Adb2re → A) : silent (gets f).
Proof. done. Qed.

Lemma silent_modify (f : Adb2re → Adb2re) :
  (∀ self, results (f self) = results self) → silent (modify f).
Proof. intros Hf self. split; [done | apply Hf]. Qed.

Lemma silent_answer {A} (k : error_kind) (o : option A) : silent (answer k o).
Proof. by destruct o. Qed.

Lemma silent_bind {A B} (m : M A) (f : A → M B) :
  silent m → (∀ x, silent (f x)) → silent (m ≫= f).
Proof.
  intros Hm Hf self. specialize (Hm self). unfold mbind, M_bind.
  destruct (m self) as [s1 ev1 [e|x]]; simpl in *; [done |].
  destruct Hm as [-> Hs1]. specialize (Hf x s1).
  destruct (f x s1) as [s2 ev2 r]; simpl in *. destruct Hf as [-> Hs2].
  split; [done | congruence].
Qed.

Lemma silent_for_each {A} (l : list A) (body : A → M unit) :
  (∀ x, silent (body x)) → silent (for_each l body).
Proof.
  intros Hbody. induction l as [|x l IH]; simpl; [apply silent_ret |].
  apply silent_bind; [apply Hbody | by intros _].
Qed.

Ltac silent_step :=
  first
    [ apply silent_ret | apply silent_raise | apply silent_gets
    | apply silent_answer
    | apply silent_modify; intros ?; reflexivity
    | apply silent_for_each; intros ?
    | apply silent_bind; [| intros ?]
    | match goal with
      | |- silent (if ?b then _ else _) => destruct b
      | |- silent (match ?x with _ => _ end) => destruct x
      | |- silent (let '(_, _) := ?x in _) => destruct x
      end ].

Lemma silent_getattr cfg a : silent (getattr cfg a).
Proof. apply silent_gets. Qed.

Lemma silent_setattr a v : silent (setattr a v).
Proof. by apply silent_modify. Qed.

Lemma silent_getobject cfg a : silent (getobject cfg a).
Proof. apply silent_gets. Qed.

Lemma silent_eval cfg d : silent (eval cfg d).
Proof. apply silent_gets. Qed.

Lemma silent_build_parameter_list cfg : silent (__build_parameter_list cfg).
Proof. intros self. by rewrite build_parameter_list_run. Qed.

Lemma silent_add_sql_output cfg c : silent (add_sql_output cfg c).
Proof.
  destruct c as [[a d] key]. unfold add_sql_output.
  apply silent_bind; [apply silent_getobject | intros v].
  apply silent_bind; [apply silent_eval | intros d'].
  repeat silent_step.
Qed.

Lemma silent_add_rpt_output cfg c : silent (add_rpt_output cfg c).
Proof.
  destruct c as [[a d] key]. unfold add_rpt_output.
  apply silent_bind; [apply silent_getobject | intros v].
  apply silent_bind; [apply silent_eval | intros d'].
  repeat silent_step.
Qed.

Lemma silent_build_output_lists cfg : silent (__build_output_lists cfg).
Proof.
  unfold __build_output_lists.
  repeat first
    [ apply silent_getattr | apply silent_add_sql_output
    | apply silent_add_rpt_output | silent_step ].
Qed.

Lemma silent_report_loop positive_test text : silent (report_loop positive_test text).
Proof.
  induction text as [|line text IH]; simpl; [apply silent_ret |].
  repeat first [ apply IH | silent_step ].
Qed.

Lemma silent_assert_text_in_report cfg text positive_test :
  silent (assert_text_in_report cfg text positive_test).
Proof.
  unfold assert_text_in_report.
  repeat first [ apply silent_getattr | apply silent_report_loop | silent_step ].
Qed.

Lemma silent_set_all_gen_options value : silent (set_all_gen_options value).
Proof. apply silent_for_each. intros a. apply silent_setattr. Qed.

Lemma silent_set_all_grant_options value : silent (set_all_grant_options value).
Proof. apply silent_for_each. intros a. apply silent_setattr. Qed.

Lemma wp_silent {A} (m : M A) self (r0 : list column * string * bool)
    (Q : A → _) (E : exception → _) :
  silent m →
  results self = r0 →
  (∀ x s, results s = r0 → Q x s []) →
  (∀ e s, results s = r0 → E e s []) →
  wp m self Q E.
Proof.
  intros Hm Hr HQ HE. unfold wp. specialize (Hm self).
  destruct (m self) as [s ev [e|x]]; simpl in *; destruct Hm as [-> Hs].
  - apply HE. congruence.
  - apply HQ. congruence.
Qed.

Lemma wp_bind_silent {A B} (m : M A) (f : A → M B) self
    (r0 : list column * string * bool) Q E :
  silent m →
  results self = r0 →
  (∀ x s, results s = r0 → wp (f x) s Q E) →
  (∀ e s, results s = r0 → E e s []) →
  wp (m ≫= f) self Q E.
Proof.
  intros Hm Hr Hf HE. apply wp_bind. eapply wp_silent; [done.. | |].
  - intros x s Hs. simpl. by apply Hf.
  - done.
Qed.

(** ** Execution *)

Ltac no_close :=
  cbn [app];
  repeat (apply not_elem_of_cons; split; [discriminate |]);
  apply not_elem_of_nil.

Lemma results_failed_post self e s ev :
  results s = results self → ECursorClose ∉ ev → failed_post self e s ev.
Proof.
  unfold failed_post. intros Hres Hev.
  split; [done |]. split; [| done]. intros _. unfold results in Hres. congruence.
Qed.

Lemma late_failed_post self e s ev :
  ¬ before_reset (kind e) →
  __executed_at_least_once s
  = (if bool_decide (ECursorClose ∈ ev) then true
     else __executed_at_least_once self) →
  failed_post self e s ev.
Proof.
  intros Hkind Hflag. unfold failed_post. case_bool_decide; done.
Qed.

Lemma executed_post_mono s (ev0 ev : list event) :
  executed_post s ev → executed_post s (ev0 ++ ev).
Proof.
  intros (Hflag & Hclose & rows & lines & Hin & Hrows).
  split; [done |]. split; [apply elem_of_app; by right |].
  exists rows, lines. split; [apply elem_of_app; by right | done].
Qed.

Lemma failed_post_mono self e s (ev0 ev : list event) :
  ECursorClose ∉ ev0 → failed_post self e s ev → failed_post self e s (ev0 ++ ev).
Proof.
  intros Hev0 (Hset & Hkept & Hkind). split; [| split; [| done]].
  - intros [H | H]%elem_of_app; [done | by apply Hset].
  - intros [_ H]%not_elem_of_app. by apply Hkept.
Qed.

Ltac failed_by_results :=
  let H := fresh in
  intros ? ? H; cbn beta; apply results_failed_post; [exact H | no_close].

Ltac silent_block :=
  first [ apply silent_answer | apply silent_setattr | apply silent_gets
        | by apply silent_modify | apply silent_build_parameter_list
        | apply silent_build_output_lists | apply silent_assert_text_in_report
        | match goal with
          | |- silent (if ?b then _ else _) =>
              destruct b; [apply silent_ret | apply silent_raise]
          end ].

Lemma lines_text_snoc (lines : list string) (line : string) :
  lines_text (lines ++ [line]) = lines_text lines +:+ line +:+ LF.
Proof.
  unfold lines_text. rewrite fmap_app, cat_app. unfold cat at 2. simpl.
  by rewrite string_app_nil_r.
Qed.

Lemma not_before_reset_external : ¬ before_reset ExternalError.
Proof. by intros [H | [H | H]]. Qed.

Lemma not_before_reset_index : ¬ before_reset IndexError.
Proof. by intros [H | [H | H]]. Qed.

Lemma not_before_reset_type : ¬ before_reset TypeError.
Proof. by intros [H | [H | H]]. Qed.

(** From the reset of the stored DDL to the end of [execute]: the second
    column of every fetched row is stored, each line followed by a newline
    is added to the DDL string, and only then is the flag set and the cursor
    closed.  A failing [fetchall], a row without a second column and a
    second column that is not a string raise before the flag is set; a
    failing [close] raises after it. *)
Lemma execute_fetch_wp w self (rows : list (list column)) s :
  __executed_at_least_once s = __executed_at_least_once self →
  wp (modify (set_ddl_as_array []) ;;
      modify (set_ddl_as_string "") ;;
      emit (EFetchAll rows) ;;
      (if fetchall w then mret () else raise (Exception ExternalError "")) ;;
      for_each rows (λ row,
        col ← answer IndexError (row !! 1);
        modify (λ self, set_ddl_as_array (__ddl_as_array self ++ [col]) self)) ;;
      array ← gets __ddl_as_array;
      for_each array (λ row,
        match row with
        | Str row =>
            modify (λ self,
              set_ddl_as_string (__ddl_as_string self +:+ row +:+ LF) self)
        | NotStr => raise (Exception TypeError "")
        end) ;;
      modify (set_executed_at_least_once true) ;;
      emit ECursorClose ;;
      (if close w then mret () else raise (Exception ExternalError "")))
     s
     (λ _ s' ev', executed_post s' ev')
     (λ e s' ev', failed_post self e s' ev').
Proof.
  intros Hflag.
  apply wp_bind, wp_modify. cbn beta.
  apply wp_bind, wp_modify. cbn beta.
  apply wp_bind, wp_emit. cbn beta.
  apply wp_bind. destruct (fetchall w).
  2:{ apply wp_raise. apply late_failed_post; [apply not_before_reset_external |].
      by rewrite bool_decide_eq_false_2 by no_close. }
  apply wp_ret. cbn beta.
  apply wp_bind.
  apply (wp_for_each _ _
    (λ seen s' ev,
       ev = []
       ∧ __executed_at_least_once s' = __executed_at_least_once self
       ∧ __ddl_as_string s' = ""
       ∧ Forall2 (λ row col, row !! 1 = Some col) seen (__ddl_as_array s'))).
  { repeat split; [done | apply Forall2_nil_2]. }
  { intros seen row s1 ev (-> & Hf & Hs & Hrows). apply wp_bind, wp_answer.
    - intros col Hcol. apply wp_modify. repeat split; [done.. |]. simpl.
      apply Forall2_app; [done |]. by apply Forall2_cons_2.
    - intros _. apply late_failed_post; [apply not_before_reset_index |].
      by rewrite bool_decide_eq_false_2 by no_close. }
  intros s1 ev1 (-> & Hf & Hs & Hrows). cbn beta.
  apply wp_bind, wp_gets. cbn beta.
  apply wp_bind.
  apply (wp_for_each _ _
    (λ seen s' ev,
       ev = []
       ∧ __executed_at_least_once s' = __executed_at_least_once self
       ∧ __ddl_as_array s' = __ddl_as_array s1
       ∧ ∃ lines, seen = Str <$> lines ∧ __ddl_as_string s' = lines_text lines)).
  { repeat split; [done.. |]. by exists []. }
  { intros seen [line|] s2 ev (-> & Hf2 & Ha2 & lines & -> & Hs2).
    - apply wp_modify. repeat split; [done.. |]. exists (lines ++ [line]).
      split; [by rewrite fmap_app |]. simpl. by rewrite Hs2, lines_text_snoc.
    - apply wp_raise. apply late_failed_post; [apply not_before_reset_type |].
      by rewrite bool_decide_eq_false_2 by no_close. }
  intros s2 ev2 (-> & Hf2 & Ha2 & lines & Harray & Hs2). cbn beta.
  apply wp_bind, wp_modify. cbn beta.
  apply wp_bind, wp_emit. cbn beta.
  destruct (close w).
  - apply wp_ret. split; [done |].
    split; [do 1 apply list_elem_of_further; apply list_elem_of_here |].
    exists rows, lines. split; [apply list_elem_of_here |].
    split; [| by simpl; rewrite Ha2].
    rewrite Harray in Hrows. by apply Forall2_fmap_r in Hrows.
  - apply wp_raise. apply late_failed_post; [apply not_before_reset_external |].
    rewrite bool_decide_eq_true_2; [done |].
    apply list_elem_of_further, list_elem_of_here.
Qed.

(** [execute] as a whole: when it returns the flag is set, the cursor was
    closed and the stored DDL is that of the fetched rows; when it raises
    the flag is as before unless the run got as far as closing the cursor,
    and the stored DDL is as before when the exception is of a kind raised
    before the reset. *)
Lemma execute_wp cfg w ssid self :
  wp (execute cfg w ssid) self
     (λ _ s ev, executed_post s ev) (λ e s ev, failed_post self e s ev).
Proof.
  unfold execute.
  apply wp_bind, wp_gets. cbn beta.
  destruct (bool_decide _).
  { apply wp_raise. apply results_failed_post; [done | no_close]. }
  do 9 (eapply (wp_bind_silent _ _ _ (results self));
    [ silent_block | done | intros ? ? ? | failed_by_results ]).
  apply wp_bind, wp_emit. cbn beta.
  eapply (wp_bind_silent _ _ _ (results self));
    [ silent_block | done | intros ? ? ? | failed_by_results ].
  apply wp_bind, wp_emit. cbn beta.
  do 2 (eapply (wp_bind_silent _ _ _ (results self));
    [ silent_block | done | intros ? ? ? | failed_by_results ]).
  apply wp_bind, wp_emit. cbn beta.
  do 2 (eapply (wp_bind_silent _ _ _ (results self));
    [ silent_block | done | intros ? ? ? | failed_by_results ]).
  apply wp_bind. destruct (is_not _ _).
  - eapply (wp_bind_silent _ _ _ (results self));
      [ silent_block | done | intros ? ? ? | failed_by_results ].
    apply wp_bind, wp_emit. cbn beta.
    do 3 (eapply (wp_bind_silent _ _ _ (results self));
      [ silent_block | done | intros ? ? ? | failed_by_results ]).
    eapply (wp_silent _ _ (results self));
      [ apply silent_assert_text_in_report | done | | failed_by_results ].
    intros [] s' Hs'. cbn beta.
    eapply wp_mono; [apply (execute_fetch_wp w self) | |].
    + unfold results in *. congruence.
    + intros [] s'' ev''. cbn beta. intros Hpost.
      by repeat apply executed_post_mono.
    + intros e s'' ev''. cbn beta. intros Hpost.
      repeat (apply failed_post_mono; [no_close |]). done.
  - apply wp_ret. cbn beta.
    eapply wp_mono; [apply (execute_fetch_wp w self) | |].
    + unfold results in *. congruence.
    + intros [] s'' ev''. cbn beta. intros Hpost.
      by repeat apply executed_post_mono.
    + intros e s'' ev''. cbn beta. intros Hpost.
      repeat (apply failed_post_mono; [no_close |]). done.
Qed.

(** C6.  On an instance whose request list is empty, [execute] fails with a
    [ConfigurationError]; the check comes first, so the instance is left as
    it was and nothing outside is touched, whatever the outside would have
    answered. *)
Theorem execute_empty_request_list_fails
    (cfg : utility.Config) (w : World) (ssid : pystr) (self : Adb2re) :
  request_list self = "" →
  execute cfg w ssid self
  = Outcome self [] (inl (Exception ConfigurationError
      "adb2re.py: request_list cannot be empty; use functions like add_table to build the list")).
Proof.
  intros Hempty. unfold execute.
  erewrite bind_run_pure by reflexivity. cbv beta. by rewrite Hempty.
Qed.

Lemma execute_empty_request_list_fails_witness :
  execute sample_cfg (sample_world [["1"; "CREATE TABLE A;"]] banner) (lit "DC1A")
    (new sample_cfg)
  = Outcome (new sample_cfg) [] (inl (Exception ConfigurationError
      "adb2re.py: request_list cannot be empty; use functions like add_table to build the list")).
Proof.
  apply (execute_empty_request_list_fails sample_cfg
           (sample_world [["1"; "CREATE TABLE A;"]] banner) (lit "DC1A") (new sample_cfg)).
  reflexivity.
Defined.

Lemma get_ddl_as_array_run self :
  __executed_at_least_once self = true →
  get_ddl_as_array self = Outcome self [] (inr (__ddl_as_array self)).
Proof. intros H. unfold get_ddl_as_array, mbind, M_bind, gets. by rewrite H. Qed.

Lemma get_report_as_string_run self :
  __executed_at_least_once self = true →
  get_report_as_string self = Outcome self [] (inr (__saved_report self)).
Proof. intros H. unfold get_report_as_string, mbind, M_bind, gets. by rewrite H. Qed.





(** C10.  When [execute] fails in the validation of the report, with a
    [ReportAssertionError], the stored DDL array, the stored DDL string and
    the has-executed flag are those from before the call, and the DDL
    accessors answer as they did before the call. *)
Theorem failed_report_validation_keeps_results
    (cfg : utility.Config) (w : World) (ssid : pystr)
    (self self' : Adb2re) (evs : list event) (e : exception) :
  execute cfg w ssid self = Outcome self' evs (inl e) →
  kind e = ReportAssertionError →
  __ddl_as_array self' = __ddl_as_array self
  ∧ __ddl_as_string self' = __ddl_as_string self
  ∧ __executed_at_least_once self' = __executed_at_least_once self
  ∧ out_result (get_ddl_as_array self') = out_result (get_ddl_as_array self)
  ∧ out_result (get_ddl_as_string self') = out_result (get_ddl_as_string self).
Proof.
  intros Hrun Hkind. pose proof (execute_wp cfg w ssid self) as Hwp.
  unfold wp in Hwp. rewrite Hrun in Hwp. destruct Hwp as (_ & _ & Hkept).
  assert (Hres : results self' = results self).
  { apply Hkept. rewrite Hkind. by right; right. }
  unfold results in Hres. injection Hres as Harray Hstring Hflag.
  repeat split; [done.. | |].
  - unfold get_ddl_as_array, mbind, M_bind, gets. rewrite Hflag.
    destruct (negb _); simpl; [done | by rewrite Harray].
  - unfold get_ddl_as_string, mbind, M_bind, gets. rewrite Hflag.
    destruct (negb _); simpl; [done | by rewrite Hstring].
Qed.

Lemma failed_report_validation_keeps_results_witness :
  let self := out_self (sample_run [["1"; "CREATE TABLE A;"]] banner) in
  let run :=
    execute sample_cfg
      (sample_world [["1"; "CREATE TABLE B;"]] (banner +:+ LF +:+ "SQLCODE=-805"))
      (lit "DC1A") self in
  __ddl_as_array (out_self run) = __ddl_as_array self
  ∧ __ddl_as_string (out_self run) = __ddl_as_string self
  ∧ __executed_at_least_once (out_self run) = __executed_at_least_once self
  ∧ out_result (get_ddl_as_array (out_self run)) = out_result (get_ddl_as_array self)
  ∧ out_result (get_ddl_as_string (out_self run)) = out_result (get_ddl_as_string self).
Proof.
  intros self run.
  apply (failed_report_validation_keeps_results sample_cfg
           (sample_world [["1"; "CREATE TABLE B;"]] (banner +:+ LF +:+ "SQLCODE=-805"))
           (lit "DC1A") self (out_self run) (out_events run)
           (Exception ReportAssertionError
              (report_message false "SQLCODE=-805"
                 (banner +:+ LF +:+ "SQLCODE=-805")))).
  - apply outcome_of_result. vm_compute. reflexivity.
  - reflexivity.
Defined.

(** ** Callers and the has-executed flag *)

Lemma silent_get_ddl_as_array : silent get_ddl_as_array.
Proof. unfold get_ddl_as_array. repeat silent_step. Qed.

Lemma silent_get_ddl_as_string : silent get_ddl_as_string.
Proof. unfold get_ddl_as_string. repeat silent_step. Qed.

Lemma silent_get_report_as_string : silent get_report_as_string.
Proof. unfold get_report_as_string. repeat silent_step. Qed.

Lemma silent_item_loop sublist stmt term items found_first_one count :
  silent (item_loop sublist stmt term items found_first_one count).
Proof.
  revert found_first_one count.
  induction items as [|item items IH]; intros found count; simpl;
    [apply silent_ret |].
  repeat first [ apply IH | apply silent_get_ddl_as_string | silent_step ].
Qed.

Lemma silent_stmt_loop sublist term split_ddl found_first_one :
  silent (stmt_loop sublist term split_ddl found_first_one).
Proof.
  revert found_first_one.
  induction split_ddl as [|stmt split_ddl IH]; intros found; simpl;
    [apply silent_ret |].
  repeat first [ apply IH | apply silent_item_loop | silent_step ].
Qed.

Lemma silent_sublist_loop term split_ddl checklist found_first_one :
  silent (sublist_loop term split_ddl checklist found_first_one).
Proof.
  revert found_first_one.
  induction checklist as [|sublist checklist IH]; intros found; simpl;
    [apply silent_ret |].
  apply silent_bind; [apply silent_stmt_loop |].
  intros [[]|]; [apply IH | apply silent_raise..].
Qed.

Lemma silent_assert_text_between_terminators checklist term :
  silent (assert_text_between_terminators checklist term).
Proof.
  unfold assert_text_between_terminators.
  repeat first
    [ apply silent_sublist_loop | apply silent_get_ddl_as_string | silent_step ].
Qed.

Lemma silent_add_object type qual name : silent (__add_object type qual name).
Proof. by apply silent_modify. Qed.

(** Only [execute] touches the flag: it sets it on the runs that get as
    far as closing the cursor. *)
Lemma perform_flag cfg (c : call) self :
  __executed_at_least_once (out_self (perform cfg c self))
  = match c with
    | Cexecute _ _ =>
        bool_decide (ECursorClose ∈ out_events (perform cfg c self))
        || __executed_at_least_once self
    | _ => __executed_at_least_once self
    end.
Proof.
  assert (Hsilent : ∀ m : M unit,
    silent m →
    __executed_at_least_once (out_self (m self)) = __executed_at_least_once self).
  { intros m Hm. destruct (Hm self) as [_ Hres]. unfold results in Hres. congruence. }
  destruct c; simpl perform.
  20:{ pose proof (wp_outcome _ _ _ _ (execute_wp cfg w ssid self)) as Hwp.
       destruct (out_result _) as [e|[]].
       - destruct Hwp as (Hset & Hkept & _). case_bool_decide; simpl; auto.
       - destruct Hwp as (Hflag & Hclose & _).
         by rewrite bool_decide_eq_true_2. }
  all: apply Hsilent.
  all: lazymatch goal with
       | |- silent (add_stogroup _) => by apply silent_modify
       | |- silent (add_database _) => by apply silent_modify
       | |- silent (add_sequence_alias _ _) => by apply silent_modify
       | |- silent (add_schema _) => by apply silent_modify
       | |- silent (modify _) => by apply silent_modify
       | |- silent (setattr _ _) => apply silent_setattr
       | |- silent (set_all_gen_options _) => apply silent_set_all_gen_options
       | |- silent (set_all_grant_options _) => apply silent_set_all_grant_options
       | |- silent (assert_text_between_terminators _ _) =>
           apply silent_assert_text_between_terminators
       | |- silent (assert_text_in_report _ _ _) =>
           apply silent_assert_text_in_report
       | |- silent (assert_text_not_in_report _ _) =>
           apply silent_assert_text_in_report
       | |- silent (get_ddl_as_array ≫= _) =>
           apply silent_bind; [apply silent_get_ddl_as_array | intros ?; apply silent_ret]
       | |- silent (get_ddl_as_string ≫= _) =>
           apply silent_bind; [apply silent_get_ddl_as_string | intros ?; apply silent_ret]
       | |- silent (get_report_as_string ≫= _) =>
           apply silent_bind; [apply silent_get_report_as_string | intros ?; apply silent_ret]
       | |- silent _ => apply silent_add_object
       end.
Qed.

Lemma run_calls_flag cfg (cs : list call) self :
  __executed_at_least_once (run_calls cfg cs self)
  = __executed_at_least_once self || reached_close cfg cs self.
Proof.
  revert self. induction cs as [|c cs IH]; intros self.
  - cbn [run_calls foldl reached_close]. by rewrite orb_false_r.
  - unfold run_calls in *. cbn [foldl reached_close]. rewrite IH, perform_flag.
    destruct c; cbn [orb]; try reflexivity.
    destruct (bool_decide _), (__executed_at_least_once self); reflexivity.
Qed.

(** An [execute] that returns has got as far as closing the cursor. *)
Lemma executed_successfully_reached_close cfg (cs : list call) self :
  executed_successfully cfg cs self = true → reached_close cfg cs self = true.
Proof.
  revert self. induction cs as [|c cs IH]; intros self;
    cbn [executed_successfully reached_close]; [done |].
  destruct c; cbn [orb]; try apply IH.
  pose proof (wp_outcome _ _ _ _ (execute_wp cfg w ssid self)) as Hwp.
  cbn [perform] in *.
  destruct (out_result _) as [e|[]].
  - intros H. rewrite (IH _ H). apply orb_true_r.
  - intros _. destruct Hwp as (_ & Hclose & _).
    by rewrite bool_decide_eq_true_2.
Qed.

(** C5, amended.  After any sequence of calls on a fresh instance in which
    no [execute] got as far as closing the cursor, each of the three
    accessors raises a [NotExecutedError]; once an [execute] has stored its
    results and reached the closing of the cursor, whether it then returned
    or raised in the close, each returns the stored value.  In both cases
    the accessor leaves the instance as it was.  An [execute] that returns
    is one that has reached the closing of the cursor. *)
Theorem accessors_need_stored_results
    (cfg : utility.Config) (cs : list call) :
  let self := run_calls cfg cs (new cfg) in
  (executed_successfully cfg cs (new cfg) = true →
   reached_close cfg cs (new cfg) = true)
  ∧ if reached_close cfg cs (new cfg)
    then
      get_ddl_as_array self = Outcome self [] (inr (__ddl_as_array self))
      ∧ get_ddl_as_string self = Outcome self [] (inr (__ddl_as_string self))
      ∧ get_report_as_string self = Outcome self [] (inr (__saved_report self))
    else
      get_ddl_as_array self
      = Outcome self [] (inl (Exception NotExecutedError
          "adb2re.py: Call execute() before retrieving DDL"))
      ∧ get_ddl_as_string self
        = Outcome self [] (inl (Exception NotExecutedError
            "adb2re.py: Call execute() before retrieving DDL"))
      ∧ get_report_as_string self
        = Outcome self [] (inl (Exception NotExecutedError
            "adb2re.py: Call execute() before retrieving report")).
Proof.
  intros self. split; [apply executed_successfully_reached_close |].
  pose proof (run_calls_flag cfg cs (new cfg)) as Hflag.
  fold self in Hflag. simpl in Hflag.
  destruct (reached_close cfg cs (new cfg)).
  - by rewrite get_ddl_as_array_run, get_ddl_as_string_run, get_report_as_string_run.
  - unfold get_ddl_as_array, get_ddl_as_string, get_report_as_string,
      mbind, M_bind, gets. by rewrite Hflag.
Qed.

Lemma accessors_need_stored_results_witness :
  let calls :=
    [Cget_ddl_as_array; Cadd_table "Q" "T";
     Cexecute (sample_world [["1"; "CREATE TABLE A;"]] banner) (lit "DC1A")] in
  let self := run_calls sample_cfg calls (new sample_cfg) in
  get_ddl_as_array (new sample_cfg)
  = Outcome (new sample_cfg) [] (inl (Exception NotExecutedError
      "adb2re.py: Call execute() before retrieving DDL"))
  ∧ get_ddl_as_array self = Outcome self [] (inr (__ddl_as_array self))
  ∧ __ddl_as_array self = [Str "CREATE TABLE A;"].
Proof.
  intros calls self. split; [| split].
  - pose proof (accessors_need_stored_results sample_cfg []) as [_ H].
    change (reached_close sample_cfg [] (new sample_cfg)) with false in H.
    apply H.
  - assert (Hs : reached_close sample_cfg calls (new sample_cfg) = true)
      by (vm_compute; reflexivity).
    pose proof (accessors_need_stored_results sample_cfg calls) as [_ H].
    rewrite Hs in H. apply H.
  - vm_compute. reflexivity.
Defined.

(** C5 as stated fails: when [cursor.close()] raises, [execute] raises, so
    that no successful execution has completed, and yet the accessors
    return the results the run had stored. *)
Lemma accessors_answer_after_failed_close :
  let w := {| connect := λ _, true;
              cursor := true;
              call_ADB2RE := λ _, Some [[Str "1"; Str "CREATE TABLE A;"]];
              read_ds := λ _, Some banner;
              fetchall := true;
              close := false |} in
  let calls := [Cadd_table "Q" "T"; Cexecute w (lit "DC1A")] in
  let self := run_calls sample_cfg calls (new sample_cfg) in
  executed_successfully sample_cfg calls (new sample_cfg) = false
  ∧ out_result (execute sample_cfg w (lit "DC1A") sample_ready)
    = inl (Exception ExternalError "")
  ∧ out_result (get_ddl_as_array self) = inr [Str "CREATE TABLE A;"]
  ∧ out_result (get_ddl_as_string self) = inr ("CREATE TABLE A;" +:+ LF)
  ∧ out_result (get_report_as_string self) = inr banner.
Proof.
  intros w calls self. repeat split; vm_compute; reflexivity.
Qed.

(** * Further properties of the class *)

(** ** Methods that only read *)

Lemma read_only_ret {A} (x : A) : read_only (mret x : M A).
Proof. done. Qed.

Lemma read_only_raise {A} (e : exception) : read_only (raise e : M A).
Proof. done. Qed.

Lemma read_only_gets {A} (f : Adb2re → A) : read_only (gets f).
Proof. done. Qed.

Lemma read_only_answer {A} (k : error_kind) (o : option A) : read_only (answer k o).
Proof. by destruct o. Qed.

Lemma read_only_bind {A B} (m : M A) (f : A → M B) :
  read_only m → (∀ x, read_only (f x)) → read_only (m ≫= f).
Proof.
  intros Hm Hf self. specialize (Hm self). unfold mbind, M_bind.
  destruct (m self) as [s1 ev1 [e|x]]; simpl in *; [done |].
  destruct Hm as [-> ->]. specialize (Hf x self).
  by destruct (f x self) as [s2 ev2 r].
Qed.

Ltac read_only_step :=
  first
    [ apply read_only_ret | apply read_only_raise | apply read_only_gets
    | apply read_only_answer
    | apply read_only_bind; [| intros ?]
    | match goal with
      | |- read_only (if ?b then _ else _) => destruct b
      | |- read_only (match ?x with _ => _ end) => destruct x
      end ].

Lemma read_only_get_ddl_as_array : read_only get_ddl_as_array.
Proof. unfold get_ddl_as_array. repeat read_only_step. Qed.

Lemma read_only_get_ddl_as_string : read_only get_ddl_as_string.
Proof. unfold get_ddl_as_string. repeat read_only_step. Qed.

Lemma read_only_get_report_as_string : read_only get_report_as_string.
Proof. unfold get_report_as_string. repeat read_only_step. Qed.

Lemma read_only_report_loop positive_test text :
  read_only (report_loop positive_test text).
Proof.
  induction text as [|line text IH]; simpl; [apply read_only_ret |].
  repeat first [ apply IH | read_only_step ].
Qed.

Lemma read_only_assert_text_in_report cfg text positive_test :
  read_only (assert_text_in_report cfg text positive_test).
Proof.
  unfold assert_text_in_report, getobject.
  repeat first [ apply read_only_report_loop | read_only_step ].
Qed.

Lemma read_only_item_loop sublist stmt term items found_first_one count :
  read_only (item_loop sublist stmt term items found_first_one count).
Proof.
  revert found_first_one count.
  induction items as [|item items IH]; intros found count; simpl;
    [apply read_only_ret |].
  repeat first [ apply IH | apply read_only_get_ddl_as_string | read_only_step ].
Qed.

Lemma read_only_stmt_loop sublist term split_ddl found_first_one :
  read_only (stmt_loop sublist term split_ddl found_first_one).
Proof.
  revert found_first_one.
  induction split_ddl as [|stmt split_ddl IH]; intros found; simpl;
    [apply read_only_ret |].
  repeat first [ apply IH | apply read_only_item_loop | read_only_step ].
Qed.

Lemma read_only_sublist_loop term split_ddl checklist found_first_one :
  read_only (sublist_loop term split_ddl checklist found_first_one).
Proof.
  revert found_first_one.
  induction checklist as [|sublist checklist IH]; intros found; simpl;
    [apply read_only_ret |].
  apply read_only_bind; [apply read_only_stmt_loop |].
  intros [[]|]; [apply IH | apply read_only_raise..].
Qed.

Lemma read_only_assert_text_between_terminators checklist term :
  read_only (assert_text_between_terminators checklist term).
Proof.
  unfold assert_text_between_terminators.
  repeat first
    [ apply read_only_sublist_loop | apply read_only_get_ddl_as_string
    | read_only_step ].
Qed.

(** X1.  The three accessors and the three assertions only read: whatever
    their arguments and whether they return or raise, the instance is left
    exactly as it was and nothing outside is touched. *)
Theorem accessors_and_assertions_only_read
    (cfg : utility.Config) (self : Adb2re)
    (checklist : list (list string)) (term : string)
    (text : list string) (positive_test : bool) :
  (out_self (get_ddl_as_array self) = self
   ∧ out_events (get_ddl_as_array self) = [])
  ∧ (out_self (get_ddl_as_string self) = self
     ∧ out_events (get_ddl_as_string self) = [])
  ∧ (out_self (get_report_as_string self) = self
     ∧ out_events (get_report_as_string self) = [])
  ∧ (out_self (assert_text_between_terminators checklist term self) = self
     ∧ out_events (assert_text_between_terminators checklist term self) = [])
  ∧ (out_self (assert_text_in_report cfg text positive_test self) = self
     ∧ out_events (assert_text_in_report cfg text positive_test self) = [])
  ∧ (out_self (assert_text_not_in_report cfg text self) = self
     ∧ out_events (assert_text_not_in_report cfg text self) = []).
Proof.
  split; [apply read_only_get_ddl_as_array |].
  split; [apply read_only_get_ddl_as_string |].
  split; [apply read_only_get_report_as_string |].
  split; [apply read_only_assert_text_between_terminators |].
  split; apply read_only_assert_text_in_report.
Qed.

(** ** Parts of the instance a method leaves alone *)

Lemma preserves_ret {A B} (proj : Adb2re → B) (x : A) : preserves proj (mret x : M A).
Proof. done. Qed.

Lemma preserves_raise {A B} (proj : Adb2re → B) (e : exception) :
  preserves proj (raise e : M A).
Proof. done. Qed.

Lemma preserves_gets {A B} (proj : Adb2re → B) (f : Adb2re → A) :
  preserves proj (gets f).
Proof. done. Qed.

Lemma preserves_emit {B} (proj : Adb2re → B) (ev : event) : preserves proj (emit ev).
Proof. done. Qed.

Lemma preserves_answer {A B} (proj : Adb2re → B) (k : error_kind) (o : option A) :
  preserves proj (answer k o).
Proof. by destruct o. Qed.

Lemma preserves_modify {B} (proj : Adb2re → B) (f : Adb2re → Adb2re) :
  (∀ self, proj (f self) = proj self) → preserves proj (modify f).
Proof. intros Hf self. apply Hf. Qed.

Lemma preserves_bind {A B C} (proj : Adb2re → C) (m : M A) (f : A → M B) :
  preserves proj m → (∀ x, preserves proj (f x)) → preserves proj (m ≫= f).
Proof.
  intros Hm Hf self. specialize (Hm self). unfold mbind, M_bind.
  destruct (m self) as [s1 ev1 [e|x]]; simpl in *; [done |].
  specialize (Hf x s1). destruct (f x s1) as [s2 ev2 r]; simpl in *. congruence.
Qed.

Lemma preserves_for_each {A B} (proj : Adb2re → B) (l : list A) (body : A → M unit) :
  (∀ x, preserves proj (body x)) → preserves proj (for_each l body).
Proof.
  intros Hbody. induction l as [|x l IH]; simpl; [apply preserves_ret |].
  apply preserves_bind; [apply Hbody | by intros _].
Qed.

Lemma read_only_preserves {A B} (proj : Adb2re → B) (m : M A) :
  read_only m → preserves proj m.
Proof. intros Hm self. by destruct (Hm self) as [-> _]. Qed.

Ltac preserves_step :=
  first
    [ apply preserves_ret | apply preserves_raise | apply preserves_gets
    | apply preserves_emit | apply preserves_answer
    | apply preserves_modify; intros ?; reflexivity
    | apply preserves_for_each; intros ?
    | apply preserves_bind; [| intros ?]
    | match goal with
      | |- preserves _ (if ?b then _ else _) => destruct b
      | |- preserves _ (match ?x with _ => _ end) => destruct x
      | |- preserves _ (let '(_, _) := ?x in _) => destruct x
      end ].

Lemma preserves_eval {B} (proj : Adb2re → B) cfg d : preserves proj (eval cfg d).
Proof. apply preserves_gets. Qed.

Lemma execute_preserves_request_list cfg w ssid :
  preserves request_list (execute cfg w ssid).
Proof.
  unfold execute, __build_parameter_list, __build_output_lists,
    add_parameter, add_sql_output, add_rpt_output, getattr, getobject, setattr.
  repeat first
    [ apply preserves_eval
    | apply read_only_preserves, read_only_assert_text_in_report
    | preserves_step ].
Qed.

Lemma perform_request_list cfg (c : call) self :
  ∃ suffix,
    request_list (out_self (perform cfg c self)) = request_list self +:+ suffix.
Proof.
  assert (Hsame : ∀ m : M unit,
    preserves request_list m →
    ∃ suffix, request_list (out_self (m self)) = request_list self +:+ suffix).
  { intros m Hm. exists "". by rewrite Hm, string_app_nil_r. }
  destruct c; simpl perform.
  all: lazymatch goal with
       | |- context [execute] => apply Hsame, execute_preserves_request_list
       | |- context [modify (set_DEBUG_MODE _)] =>
           apply Hsame; by apply preserves_modify
       | |- context [setattr] => apply Hsame; by apply preserves_modify
       | |- context [set_all_gen_options] =>
           apply Hsame, preserves_for_each; intros ?; by apply preserves_modify
       | |- context [set_all_grant_options] =>
           apply Hsame, preserves_for_each; intros ?; by apply preserves_modify
       | |- context [get_ddl_as_array] =>
           apply Hsame, read_only_preserves, read_only_bind;
             [apply read_only_get_ddl_as_array | intros ?; apply read_only_ret]
       | |- context [get_ddl_as_string] =>
           apply Hsame, read_only_preserves, read_only_bind;
             [apply read_only_get_ddl_as_string | intros ?; apply read_only_ret]
       | |- context [get_report_as_string] =>
           apply Hsame, read_only_preserves, read_only_bind;
             [apply read_only_get_report_as_string | intros ?; apply read_only_ret]
       | |- context [assert_text_between_terminators] =>
           apply Hsame, read_only_preserves,
             read_only_assert_text_between_terminators
       | |- context [assert_text_in_report] =>
           apply Hsame, read_only_preserves, read_only_assert_text_in_report
       | |- context [assert_text_not_in_report] =>
           apply Hsame, read_only_preserves, read_only_assert_text_in_report
       | |- _ => eexists; reflexivity
       end.
Qed.

(** X2.  The request list is append-only for a caller: [execute] leaves it
    exactly as it is, whether it returns or raises, and after any sequence
    of calls the list is the earlier list followed by what was appended
    since.  An object once requested is therefore requested again by every
    later [execute] of the instance. *)
Theorem request_list_is_append_only
    (cfg : utility.Config) (w : World) (ssid : pystr) (cs : list call)
    (self : Adb2re) :
  request_list (out_self (execute cfg w ssid self)) = request_list self
  ∧ ∃ appended,
      request_list (run_calls cfg cs self) = request_list self +:+ appended.
Proof.
  split; [apply execute_preserves_request_list |].
  revert self. induction cs as [|c cs IH]; intros self.
  - exists "". by rewrite string_app_nil_r.
  - destruct (perform_request_list cfg c self) as [s1 H1].
    destruct (IH (out_self (perform cfg c self))) as [s2 H2].
    exists (s1 +:+ s2). unfold run_calls in *. simpl.
    by rewrite H2, H1, string_app_assoc.
Qed.

(** ** The parameter list, continued *)

Lemma occurs_app_l (sub a b : string) :
  PyStr.occurs sub a → PyStr.occurs sub (a +:+ b).
Proof.
  intros (pre & post & ->). exists pre, (post +:+ b).
  by rewrite !string_app_assoc.
Qed.

Lemma occurs_app_r (sub a b : string) :
  PyStr.occurs sub b → PyStr.occurs sub (a +:+ b).
Proof.
  intros (pre & post & ->). exists (a +:+ pre), post.
  by rewrite !string_app_assoc.
Qed.

Lemma occurs_refl (s : string) : PyStr.occurs s s.
Proof. exists "", "". by rewrite string_app_nil_r. Qed.

Lemma fragments_occurs cfg self (c : attr * operand * string) l :
  c ∈ l → changed cfg self c = true →
  PyStr.occurs (fragment cfg self c) (fragments cfg self l).
Proof.
  intros Hin Hc. induction Hin as [c l|c c' l _ IH]; rewrite fragments_cons.
  - rewrite Hc. apply occurs_app_l, occurs_refl.
  - by apply occurs_app_r, IH.
Qed.

Lemma fragments_unchanged cfg self (l : list (attr * operand * string)) :
  Forall (λ c, changed cfg self c = false) l → fragments cfg self l = "".
Proof.
  induction 1 as [|c l Hc _ IH]; [done |]. by rewrite fragments_cons, Hc, IH.
Qed.

(** X3.  [__build_parameter_list] starts from scratch: what it writes does
    not depend on what [parameter_list] held before, and building twice in a
    row leaves the instance exactly as building once. *)
Theorem build_parameter_list_idempotent
    (cfg : utility.Config) (self : Adb2re) (previous : string) :
  parameter_list (out_self (__build_parameter_list cfg (set_parameter_list previous self)))
  = parameter_list (out_self (__build_parameter_list cfg self))
  ∧ (__build_parameter_list cfg ;; __build_parameter_list cfg) self
    = __build_parameter_list cfg self.
Proof.
  split.
  - by rewrite !build_parameter_list_run.
  - erewrite bind_run by apply build_parameter_list_run.
    by rewrite !build_parameter_list_run.
Qed.

(** The text of an operand's object is the operand's text. *)
Lemma operand_object_chars cfg self (d : operand) (o : pystr) :
  operand_object cfg self d = Some o → chars o = operand_value cfg self d.
Proof.
  destruct d as [s | o' | a | x y]; simpl; try by intros [= <-].
  unfold add. repeat case_decide; intros [= <-].
  - by replace (chars x) with "".
  - replace (chars y) with "". by rewrite string_app_nil_r.
Qed.

(** A guard fires when the texts differ, and does not fire when the
    attribute holds the very object it is compared with. *)
Lemma changed_of_values cfg self (a : attr) (d : operand) (key : string) :
  attr_value cfg self a ≠ operand_value cfg self d →
  changed cfg self (a, d, key) = true.
Proof.
  intros Hne. unfold changed. simpl.
  destruct (operand_object cfg self d) as [o|] eqn:Ho; [| done].
  apply is_not_chars. by rewrite (operand_object_chars _ _ _ _ Ho).
Qed.

Lemma changed_same_object cfg self (a : attr) (d : operand) (key : string) :
  (∃ o, operand_object cfg self d = Some o ∧ is_ (attr_object cfg self a) o = true) →
  changed cfg self (a, d, key) = false.
Proof. intros (o & Ho & His). unfold changed, is_not. simpl. by rewrite Ho, His. Qed.

(** The sum in the guard of [DB2SERV] is a new object unless one of its
    operands is empty, so that this guard always fires. *)
Lemma changed_DB2SERV cfg self :
  chars (utility.LPAR cfg) ≠ "" → chars (utility.DB2_SUBSYSTEM_ID cfg) ≠ "" →
  changed cfg self
    (DB2SERV, Sum (utility.LPAR cfg) (utility.DB2_SUBSYSTEM_ID cfg), "DB2SERV")
  = true.
Proof.
  intros HL HS. unfold changed. simpl. unfold add.
  destruct (decide (chars (utility.LPAR cfg) = "")); [done |].
  by destruct (decide (chars (utility.DB2_SUBSYSTEM_ID cfg) = "")).
Qed.

(** X4.  The parameter list [__build_parameter_list] writes opens with the
    two required fields [DB2SYS] and [DB2REL] and closes with [;].  Every
    option whose text differs from the text its guard compares it with has
    its assignment [,KEY='value'] in the list.  The guard of [DB2SERV]
    compares with a sum built on the spot, a new object when [LPAR] and
    [DB2_SUBSYSTEM_ID] are not empty: the assignment of [DB2SERV] is then
    always in the list, and when every other option holds the very object
    its guard compares it with, the list is the two required fields and
    [DB2SERV] alone. *)
Theorem parameter_list_shape (cfg : utility.Config) (self : Adb2re) :
  let written := parameter_list (out_self (__build_parameter_list cfg self)) in
  let required :=
    "DB2SYS='" +:+ attr_value cfg self DB2SYS
      +:+ "',DB2REL='" +:+ attr_value cfg self DB2REL +:+ "'" in
  (∃ options, written = required +:+ options +:+ ";")
  ∧ (∀ a d key,
       (a, d, key) ∈ parameter_checks cfg →
       attr_value cfg self a ≠ operand_value cfg self d →
       PyStr.occurs ("," +:+ key +:+ "='" +:+ attr_value cfg self a +:+ "'") written)
  ∧ (chars (utility.LPAR cfg) ≠ "" → chars (utility.DB2_SUBSYSTEM_ID cfg) ≠ "" →
     PyStr.occurs (",DB2SERV='" +:+ attr_value cfg self DB2SERV +:+ "'") written
     ∧ ((∀ a d key,
           (a, d, key) ∈ parameter_checks cfg → a ≠ DB2SERV →
           ∃ o, operand_object cfg self d = Some o
                ∧ is_ (attr_object cfg self a) o = true) →
        written
        = required +:+ ",DB2SERV='" +:+ attr_value cfg self DB2SERV +:+ "'" +:+ ";")).
Proof.
  intros written required. subst written required.
  rewrite build_parameter_list_run. simpl parameter_list.
  unfold rendered_parameter_list. split; [| split].
  - exists (fragments cfg self (parameter_checks cfg)). by rewrite !string_app_assoc.
  - intros a d key Hin Hne.
    do 5 apply occurs_app_r. apply occurs_app_l.
    apply (fragments_occurs cfg self (a, d, key)); [done |].
    by apply changed_of_values.
  - intros HL HS. split.
    + do 5 apply occurs_app_r. apply occurs_app_l.
      apply (fragments_occurs cfg self
               (DB2SERV, Sum (utility.LPAR cfg) (utility.DB2_SUBSYSTEM_ID cfg),
                "DB2SERV")); [| by apply changed_DB2SERV].
      unfold parameter_checks. apply list_elem_of_further, list_elem_of_here.
    + intros Hall. unfold parameter_checks in *.
      rewrite 2!fragments_cons, changed_DB2SERV by done.
      rewrite changed_same_object
        by (eapply Hall; [apply list_elem_of_here | done]).
      rewrite fragments_unchanged.
      { unfold fragment. simpl.
        by rewrite !string_app_assoc, ?string_app_nil_r. }
      apply Forall_forall. intros [[a d] key] Hin.
      apply changed_same_object, (Hall a d key).
      * by do 2 apply list_elem_of_further.
      * intros ->.
        repeat (apply elem_of_cons in Hin as [[=] | Hin]).
        by apply elem_of_nil in Hin.
Qed.

Lemma parameter_list_shape_witness :
  let self := out_self (setattr GENTABLE (lit "Y") (new sample_cfg)) in
  let written := parameter_list (out_self (__build_parameter_list sample_cfg self)) in
  PyStr.occurs ",GENTABLE='Y'" written
  ∧ PyStr.occurs ",DB2SERV='RS22DC1A'" written.
Proof.
  intros self written.
  destruct (parameter_list_shape sample_cfg self) as (_ & Hchanged & Hserv).
  split.
  - apply (Hchanged GENTABLE (Lit "N") "GENTABLE").
    + unfold parameter_checks.
      repeat first [ apply list_elem_of_here | apply list_elem_of_further ].
    + by vm_compute.
  - by apply Hserv.
Defined.

Lemma build_parameter_list_occurs cfg self (c : attr * operand * string) :
  c ∈ parameter_checks cfg → changed cfg self c = true →
  PyStr.occurs (fragment cfg self c)
    (parameter_list (out_self (__build_parameter_list cfg self))).
Proof.
  intros Hin Hc. rewrite build_parameter_list_run. simpl parameter_list.
  unfold rendered_parameter_list. do 5 apply occurs_app_r. apply occurs_app_l.
  by apply fragments_occurs.
Qed.

(** ** Bulk setters *)

Lemma set_attrs_id self : set_attrs (attrs self) self = self.
Proof. by destruct self. Qed.

Lemma for_each_setattr (l : list attr) (value : pystr) self :
  for_each l (λ a, setattr a value) self
  = Outcome (set_attrs (foldl (λ m a, <[a := value]> m) (attrs self) l) self)
      [] (inr ()).
Proof.
  revert self. induction l as [|a l IH]; intros self; simpl.
  - by rewrite set_attrs_id.
  - erewrite bind_run by reflexivity. by rewrite IH.
Qed.

Lemma lookup_foldl_insert (l : list attr) (value : pystr)
    (m : gmap attr pystr) (b : attr) :
  foldl (λ m a, <[a := value]> m) m l !! b
  = if decide (b ∈ l) then Some value else m !! b.
Proof.
  revert m. induction l as [|a l IH]; intros m; simpl; [done |].
  rewrite IH. destruct (decide (b ∈ l)) as [Hl|Hl].
  - rewrite decide_True; [done |]. by apply list_elem_of_further.
  - destruct (decide (a = b)) as [->|Hab].
    + rewrite lookup_insert_eq, decide_True; [done | apply list_elem_of_here].
    + rewrite lookup_insert_ne by done. rewrite decide_False; [done |].
      intros [?|?]%elem_of_cons; congruence.
Qed.

Lemma attr_value_bulk cfg (l : list attr) (value : pystr) self (b : attr) :
  attr_value cfg (out_self (for_each l (λ a, setattr a value) self)) b
  = if decide (b ∈ l) then chars value else attr_value cfg self b.
Proof.
  rewrite for_each_setattr. unfold attr_value, attr_object. simpl.
  rewrite lookup_foldl_insert. by destruct (decide (b ∈ l)).
Qed.

Ltac find_in_list :=
  repeat first [ apply list_elem_of_here | apply list_elem_of_further ].

Lemma gen_options_checked cfg (a : attr) :
  a ∈ gen_options → (a, Lit "N", attr_name a) ∈ parameter_checks cfg.
Proof.
  intros Ha. unfold gen_options in Ha.
  repeat (apply elem_of_cons in Ha as [->|Ha];
          [unfold parameter_checks; simpl attr_name; find_in_list |]).
  by apply elem_of_nil in Ha.
Qed.

Lemma grant_options_checked cfg (a : attr) :
  a ∈ grant_options → (a, Lit "N", attr_name a) ∈ parameter_checks cfg.
Proof.
  intros Ha. unfold grant_options in Ha.
  repeat (apply elem_of_cons in Ha as [->|Ha];
          [unfold parameter_checks; simpl attr_name; find_in_list |]).
  by apply elem_of_nil in Ha.
Qed.

Lemma bulk_options_rendered cfg (l : list attr) (value : pystr) self (a : attr) :
  (∀ a, a ∈ l → (a, Lit "N", attr_name a) ∈ parameter_checks cfg) →
  chars value ≠ "N" → a ∈ l →
  PyStr.occurs ("," +:+ attr_name a +:+ "='" +:+ value +:+ "'")
    (parameter_list
       (out_self (__build_parameter_list cfg
          (out_self (for_each l (λ a, setattr a value) self))))).
Proof.
  intros Hchecked Hvalue Ha.
  pose proof (build_parameter_list_occurs cfg
    (out_self (for_each l (λ a, setattr a value) self))
    (a, Lit "N", attr_name a) (Hchecked a Ha)) as H.
  unfold fragment in H. simpl in H.
  rewrite attr_value_bulk, decide_True in H by done.
  apply H, changed_of_values. simpl.
  by rewrite attr_value_bulk, decide_True.
Qed.

(** X5.  [set_all_gen_options(value)] gives [value] to each of the 22 [GEN]
    options and leaves every other option as it was; built afterwards, the
    parameter list holds the assignment [,GENxxx='value'] of every one of
    them, unless [value] is ['N']. *)
Theorem set_all_gen_options_effect
    (cfg : utility.Config) (self : Adb2re) (value : pystr) :
  let self' := out_self (set_all_gen_options value self) in
  (∀ a, a ∈ gen_options → attr_value cfg self' a = value)
  ∧ (∀ a, a ∉ gen_options → attr_value cfg self' a = attr_value cfg self a)
  ∧ (chars value ≠ "N" →
     ∀ a, a ∈ gen_options →
       PyStr.occurs ("," +:+ attr_name a +:+ "='" +:+ value +:+ "'")
         (parameter_list (out_self (__build_parameter_list cfg self')))).
Proof.
  intros self'. subst self'.
  change (set_all_gen_options value)
    with (for_each gen_options (λ a, setattr a value)).
  split; [| split].
  - intros a Ha. by rewrite attr_value_bulk, decide_True.
  - intros a Ha. by rewrite attr_value_bulk, decide_False.
  - intros Hvalue a Ha.
    by apply bulk_options_rendered; [apply gen_options_checked | |].
Qed.

Lemma set_all_gen_options_effect_witness :
  let self' := out_self (set_all_gen_options (lit "Y") (new sample_cfg)) in
  attr_value sample_cfg self' GENVIEW = "Y"
  ∧ attr_value sample_cfg self' GRANTVW = "N"
  ∧ PyStr.occurs ",GENVIEW='Y'"
      (parameter_list (out_self (__build_parameter_list sample_cfg self'))).
Proof.
  intros self'.
  destruct (set_all_gen_options_effect sample_cfg (new sample_cfg) (lit "Y"))
    as (Hset & Hother & Hrendered).
  split; [| split].
  - apply Hset. unfold gen_options. find_in_list.
  - rewrite Hother; [reflexivity |]. unfold gen_options.
    rewrite !elem_of_cons, elem_of_nil. intros H.
    repeat (destruct H as [H|H]; [discriminate H |]). done.
  - apply (Hrendered ltac:(done) GENVIEW). unfold gen_options. find_in_list.
Defined.

(** X6.  [set_all_grant_options(value)] gives [value] to each of the 11
    [GRANT] options and leaves every other option as it was; built
    afterwards, the parameter list holds the assignment [,GRANTxxx='value']
    of every one of them, unless [value] is ['N']. *)
Theorem set_all_grant_options_effect
    (cfg : utility.Config) (self : Adb2re) (value : pystr) :
  let self' := out_self (set_all_grant_options value self) in
  (∀ a, a ∈ grant_options → attr_value cfg self' a = value)
  ∧ (∀ a, a ∉ grant_options → attr_value cfg self' a = attr_value cfg self a)
  ∧ (chars value ≠ "N" →
     ∀ a, a ∈ grant_options →
       PyStr.occurs ("," +:+ attr_name a +:+ "='" +:+ value +:+ "'")
         (parameter_list (out_self (__build_parameter_list cfg self')))).
Proof.
  intros self'. subst self'.
  change (set_all_grant_options value)
    with (for_each grant_options (λ a, setattr a value)).
  split; [| split].
  - intros a Ha. by rewrite attr_value_bulk, decide_True.
  - intros a Ha. by rewrite attr_value_bulk, decide_False.
  - intros Hvalue a Ha.
    by apply bulk_options_rendered; [apply grant_options_checked | |].
Qed.

Lemma set_all_grant_options_effect_witness :
  let self' := out_self (set_all_grant_options (lit "Y") (new sample_cfg)) in
  attr_value sample_cfg self' GRANTVW = "Y"
  ∧ attr_value sample_cfg self' GENVIEW = "N"
  ∧ PyStr.occurs ",GRANTVW='Y'"
      (parameter_list (out_self (__build_parameter_list sample_cfg self'))).
Proof.
  intros self'.
  destruct (set_all_grant_options_effect sample_cfg (new sample_cfg) (lit "Y"))
    as (Hset & Hother & Hrendered).
  split; [| split].
  - apply Hset. unfold grant_options. find_in_list.
  - rewrite Hother; [reflexivity |]. unfold grant_options.
    rewrite !elem_of_cons, elem_of_nil. intros H.
    repeat (destruct H as [H|H]; [discriminate H |]). done.
  - apply (Hrendered ltac:(done) GRANTVW). unfold grant_options. find_in_list.
Defined.

(** ** The output lists *)

Lemma add_sql_output_run cfg (a : attr) (key : string) self :
  add_sql_output cfg (a, Lit "", key) self
  = Outcome
      (set_sql_output_list
         (__sql_output_list self +:+ optional_field key (attr_value cfg self a)) self)
      [] (inr ()).
Proof.
  unfold add_sql_output, optional_field, mbind, M_bind, getobject, getattr, gets.
  rewrite eval_run. simpl. rewrite is_not_lit_empty.
  fold (attr_value cfg self a).
  destruct (bool_decide _); simpl; [done |].
  rewrite string_app_nil_r. by destruct self.
Qed.

Lemma add_rpt_output_run cfg (a : attr) (key : string) self :
  add_rpt_output cfg (a, Lit "", key) self
  = Outcome
      (set_rpt_output_list
         (__rpt_output_list self +:+ optional_field key (attr_value cfg self a)) self)
      [] (inr ()).
Proof.
  unfold add_rpt_output, optional_field, mbind, M_bind, getobject, getattr, gets.
  rewrite eval_run. simpl. rewrite is_not_lit_empty.
  fold (attr_value cfg self a).
  destruct (bool_decide _); simpl; [done |].
  rewrite string_app_nil_r. by destruct self.
Qed.

Lemma bind_run_quiet {A B} (m : M A) (f : A → M B) self s x :
  m self = Outcome s [] (inr x) → (m ≫= f) self = f x s.
Proof. intros H. erewrite bind_run by done. simpl. apply outcome_eta. Qed.

Lemma for_each_cons {A} (x : A) (l : list A) (body : A → M unit) :
  for_each (x :: l) body = (body x ;; for_each l body).
Proof. reflexivity. Qed.

Lemma for_each_sql_outputs cfg self :
  for_each
    [ (SQL_DSNAME, Lit "", "SQL_DSNAME"); (SQL_MEMBER, Lit "", "SQL_MEMBER");
      (SQL_UNIT, Lit "", "SQL_UNIT"); (SQL_VOLSER, Lit "", "SQL_VOLSER") ]
    (add_sql_output cfg) self
  = Outcome
      (set_sql_output_list
         (__sql_output_list self
            +:+ optional_field "SQL_DSNAME" (attr_value cfg self SQL_DSNAME)
            +:+ optional_field "SQL_MEMBER" (attr_value cfg self SQL_MEMBER)
            +:+ optional_field "SQL_UNIT" (attr_value cfg self SQL_UNIT)
            +:+ optional_field "SQL_VOLSER" (attr_value cfg self SQL_VOLSER))
         self)
      [] (inr ()).
Proof.
  repeat (rewrite for_each_cons;
          erewrite bind_run_quiet by apply add_sql_output_run).
  simpl. by rewrite !string_app_assoc.
Qed.

Lemma for_each_rpt_outputs cfg self :
  for_each
    [ (RPT_MEMBER, Lit "", "RPT_MEMBER"); (RPT_UNIT, Lit "", "RPT_UNIT");
      (RPT_VOLSER, Lit "", "RPT_VOLSER") ]
    (add_rpt_output cfg) self
  = Outcome
      (set_rpt_output_list
         (__rpt_output_list self
            +:+ optional_field "RPT_MEMBER" (attr_value cfg self RPT_MEMBER)
            +:+ optional_field "RPT_UNIT" (attr_value cfg self RPT_UNIT)
            +:+ optional_field "RPT_VOLSER" (attr_value cfg self RPT_VOLSER))
         self)
      [] (inr ()).
Proof.
  repeat (rewrite for_each_cons;
          erewrite bind_run_quiet by apply add_rpt_output_run).
  simpl. by rewrite !string_app_assoc.
Qed.

Lemma build_output_lists_run (cfg : utility.Config) (self : Adb2re) :
  __build_output_lists cfg self
  = Outcome
      (set_rpt_output_list (rendered_rpt_output_list cfg self)
         (set_sql_output_list (rendered_sql_output_list cfg self) self))
      [] (inr ()).
Proof.
  unfold __build_output_lists, rendered_sql_output_list, rendered_rpt_output_list.
  unfold getattr.
  repeat first
    [ erewrite bind_run_quiet by apply for_each_sql_outputs
    | erewrite bind_run_quiet by apply for_each_rpt_outputs
    | erewrite bind_run_quiet by reflexivity ];
    cbv beta.
  unfold modify. simpl. by rewrite !string_app_assoc.
Qed.

(** X7.  [__build_output_lists] never raises, reaches nothing outside and
    rewrites the two output lists only, from scratch.  The DDL list is
    [SQL_OUTFLAG='..'], then the assignment of each of [SQL_DSNAME],
    [SQL_MEMBER], [SQL_UNIT], [SQL_VOLSER] that is not empty, then [;]; with
    all four empty it is [SQL_OUTFLAG='..';] alone.  The report list is
    [RPT_OUTFLAG='..'], then [RPT_DSNAME='..'] whether or not it is empty,
    then the assignment of each of [RPT_MEMBER], [RPT_UNIT], [RPT_VOLSER]
    that is not empty, then [;]. *)
Theorem output_lists_shape (cfg : utility.Config) (self : Adb2re) :
  let run := __build_output_lists cfg self in
  out_result run = inr ()
  ∧ out_events run = []
  ∧ out_self run
    = set_rpt_output_list (__rpt_output_list (out_self run))
        (set_sql_output_list (__sql_output_list (out_self run)) self)
  ∧ __sql_output_list (out_self run)
    = "SQL_OUTFLAG='" +:+ attr_value cfg self SQL_OUTFLAG +:+ "'"
        +:+ optional_field "SQL_DSNAME" (attr_value cfg self SQL_DSNAME)
        +:+ optional_field "SQL_MEMBER" (attr_value cfg self SQL_MEMBER)
        +:+ optional_field "SQL_UNIT" (attr_value cfg self SQL_UNIT)
        +:+ optional_field "SQL_VOLSER" (attr_value cfg self SQL_VOLSER)
        +:+ ";"
  ∧ __rpt_output_list (out_self run)
    = "RPT_OUTFLAG='" +:+ attr_value cfg self RPT_OUTFLAG +:+ "'"
        +:+ ",RPT_DSNAME='" +:+ attr_value cfg self RPT_DSNAME +:+ "'"
        +:+ optional_field "RPT_MEMBER" (attr_value cfg self RPT_MEMBER)
        +:+ optional_field "RPT_UNIT" (attr_value cfg self RPT_UNIT)
        +:+ optional_field "RPT_VOLSER" (attr_value cfg self RPT_VOLSER)
        +:+ ";"
  ∧ (attr_value cfg self SQL_DSNAME = "" → attr_value cfg self SQL_MEMBER = "" →
     attr_value cfg self SQL_UNIT = "" → attr_value cfg self SQL_VOLSER = "" →
     __sql_output_list (out_self run)
     = "SQL_OUTFLAG='" +:+ attr_value cfg self SQL_OUTFLAG +:+ "';")
  ∧ (__build_output_lists cfg ;; __build_output_lists cfg) self = run.
Proof.
  intros run. subst run. rewrite build_output_lists_run.
  cbn [out_result out_events out_self __sql_output_list __rpt_output_list
       set_rpt_output_list set_sql_output_list].
  do 5 (split; [reflexivity |]). split.
  - intros H1 H2 H3 H4. unfold rendered_sql_output_list.
    rewrite H1, H2, H3, H4. unfold optional_field, is_not.
    rewrite bool_decide_eq_false_2 by (by intros []).
    by rewrite !string_app_nil_l.
  - erewrite bind_run_quiet by apply build_output_lists_run.
    by rewrite build_output_lists_run.
Qed.

Lemma output_lists_shape_witness :
  __sql_output_list (out_self (__build_output_lists sample_cfg (new sample_cfg)))
  = "SQL_OUTFLAG='RS';".
Proof.
  destruct (output_lists_shape sample_cfg (new sample_cfg))
    as (_ & _ & _ & _ & _ & Hempty & _).
  by apply Hempty.
Defined.

(** ** The request list, for every kind of object *)

Lemma perform_add cfg (c : call) (entry : string) self :
  add_entry c = Some entry →
  perform cfg c self
  = Outcome (set_request_list (request_list self +:+ entry +:+ ";") self) [] (inr ()).
Proof.
  destruct c; intros [= <-]; simpl perform;
    unfold add_stogroup, add_database, add_tablespace, add_table, add_view,
      add_alias, add_index, add_user_defined_type, add_user_defined_function,
      add_stored_procedure, add_sequence, add_sequence_alias, add_schema,
      add_trigger, add_synonym, __add_object, modify;
    by rewrite ?string_app_assoc.
Qed.

Lemma add_entry_no_semicolon (c : call) (entry : string) :
  add_entry c = Some entry →
  Forall (λ x, ¬ PyStr.occurs ";" x) (add_arguments c) →
  ¬ PyStr.occurs ";" entry ∧ entry ≠ "".
Proof.
  intros Hentry Hargs. split.
  - destruct c; try discriminate Hentry; injection Hentry as <-; simpl in Hargs;
      repeat (apply Forall_cons in Hargs as [? Hargs]);
      rewrite !occurs_char_app;
      intros Hocc; repeat (destruct Hocc as [Hocc|Hocc]); try done;
      revert Hocc; apply find_neg; vm_compute; reflexivity.
  - destruct c; try discriminate Hentry; injection Hentry as <-;
      intros H; apply (f_equal String.length) in H;
      rewrite string_app_length in H; simpl in H; lia.
Qed.

Lemma run_calls_adds cfg (cs : list call) (entries : list string) self :
  Forall2 (λ c entry, add_entry c = Some entry) cs entries →
  request_list (run_calls cfg cs self)
  = request_list self +:+ cat ((λ e, e +:+ ";") <$> entries).
Proof.
  intros Hcs. revert self.
  induction Hcs as [|c entry cs entries Hc _ IH]; intros self.
  - unfold cat. simpl. by rewrite string_app_nil_r.
  - unfold run_calls in *. simpl foldl. rewrite IH.
    rewrite (perform_add cfg c entry) by done. simpl.
    unfold cat. simpl. by rewrite !string_app_assoc.
Qed.

(** X8.  Whatever the kinds of object, [N] "add" calls on an instance with
    an empty request list, with qualifiers and names free of semicolons,
    leave the concatenation in call order of their [N] entries, each closed
    by [;]: splitting the request list on [;] gives these [N] entries, none
    empty, followed by one empty piece. *)
Theorem add_calls_request_list_entries
    (cfg : utility.Config) (cs : list call) (entries : list string)
    (self : Adb2re) :
  request_list self = "" →
  Forall2 (λ c entry, add_entry c = Some entry) cs entries →
  Forall (λ c, Forall (λ x, ¬ PyStr.occurs ";" x) (add_arguments c)) cs →
  request_list (run_calls cfg cs self) = cat ((λ e, e +:+ ";") <$> entries)
  ∧ PyStr.split (request_list (run_calls cfg cs self)) ";" = Some (entries ++ [""])
  ∧ Forall (λ e, e ≠ "") entries
  ∧ length entries = length cs.
Proof.
  intros Hempty Hcs Hargs.
  assert (Hentries : Forall (λ e, ¬ PyStr.occurs ";" e ∧ e ≠ "") entries).
  { clear Hempty. induction Hcs as [|c entry cs entries Hc _ IH]; [done |].
    apply Forall_cons in Hargs as [Harg Hargs].
    apply Forall_cons_2; [by apply (add_entry_no_semicolon c) | by apply IH]. }
  rewrite (run_calls_adds cfg cs entries) by done.
  rewrite Hempty, string_app_nil_l. split; [done |]. split; [| split].
  - simpl. f_equal. apply (split_entries ";"%char).
    eapply Forall_impl; [done |]. by intros e [? _].
  - eapply Forall_impl; [done |]. by intros e [_ ?].
  - symmetry. by eapply Forall2_length.
Qed.

Lemma add_calls_request_list_entries_witness :
  let cs := [Cadd_database "DB1"; Cadd_tablespace "DB1" "TS1";
             Cadd_sequence_alias "SCH1" "SEQ1"; Cadd_schema "SCH1"] in
  let entries := ["TYPE='DB',NAME='DB1'"; "TYPE='TS',QUAL='DB1',NAME='TS1'";
                  "SCH='SCH1',SEQ='SEQ1'"; "SCH='SCH1'"] in
  request_list (run_calls sample_cfg cs (new sample_cfg))
  = cat ((λ e, e +:+ ";") <$> entries)
  ∧ PyStr.split (request_list (run_calls sample_cfg cs (new sample_cfg))) ";"
    = Some (entries ++ [""])
  ∧ Forall (λ e, e ≠ "") entries
  ∧ length entries = length cs.
Proof.
  intros cs entries.
  apply (add_calls_request_list_entries sample_cfg cs entries (new sample_cfg)).
  - reflexivity.
  - repeat (apply Forall2_cons_2; [reflexivity |]). apply Forall2_nil_2.
  - repeat (apply Forall_cons_2;
            [repeat (apply Forall_cons_2; [absent_by_find |]); apply Forall_nil_2 |]).
    apply Forall_nil_2.
Defined.

(** ** Execution, case by case *)

Lemma bind_run_emit {B} (ev : event) (f : unit → M B) self :
  (emit ev ≫= f) self
  = Outcome (out_self (f () self)) (ev :: out_events (f () self))
      (out_result (f () self)).
Proof. unfold mbind, M_bind, emit. by destruct (f () self). Qed.

Lemma prepared_PORT cfg ssid port self : PORT (prepared cfg ssid port self) = port.
Proof. reflexivity. Qed.

Lemma prepared_attr_object cfg ssid port self (a : attr) :
  attr_object cfg (prepared cfg ssid port self) a
  = if decide (a = DB2SERV) then sum "DB2SERV" (utility.LPAR cfg) ssid
    else if decide (a = DB2ALOC) then lit ""
    else if decide (a = DB2SYS) then ssid
    else attr_object cfg self a.
Proof.
  unfold prepared, attr_object. simpl attrs.
  rewrite !lookup_insert. repeat case_decide; by subst.
Qed.

Lemma prepared_DB2SERV cfg (ssid : pystr) port self :
  attr_value cfg (prepared cfg ssid port self) DB2SERV = utility.LPAR cfg +:+ ssid.
Proof.
  unfold attr_value. rewrite prepared_attr_object, decide_True by done.
  apply chars_sum.
Qed.

Lemma prepared_DB2ALOC cfg ssid port self :
  attr_value cfg (prepared cfg ssid port self) DB2ALOC = "".
Proof.
  unfold attr_value. rewrite prepared_attr_object.
  rewrite decide_False by done. by rewrite decide_True.
Qed.

Lemma prepared_DB2SYS cfg (ssid : pystr) port self :
  attr_value cfg (prepared cfg ssid port self) DB2SYS = ssid.
Proof.
  unfold attr_value. rewrite prepared_attr_object.
  do 2 rewrite decide_False by done. by rewrite decide_True.
Qed.

Lemma prepared_other_object cfg ssid port self (a : attr) :
  a ≠ DB2SERV → a ≠ DB2ALOC → a ≠ DB2SYS →
  attr_object cfg (prepared cfg ssid port self) a = attr_object cfg self a.
Proof. intros. rewrite prepared_attr_object. by rewrite !decide_False. Qed.

Lemma prepared_other cfg ssid port self (a : attr) :
  a ≠ DB2SERV → a ≠ DB2ALOC → a ≠ DB2SYS →
  attr_value cfg (prepared cfg ssid port self) a = attr_value cfg self a.
Proof. intros. unfold attr_value. by rewrite prepared_other_object. Qed.

Lemma prepared_results cfg ssid port self :
  results (prepared cfg ssid port self) = results self.
Proof. reflexivity. Qed.

Lemma prepared_parameter_list cfg ssid port self :
  parameter_list (prepared cfg ssid port self)
  = rendered_parameter_list cfg (prepared cfg ssid port self).
Proof. reflexivity. Qed.

(** The parameter list of a prepared instance opens with the subsystem
    identifier and always carries the assignment of [DB2SERV]: the guard of
    that option compares it with a sum built on the spot. *)
Lemma prepared_writes_DB2SERV cfg (ssid : pystr) port self :
  chars (utility.LPAR cfg) ≠ "" → chars (utility.DB2_SUBSYSTEM_ID cfg) ≠ "" →
  PyStr.occurs (",DB2SERV='" +:+ (utility.LPAR cfg +:+ ssid) +:+ "'")
    (parameter_list (prepared cfg ssid port self)).
Proof.
  intros HL HS. rewrite prepared_parameter_list. unfold rendered_parameter_list.
  do 5 apply occurs_app_r. apply occurs_app_l.
  rewrite <- (prepared_DB2SERV cfg ssid port self).
  apply (fragments_occurs cfg (prepared cfg ssid port self)
           (DB2SERV, Sum (utility.LPAR cfg) (utility.DB2_SUBSYSTEM_ID cfg),
            "DB2SERV")); [| by apply changed_DB2SERV].
  unfold parameter_checks. apply list_elem_of_further, list_elem_of_here.
Qed.

Lemma request_list_nonempty self :
  request_list self ≠ "" → bool_decide (String.length (request_list self) < 1) = false.
Proof.
  intros Hne. apply bool_decide_eq_false_2.
  destruct (request_list self); [done | simpl; lia].
Qed.

(** The start of [execute], up to the connection. *)
Ltac execute_prelude cfg ssid port self Hrequest Hport :=
  unfold execute;
  erewrite bind_run_quiet by reflexivity; cbv beta;
  rewrite (request_list_nonempty _ Hrequest); cbv iota;
  rewrite Hport; simpl answer;
  do 5 (erewrite bind_run_quiet by reflexivity; cbv beta);
  erewrite bind_run_quiet by apply build_parameter_list_run; cbv beta;
  erewrite bind_run_quiet by apply build_output_lists_run; cbv beta;
  match goal with
  | |- context [mbind _ (gets PORT) ?s] =>
      change s with (prepared cfg ssid port self)
  end;
  do 2 (erewrite bind_run_quiet by reflexivity; cbv beta);
  rewrite prepared_PORT, prepared_DB2SERV;
  fold (execute_url cfg ssid port);
  rewrite bind_run_emit.

(** X9.  When the subsystem identifier is not a key of the configuration
    table, [execute] raises the [KeyError] of the lookup before it changes
    anything: the instance is left as it was and nothing outside is
    touched. *)
Theorem execute_unknown_ssid
    (cfg : utility.Config) (w : World) (ssid : pystr) (self : Adb2re) :
  request_list self ≠ "" →
  utility.LPAR_SSID cfg (utility.LPAR cfg) ssid = None →
  execute cfg w ssid self = Outcome self [] (inl (Exception KeyError "")).
Proof.
  intros Hrequest Hport. unfold execute.
  erewrite bind_run_quiet by reflexivity. cbv beta.
  rewrite (request_list_nonempty _ Hrequest). cbv iota.
  by rewrite Hport.
Qed.

Lemma execute_unknown_ssid_witness :
  execute sample_cfg (sample_world [] banner) (lit "NOPE") sample_ready
  = Outcome sample_ready [] (inl (Exception KeyError "")).
Proof.
  apply (execute_unknown_ssid sample_cfg (sample_world [] banner) (lit "NOPE")
           sample_ready).
  - by vm_compute.
  - reflexivity.
Defined.

(** X10.  When the connection is refused, [execute] raises with only the
    connection attempt made outside.  The instance keeps what [execute] had
    already prepared: the port, [DB2SYS] set to the subsystem identifier,
    [DB2ALOC] emptied, [DB2SERV] set to the LPAR followed by the
    identifier, and the three lists rebuilt, the parameter list with the
    assignment of [DB2SERV] in it; the stored results and the request list
    are untouched. *)
Theorem execute_connection_refused
    (cfg : utility.Config) (w : World) (ssid : pystr) (port : string)
    (self : Adb2re) :
  request_list self ≠ "" →
  utility.LPAR_SSID cfg (utility.LPAR cfg) ssid = Some port →
  connect w (execute_url cfg ssid port) = false →
  let self' := prepared cfg ssid port self in
  execute cfg w ssid self
  = Outcome self' [EConnect (execute_url cfg ssid port)]
      (inl (Exception ExternalError ""))
  ∧ PORT self' = port
  ∧ attr_value cfg self' DB2SYS = ssid
  ∧ attr_value cfg self' DB2ALOC = ""
  ∧ attr_value cfg self' DB2SERV = utility.LPAR cfg +:+ ssid
  ∧ (chars (utility.LPAR cfg) ≠ "" → chars (utility.DB2_SUBSYSTEM_ID cfg) ≠ "" →
     PyStr.occurs (",DB2SERV='" +:+ (utility.LPAR cfg +:+ ssid) +:+ "'")
       (parameter_list self'))
  ∧ results self' = results self
  ∧ request_list self' = request_list self.
Proof.
  intros Hrequest Hport Hconnect self'. subst self'.
  split.
  { execute_prelude cfg ssid port self Hrequest Hport.
    rewrite Hconnect. by erewrite bind_run_raise by reflexivity. }
  rewrite prepared_DB2SYS, prepared_DB2ALOC, prepared_DB2SERV.
  do 4 (split; [done |]). split; [| done].
  apply prepared_writes_DB2SERV.
Qed.

Lemma execute_connection_refused_witness :
  let w := {| connect := λ _, false;
              cursor := true;
              call_ADB2RE := λ _, Some [];
              read_ds := λ _, Some banner;
              fetchall := true;
              close := true |} in
  let self' := prepared sample_cfg (lit "DC1A") "3720" sample_ready in
  execute sample_cfg w (lit "DC1A") sample_ready
  = Outcome self' [EConnect (execute_url sample_cfg "DC1A" "3720")]
      (inl (Exception ExternalError ""))
  ∧ PORT self' = "3720"
  ∧ attr_value sample_cfg self' DB2SYS = "DC1A"
  ∧ attr_value sample_cfg self' DB2ALOC = ""
  ∧ attr_value sample_cfg self' DB2SERV = "RS22DC1A"
  ∧ PyStr.occurs ",DB2SERV='RS22DC1A'" (parameter_list self')
  ∧ results self' = results sample_ready
  ∧ request_list self' = request_list sample_ready.
Proof.
  intros w self'.
  destruct (execute_connection_refused sample_cfg w (lit "DC1A") "3720" sample_ready)
    as (Hrun & Hport & Hsys & Haloc & Hserv & Hlist & Hres & Hreq).
  - by vm_compute.
  - reflexivity.
  - reflexivity.
  - repeat split; try done. by apply Hlist.
Defined.

(** The validation of the report in [execute]. *)
Lemma validation_run cfg self :
  attr_value cfg self RPT_DSNAME ≠ "" →
  (assert_text_in_report cfg ["ADB2GEN - Create DDL from catalog info"] true ;;
   assert_text_not_in_report cfg ["SQLCODE=-805"; "SQLCODE = -805"]) self
  = Outcome self []
      (match validation_error (__saved_report self) with
       | Some msg => inl (Exception ReportAssertionError msg)
       | None => inr ()
       end).
Proof.
  intros Hds.
  assert (Hrun : ∀ text positive_test,
    assert_text_in_report cfg text positive_test self
    = report_loop positive_test text self).
  { intros. rewrite assert_text_in_report_run.
    by rewrite bool_decide_eq_false_2. }
  unfold validation_error, banner, assert_text_not_in_report.
  destruct (truthy (PyStr.count (__saved_report self)
              "ADB2GEN - Create DDL from catalog info")) eqn:H1; cbn [negb].
  - erewrite bind_run_quiet
      by (rewrite Hrun, report_loop_step, H1; reflexivity).
    rewrite Hrun, !report_loop_step.
    destruct (truthy (PyStr.count (__saved_report self) "SQLCODE=-805")); [done |].
    by destruct (truthy (PyStr.count (__saved_report self) "SQLCODE = -805")).
  - erewrite bind_run_raise
      by (rewrite Hrun, report_loop_step, H1; reflexivity).
    done.
Qed.

Lemma report_block_run cfg w self (report : string) :
  attr_value cfg self RPT_DSNAME ≠ "" →
  read_ds w (attr_value cfg self RPT_DSNAME) = Some report →
  (dsname ← getattr cfg RPT_DSNAME;
   emit (EReadDs dsname);;
   report ← answer ExternalError (read_ds w dsname);
   modify (set_saved_report report);;
   assert_text_in_report cfg ["ADB2GEN - Create DDL from catalog info"] true;;
   assert_text_not_in_report cfg ["SQLCODE=-805"; "SQLCODE = -805"]) self
  = Outcome (set_saved_report report self)
      [EReadDs (attr_value cfg self RPT_DSNAME)]
      (match validation_error report with
       | Some msg => inl (Exception ReportAssertionError msg)
       | None => inr ()
       end).
Proof.
  intros Hds Hread.
  erewrite bind_run_quiet by reflexivity. cbv beta.
  rewrite bind_run_emit, Hread. simpl answer.
  erewrite bind_run_quiet by reflexivity. cbv beta.
  erewrite bind_run_quiet by reflexivity. cbv beta.
  by rewrite validation_run.
Qed.

Lemma report_block_unreadable cfg w self :
  read_ds w (attr_value cfg self RPT_DSNAME) = None →
  (dsname ← getattr cfg RPT_DSNAME;
   emit (EReadDs dsname);;
   report ← answer ExternalError (read_ds w dsname);
   modify (set_saved_report report);;
   assert_text_in_report cfg ["ADB2GEN - Create DDL from catalog info"] true;;
   assert_text_not_in_report cfg ["SQLCODE=-805"; "SQLCODE = -805"]) self
  = Outcome self [EReadDs (attr_value cfg self RPT_DSNAME)]
      (inl (Exception ExternalError "")).
Proof.
  intros Hread.
  erewrite bind_run_quiet by reflexivity. cbv beta.
  rewrite bind_run_emit, Hread. simpl answer.
  by erewrite bind_run_raise by reflexivity.
Qed.

(** The two loops that store the fetched lines. *)
Lemma fetch_loop_run (rows : list (list column)) (cols : list column) self :
  Forall2 (λ row col, row !! 1 = Some col) rows cols →
  for_each rows (λ row,
    col ← answer IndexError (row !! 1);
    modify (λ self, set_ddl_as_array (__ddl_as_array self ++ [col]) self)) self
  = Outcome (set_ddl_as_array (__ddl_as_array self ++ cols) self) [] (inr ()).
Proof.
  intros Hrows. revert self.
  induction Hrows as [|row col rows cols Hrow _ IH]; intros self.
  - simpl. rewrite app_nil_r. by destruct self.
  - rewrite for_each_cons.
    erewrite bind_run_quiet
      by (rewrite Hrow; simpl answer; by erewrite bind_run_quiet by reflexivity).
    rewrite IH. simpl. by rewrite <- app_assoc.
Qed.

Lemma fetch_loop_fail (pre : list (list column)) (bad : list column)
    (post : list (list column)) (cols : list column) self :
  Forall2 (λ row col, row !! 1 = Some col) pre cols →
  bad !! 1 = None →
  for_each (pre ++ bad :: post) (λ row,
    col ← answer IndexError (row !! 1);
    modify (λ self, set_ddl_as_array (__ddl_as_array self ++ [col]) self)) self
  = Outcome (set_ddl_as_array (__ddl_as_array self ++ cols) self) []
      (inl (Exception IndexError "")).
Proof.
  intros Hpre Hbad. revert self.
  induction Hpre as [|row col pre cols Hrow _ IH]; intros self.
  - rewrite app_nil_l, for_each_cons.
    erewrite bind_run_raise
      by (rewrite Hbad; simpl answer; by erewrite bind_run_raise by reflexivity).
    rewrite app_nil_r. by destruct self.
  - rewrite <- app_comm_cons, for_each_cons.
    erewrite bind_run_quiet
      by (rewrite Hrow; simpl answer; by erewrite bind_run_quiet by reflexivity).
    rewrite IH. simpl. by rewrite <- app_assoc.
Qed.

Lemma string_loop_run (lines : list string) self :
  for_each (Str <$> lines) (λ row,
    match row with
    | Str row =>
        modify (λ self, set_ddl_as_string (__ddl_as_string self +:+ row +:+ LF) self)
    | NotStr => raise (Exception TypeError "")
    end) self
  = Outcome (set_ddl_as_string (__ddl_as_string self +:+ lines_text lines) self)
      [] (inr ()).
Proof.
  revert self. induction lines as [|line lines IH]; intros self.
  - simpl. unfold lines_text, cat. simpl. rewrite string_app_nil_r. by destruct self.
  - rewrite fmap_cons, for_each_cons. erewrite bind_run_quiet by reflexivity.
    rewrite IH. simpl. unfold lines_text, cat. simpl. by rewrite !string_app_assoc.
Qed.

Lemma string_loop_fail (lines : list string) (rest : list column) self :
  for_each ((Str <$> lines) ++ NotStr :: rest) (λ row,
    match row with
    | Str row =>
        modify (λ self, set_ddl_as_string (__ddl_as_string self +:+ row +:+ LF) self)
    | NotStr => raise (Exception TypeError "")
    end) self
  = Outcome (set_ddl_as_string (__ddl_as_string self +:+ lines_text lines) self)
      [] (inl (Exception TypeError "")).
Proof.
  revert self. induction lines as [|line lines IH]; intros self.
  - rewrite fmap_nil, app_nil_l, for_each_cons.
    erewrite bind_run_raise by reflexivity.
    unfold lines_text, cat. simpl. rewrite string_app_nil_r. by destruct self.
  - rewrite fmap_cons, <- app_comm_cons, for_each_cons.
    erewrite bind_run_quiet by reflexivity.
    rewrite IH. simpl. unfold lines_text, cat. simpl. by rewrite !string_app_assoc.
Qed.

(** The end of [execute], from the reset of the stored DDL to the closing
    of the cursor. *)
Local Notation store_and_close w rows :=
  (modify (set_ddl_as_array []) ;;
   modify (set_ddl_as_string "") ;;
   emit (EFetchAll rows) ;;
   (if fetchall w then mret () else raise (Exception ExternalError "")) ;;
   for_each rows (λ row,
     col ← answer IndexError (row !! 1);
     modify (λ self, set_ddl_as_array (__ddl_as_array self ++ [col]) self)) ;;
   array ← gets __ddl_as_array;
   for_each array (λ row,
     match row with
     | Str row =>
         modify (λ self, set_ddl_as_string (__ddl_as_string self +:+ row +:+ LF) self)
     | NotStr => raise (Exception TypeError "")
     end) ;;
   modify (set_executed_at_least_once true) ;;
   emit ECursorClose ;;
   (if close w then mret () else raise (Exception ExternalError ""))).

Lemma store_fetchall_fails w (rows : list (list column)) self :
  fetchall w = false →
  store_and_close w rows self
  = Outcome (set_ddl_as_string "" (set_ddl_as_array [] self))
      [EFetchAll rows] (inl (Exception ExternalError "")).
Proof.
  intros Hfetch.
  do 2 (erewrite bind_run_quiet by reflexivity; cbv beta).
  rewrite bind_run_emit, Hfetch.
  by erewrite bind_run_raise by reflexivity.
Qed.

Lemma store_short_row w (pre : list (list column)) (bad : list column)
    (post : list (list column)) (cols : list column) self :
  fetchall w = true →
  Forall2 (λ row col, row !! 1 = Some col) pre cols →
  bad !! 1 = None →
  store_and_close w (pre ++ bad :: post) self
  = Outcome (set_ddl_as_string "" (set_ddl_as_array cols self))
      [EFetchAll (pre ++ bad :: post)] (inl (Exception IndexError "")).
Proof.
  intros Hfetch Hpre Hbad.
  do 2 (erewrite bind_run_quiet by reflexivity; cbv beta).
  rewrite bind_run_emit, Hfetch.
  erewrite bind_run_quiet by reflexivity; cbv beta.
  erewrite bind_run_raise by (by apply fetch_loop_fail).
  reflexivity.
Qed.

Lemma store_not_string w (rows : list (list column)) (lines : list string)
    (rest : list column) self :
  fetchall w = true →
  Forall2 (λ row col, row !! 1 = Some col) rows ((Str <$> lines) ++ NotStr :: rest) →
  store_and_close w rows self
  = Outcome
      (set_ddl_as_string (lines_text lines)
         (set_ddl_as_array ((Str <$> lines) ++ NotStr :: rest) self))
      [EFetchAll rows] (inl (Exception TypeError "")).
Proof.
  intros Hfetch Hrows.
  do 2 (erewrite bind_run_quiet by reflexivity; cbv beta).
  rewrite bind_run_emit, Hfetch.
  erewrite bind_run_quiet by reflexivity; cbv beta.
  erewrite bind_run_quiet by (apply fetch_loop_run, Hrows); cbv beta.
  erewrite bind_run_quiet by reflexivity; cbv beta.
  erewrite bind_run_raise by apply string_loop_fail.
  reflexivity.
Qed.

Lemma Forall2_Str (rows : list (list column)) (lines : list string) :
  Forall2 (λ row line, row !! 1 = Some (Str line)) rows lines →
  Forall2 (λ row col, row !! 1 = Some col) rows (Str <$> lines).
Proof.
  induction 1 as [|row line rows lines Hrow _ IH]; [constructor |].
  rewrite fmap_cons. by constructor.
Qed.

Lemma store_close_fails w (rows : list (list column)) (lines : list string) self :
  fetchall w = true →
  Forall2 (λ row line, row !! 1 = Some (Str line)) rows lines →
  close w = false →
  store_and_close w rows self
  = Outcome
      (set_executed_at_least_once true
         (set_ddl_as_string (lines_text lines)
            (set_ddl_as_array (Str <$> lines) self)))
      [EFetchAll rows; ECursorClose] (inl (Exception ExternalError "")).
Proof.
  intros Hfetch Hrows Hclose.
  do 2 (erewrite bind_run_quiet by reflexivity; cbv beta).
  rewrite bind_run_emit, Hfetch.
  erewrite bind_run_quiet by reflexivity; cbv beta.
  erewrite bind_run_quiet by (apply fetch_loop_run, Forall2_Str, Hrows); cbv beta.
  erewrite bind_run_quiet by reflexivity; cbv beta.
  erewrite bind_run_quiet by apply string_loop_run; cbv beta.
  erewrite bind_run_quiet by reflexivity; cbv beta.
  rewrite bind_run_emit, Hclose.
  reflexivity.
Qed.

Lemma store_returns w (rows : list (list column)) (lines : list string) self :
  fetchall w = true →
  Forall2 (λ row line, row !! 1 = Some (Str line)) rows lines →
  close w = true →
  store_and_close w rows self
  = Outcome
      (set_executed_at_least_once true
         (set_ddl_as_string (lines_text lines)
            (set_ddl_as_array (Str <$> lines) self)))
      [EFetchAll rows; ECursorClose] (inr ()).
Proof.
  intros Hfetch Hrows Hclose.
  do 2 (erewrite bind_run_quiet by reflexivity; cbv beta).
  rewrite bind_run_emit, Hfetch.
  erewrite bind_run_quiet by reflexivity; cbv beta.
  erewrite bind_run_quiet by (apply fetch_loop_run, Forall2_Str, Hrows); cbv beta.
  erewrite bind_run_quiet by reflexivity; cbv beta.
  erewrite bind_run_quiet by apply string_loop_run; cbv beta.
  erewrite bind_run_quiet by reflexivity; cbv beta.
  rewrite bind_run_emit, Hclose.
  reflexivity.
Qed.

(** From the connection to the test of the report destination. *)
Ltac execute_call cfg ssid port self Hconnect Hcursor Hcall :=
  rewrite Hconnect;
  erewrite bind_run_quiet by reflexivity; cbv beta;
  rewrite bind_run_emit, Hcursor;
  do 2 (erewrite bind_run_quiet by reflexivity; cbv beta);
  fold (call_arguments (prepared cfg ssid port self));
  fold (call_statement cfg);
  rewrite bind_run_emit, Hcall; simpl answer;
  do 2 (erewrite bind_run_quiet by reflexivity; cbv beta);
  rewrite is_not_lit_empty;
  fold (attr_value cfg (prepared cfg ssid port self) RPT_DSNAME);
  rewrite (prepared_other cfg ssid port self RPT_DSNAME) by done.

(** The test of the report destination, with none and with one. *)
Ltac execute_no_report Hds :=
  rewrite bool_decide_eq_false_2 by (by intros []);
  erewrite bind_run_quiet by reflexivity; cbv beta.

Ltac execute_report cfg w ssid port self report Hds Hread Hvalid :=
  rewrite bool_decide_eq_true_2 by done;
  erewrite bind_run;
  [| rewrite (report_block_run cfg w _ report);
     [ rewrite Hvalid; reflexivity
     | by rewrite (prepared_other cfg ssid port self RPT_DSNAME)
     | by rewrite (prepared_other cfg ssid port self RPT_DSNAME) ] ];
  rewrite (prepared_other cfg ssid port self RPT_DSNAME) by done.

Lemma validation_error_none (report : string) :
  PyStr.occurs banner report →
  ¬ PyStr.occurs "SQLCODE=-805" report →
  ¬ PyStr.occurs "SQLCODE = -805" report →
  validation_error report = None.
Proof.
  intros H1%truthy_count H2%truthy_count_false H3%truthy_count_false.
  unfold validation_error. by rewrite H1, H2, H3.
Qed.

(** X11.  A run of [execute] in which everything outside answers: the
    connection is accepted, the cursor is opened, the call returns rows that
    all have a string as second column, a report destination is set, the
    report read from it holds the banner and neither spelling of
    [SQLCODE -805], and the fetch and the closing of the cursor do not
    raise.  The outside sees, in this order, the connection, the opening of
    the cursor, the call with the six arguments, the first of them with the
    assignment of [DB2SERV] in it, the read of the report, the fetch and the
    closing of the cursor; the instance ends as prepared, with the report,
    the lines, their text and the has-executed flag stored. *)
Theorem execute_success_with_report
    (cfg : utility.Config) (w : World) (ssid : pystr) (port report : string)
    (rows : list (list column)) (lines : list string) (self : Adb2re) :
  request_list self ≠ "" →
  utility.LPAR_SSID cfg (utility.LPAR cfg) ssid = Some port →
  connect w (execute_url cfg ssid port) = true →
  cursor w = true →
  call_ADB2RE w (call_arguments (prepared cfg ssid port self)) = Some rows →
  attr_value cfg self RPT_DSNAME ≠ "" →
  read_ds w (attr_value cfg self RPT_DSNAME) = Some report →
  PyStr.occurs banner report →
  ¬ PyStr.occurs "SQLCODE=-805" report →
  ¬ PyStr.occurs "SQLCODE = -805" report →
  fetchall w = true →
  Forall2 (λ row line, row !! 1 = Some (Str line)) rows lines →
  close w = true →
  execute cfg w ssid self
  = Outcome
      (set_executed_at_least_once true
         (set_ddl_as_string (lines_text lines)
            (set_ddl_as_array (Str <$> lines)
               (set_saved_report report (prepared cfg ssid port self)))))
      [EConnect (execute_url cfg ssid port);
       ECursor;
       ECall (call_statement cfg) (call_arguments (prepared cfg ssid port self));
       EReadDs (attr_value cfg self RPT_DSNAME);
       EFetchAll rows;
       ECursorClose]
      (inr ())
  ∧ (chars (utility.LPAR cfg) ≠ "" → chars (utility.DB2_SUBSYSTEM_ID cfg) ≠ "" →
     PyStr.occurs (",DB2SERV='" +:+ (utility.LPAR cfg +:+ ssid) +:+ "'")
       (parameter_list (prepared cfg ssid port self))).
Proof.
  intros Hrequest Hport Hconnect Hcursor Hcall Hds Hread Hbanner H805 H805'
    Hfetch Hrows Hclose.
  split; [| apply prepared_writes_DB2SERV].
  pose proof (validation_error_none _ Hbanner H805 H805') as Hvalid.
  execute_prelude cfg ssid port self Hrequest Hport.
  execute_call cfg ssid port self Hconnect Hcursor Hcall.
  execute_report cfg w ssid port self report Hds Hread Hvalid.
  rewrite (store_returns w rows lines _ Hfetch Hrows Hclose).
  reflexivity.
Qed.

Lemma execute_success_with_report_witness :
  let rows := [[Str "1"; Str "CREATE TABLE A"]; [Str "2"; Str "COL1;"]] in
  let lines := ["CREATE TABLE A"; "COL1;"] in
  let w := sample_world [["1"; "CREATE TABLE A"]; ["2"; "COL1;"]] banner in
  let self' := prepared sample_cfg (lit "DC1A") "3720" sample_ready in
  execute sample_cfg w (lit "DC1A") sample_ready
  = Outcome
      (set_executed_at_least_once true
         (set_ddl_as_string (lines_text lines)
            (set_ddl_as_array (Str <$> lines) (set_saved_report banner self'))))
      [EConnect (execute_url sample_cfg "DC1A" "3720");
       ECursor;
       ECall (call_statement sample_cfg) (call_arguments self');
       EReadDs (attr_value sample_cfg sample_ready RPT_DSNAME);
       EFetchAll rows;
       ECursorClose]
      (inr ())
  ∧ PyStr.occurs ",DB2SERV='RS22DC1A'" (parameter_list self').
Proof.
  intros rows lines w self'.
  destruct (execute_success_with_report sample_cfg w (lit "DC1A") "3720" banner
              rows lines sample_ready) as [Hrun Hlist].
  - by vm_compute.
  - reflexivity.
  - reflexivity.
  - reflexivity.
  - reflexivity.
  - by vm_compute.
  - reflexivity.
  - occurs_by_count.
  - absent_by_find.
  - absent_by_find.
  - reflexivity.
  - apply Forall2_cons_2; [reflexivity |].
    apply Forall2_cons_2; [reflexivity |]. apply Forall2_nil_2.
  - reflexivity.
  - split; [exact Hrun | by apply Hlist].
Defined.

(** X12.  With the report destination emptied, [execute] reads no report
    and validates nothing: when nothing outside raises and every row has a
    string as second column, the outside sees the connection, the opening
    of the cursor, the call, the fetch and the closing of the cursor, and
    the report the instance held before the call, if any, stays in place. *)
Theorem execute_success_without_report
    (cfg : utility.Config) (w : World) (ssid : pystr) (port : string)
    (rows : list (list column)) (lines : list string) (self : Adb2re) :
  request_list self ≠ "" →
  utility.LPAR_SSID cfg (utility.LPAR cfg) ssid = Some port →
  connect w (execute_url cfg ssid port) = true →
  cursor w = true →
  call_ADB2RE w (call_arguments (prepared cfg ssid port self)) = Some rows →
  attr_value cfg self RPT_DSNAME = "" →
  fetchall w = true →
  Forall2 (λ row line, row !! 1 = Some (Str line)) rows lines →
  close w = true →
  let self' :=
    set_executed_at_least_once true
      (set_ddl_as_string (lines_text lines)
         (set_ddl_as_array (Str <$> lines) (prepared cfg ssid port self))) in
  execute cfg w ssid self
  = Outcome self'
      [EConnect (execute_url cfg ssid port);
       ECursor;
       ECall (call_statement cfg) (call_arguments (prepared cfg ssid port self));
       EFetchAll rows;
       ECursorClose]
      (inr ())
  ∧ __saved_report self' = __saved_report self
  ∧ (chars (utility.LPAR cfg) ≠ "" → chars (utility.DB2_SUBSYSTEM_ID cfg) ≠ "" →
     PyStr.occurs (",DB2SERV='" +:+ (utility.LPAR cfg +:+ ssid) +:+ "'")
       (parameter_list (prepared cfg ssid port self))).
Proof.
  intros Hrequest Hport Hconnect Hcursor Hcall Hds Hfetch Hrows Hclose self'.
  split; [| split; [done | apply prepared_writes_DB2SERV]].
  execute_prelude cfg ssid port self Hrequest Hport.
  execute_call cfg ssid port self Hconnect Hcursor Hcall.
  execute_no_report Hds.
  rewrite (store_returns w rows lines _ Hfetch Hrows Hclose).
  reflexivity.
Qed.

Lemma execute_success_without_report_witness :
  let rows := [[Str "1"; Str "CREATE TABLE A;"]] in
  let lines := ["CREATE TABLE A;"] in
  let w := sample_world [["1"; "CREATE TABLE A;"]] banner in
  let self := out_self (setattr RPT_DSNAME (lit "") sample_ready) in
  let self' :=
    set_executed_at_least_once true
      (set_ddl_as_string (lines_text lines)
         (set_ddl_as_array (Str <$> lines)
            (prepared sample_cfg (lit "DC1A") "3720" self))) in
  execute sample_cfg w (lit "DC1A") self
  = Outcome self'
      [EConnect (execute_url sample_cfg "DC1A" "3720");
       ECursor;
       ECall (call_statement sample_cfg)
         (call_arguments (prepared sample_cfg (lit "DC1A") "3720" self));
       EFetchAll rows;
       ECursorClose]
      (inr ())
  ∧ __saved_report self' = __saved_report self
  ∧ PyStr.occurs ",DB2SERV='RS22DC1A'"
      (parameter_list (prepared sample_cfg (lit "DC1A") "3720" self)).
Proof.
  intros rows lines w self self'.
  destruct (execute_success_without_report sample_cfg w (lit "DC1A") "3720"
              rows lines self) as (Hrun & Hreport & Hlist).
  - by vm_compute.
  - reflexivity.
  - reflexivity.
  - reflexivity.
  - reflexivity.
  - by vm_compute.
  - reflexivity.
  - apply Forall2_cons_2; [reflexivity | apply Forall2_nil_2].
  - reflexivity.
  - split; [exact Hrun |]. split; [exact Hreport | by apply Hlist].
Defined.

(** X13.  When the report read after the call fails the validation,
    [execute] raises the [ReportAssertionError] of the first check that
    fails.  By then the cursor has been opened, the call has been made and
    the rejected report has replaced the stored one; the rows are never
    fetched and the cursor is never closed. *)
Theorem execute_validation_failure
    (cfg : utility.Config) (w : World) (ssid : pystr) (port report msg : string)
    (rows : list (list column)) (self : Adb2re) :
  request_list self ≠ "" →
  utility.LPAR_SSID cfg (utility.LPAR cfg) ssid = Some port →
  connect w (execute_url cfg ssid port) = true →
  cursor w = true →
  call_ADB2RE w (call_arguments (prepared cfg ssid port self)) = Some rows →
  attr_value cfg self RPT_DSNAME ≠ "" →
  read_ds w (attr_value cfg self RPT_DSNAME) = Some report →
  validation_error report = Some msg →
  execute cfg w ssid self
  = Outcome
      (set_saved_report report (prepared cfg ssid port self))
      [EConnect (execute_url cfg ssid port);
       ECursor;
       ECall (call_statement cfg) (call_arguments (prepared cfg ssid port self));
       EReadDs (attr_value cfg self RPT_DSNAME)]
      (inl (Exception ReportAssertionError msg))
  ∧ (chars (utility.LPAR cfg) ≠ "" → chars (utility.DB2_SUBSYSTEM_ID cfg) ≠ "" →
     PyStr.occurs (",DB2SERV='" +:+ (utility.LPAR cfg +:+ ssid) +:+ "'")
       (parameter_list (prepared cfg ssid port self))).
Proof.
  intros Hrequest Hport Hconnect Hcursor Hcall Hds Hread Hvalid.
  split; [| apply prepared_writes_DB2SERV].
  execute_prelude cfg ssid port self Hrequest Hport.
  execute_call cfg ssid port self Hconnect Hcursor Hcall.
  rewrite bool_decide_eq_true_2 by done.
  erewrite bind_run_raise.
  2:{ rewrite (report_block_run cfg w _ report).
      - rewrite Hvalid. reflexivity.
      - by rewrite (prepared_other cfg ssid port self RPT_DSNAME).
      - by rewrite (prepared_other cfg ssid port self RPT_DSNAME). }
  rewrite (prepared_other cfg ssid port self RPT_DSNAME) by done.
  reflexivity.
Qed.

Lemma execute_validation_failure_witness :
  let report := banner +:+ LF +:+ "SQLCODE = -805" in
  let w := sample_world [["1"; "CREATE TABLE A;"]] report in
  let self' := prepared sample_cfg (lit "DC1A") "3720" sample_ready in
  execute sample_cfg w (lit "DC1A") sample_ready
  = Outcome
      (set_saved_report report self')
      [EConnect (execute_url sample_cfg "DC1A" "3720");
       ECursor;
       ECall (call_statement sample_cfg) (call_arguments self');
       EReadDs (attr_value sample_cfg sample_ready RPT_DSNAME)]
      (inl (Exception ReportAssertionError
              (report_message false "SQLCODE = -805" report)))
  ∧ PyStr.occurs ",DB2SERV='RS22DC1A'" (parameter_list self').
Proof.
  intros report w self'.
  destruct (execute_validation_failure sample_cfg w (lit "DC1A") "3720" report
              (report_message false "SQLCODE = -805" report)
              [[Str "1"; Str "CREATE TABLE A;"]] sample_ready) as [Hrun Hlist].
  - by vm_compute.
  - reflexivity.
  - reflexivity.
  - reflexivity.
  - reflexivity.
  - by vm_compute.
  - reflexivity.
  - by vm_compute.
  - split; [exact Hrun | by apply Hlist].
Defined.



(** The rows of a result set either all have a string as second column, or
    all have a second column and one of these is not a string, or one of
    them has no second column. *)
Lemma rows_classified (rows : list (list column)) :
  (∃ lines, Forall2 (λ row line, row !! 1 = Some (Str line)) rows lines)
  ∨ (∃ lines rest,
       Forall2 (λ row col, row !! 1 = Some col) rows
         ((Str <$> lines) ++ NotStr :: rest))
  ∨ (∃ pre bad post cols,
       rows = pre ++ bad :: post ∧ bad !! 1 = None
       ∧ Forall2 (λ row col, row !! 1 = Some col) pre cols).
Proof.
  induction rows as [|row rows IH].
  { left. exists []. constructor. }
  destruct (row !! 1) as [[line|]|] eqn:Hrow.
  - destruct IH as [[lines H]
                   | [(lines & rest & H)
                     | (pre & bad & post & cols & -> & Hbad & H)]].
    + left. exists (line :: lines). by constructor.
    + right. left. exists (line :: lines), rest.
      rewrite fmap_cons, <- app_comm_cons. by constructor.
    + right. right. exists (row :: pre), bad, post, (Str line :: cols).
      split; [done |]. split; [done |]. by constructor.
  - destruct IH as [[lines H]
                   | [(lines & rest & H)
                     | (pre & bad & post & cols & -> & Hbad & H)]].
    + right. left. exists [], (Str <$> lines).
      rewrite fmap_nil, app_nil_l. constructor; [done |]. by apply Forall2_Str.
    + right. left. exists [], ((Str <$> lines) ++ NotStr :: rest).
      rewrite fmap_nil, app_nil_l. by constructor.
    + right. right. exists (row :: pre), bad, post, (NotStr :: cols).
      split; [done |]. split; [done |]. by constructor.
  - right. right. exists [], row, rows, [].
    split; [done |]. split; [done |]. constructor.
Qed.

Lemma bool_cases (b : bool) : b = true ∨ b = false.
Proof. destruct b; [by left | by right]. Qed.

Ltac cursor_absent H :=
  repeat (apply elem_of_cons in H as [H | H]; [discriminate H |]);
  by apply elem_of_nil in H.

(** The end of [execute] either returns, with the lines stored and the
    cursor closed, or raises; and when it raises after the call of
    [close], it is [close] that raised. *)
Lemma store_cases w (rows : list (list column)) self :
  (∃ lines,
     fetchall w = true ∧ close w = true
     ∧ Forall2 (λ row line, row !! 1 = Some (Str line)) rows lines
     ∧ store_and_close w rows self
       = Outcome
           (set_executed_at_least_once true
              (set_ddl_as_string (lines_text lines)
                 (set_ddl_as_array (Str <$> lines) self)))
           [EFetchAll rows; ECursorClose] (inr ()))
  ∨ (∃ s ev e,
       store_and_close w rows self = Outcome s ev (inl e)
       ∧ (ECursorClose ∈ ev → close w = false ∧ e = Exception ExternalError "")).
Proof.
  destruct (bool_cases (fetchall w)) as [Hfetch | Hfetch].
  2:{ right. eexists _, _, _. split; [by apply store_fetchall_fails |].
      intros H. cursor_absent H. }
  destruct (rows_classified rows)
    as [[lines Hrows]
       | [(lines & rest & Hrows)
         | (pre & bad & post & cols & -> & Hbad & Hpre)]].
  - destruct (bool_cases (close w)) as [Hclose | Hclose].
    + left. exists lines. do 3 (split; [done |]). by apply store_returns.
    + right. eexists _, _, _. split; [by apply store_close_fails |]. done.
  - right. eexists _, _, _. split; [by apply store_not_string |].
    intros H. cursor_absent H.
  - right. eexists _, _, _. split; [by apply store_short_row |].
    intros H. cursor_absent H.
Qed.

(** The runs of [execute]: the two that return, and those that raise. *)
Lemma execute_cases cfg w (ssid : pystr) self :
  (∃ port rows lines,
     request_list self ≠ ""
     ∧ utility.LPAR_SSID cfg (utility.LPAR cfg) ssid = Some port
     ∧ connect w (execute_url cfg ssid port) = true
     ∧ cursor w = true
     ∧ call_ADB2RE w (call_arguments (prepared cfg ssid port self)) = Some rows
     ∧ fetchall w = true
     ∧ Forall2 (λ row line, row !! 1 = Some (Str line)) rows lines
     ∧ close w = true
     ∧ ((attr_value cfg self RPT_DSNAME = ""
         ∧ execute cfg w ssid self
           = Outcome
               (set_executed_at_least_once true
                  (set_ddl_as_string (lines_text lines)
                     (set_ddl_as_array (Str <$> lines)
                        (prepared cfg ssid port self))))
               [EConnect (execute_url cfg ssid port);
                ECursor;
                ECall (call_statement cfg)
                  (call_arguments (prepared cfg ssid port self));
                EFetchAll rows; ECursorClose]
               (inr ()))
        ∨ (attr_value cfg self RPT_DSNAME ≠ ""
           ∧ ∃ report,
               read_ds w (attr_value cfg self RPT_DSNAME) = Some report
               ∧ validation_error report = None
               ∧ execute cfg w ssid self
                 = Outcome
                     (set_executed_at_least_once true
                        (set_ddl_as_string (lines_text lines)
                           (set_ddl_as_array (Str <$> lines)
                              (set_saved_report report
                                 (prepared cfg ssid port self)))))
                     [EConnect (execute_url cfg ssid port);
                      ECursor;
                      ECall (call_statement cfg)
                        (call_arguments (prepared cfg ssid port self));
                      EReadDs (attr_value cfg self RPT_DSNAME);
                      EFetchAll rows; ECursorClose]
                     (inr ()))))
  ∨ (∃ s ev e,
       execute cfg w ssid self = Outcome s ev (inl e)
       ∧ (ECursorClose ∈ ev → close w = false ∧ e = Exception ExternalError "")).
Proof.
  destruct (decide (request_list self = "")) as [Hempty | Hrequest].
  { right. eexists _, _, _. split.
    { unfold execute. erewrite bind_run_pure by reflexivity. cbv beta.
      rewrite Hempty. reflexivity. }
    intros H. cursor_absent H. }
  destruct (utility.LPAR_SSID cfg (utility.LPAR cfg) ssid) as [port|] eqn:Hport.
  2:{ right. eexists _, _, _. split.
      { unfold execute. erewrite bind_run_quiet by reflexivity. cbv beta.
        rewrite (request_list_nonempty _ Hrequest). cbv iota.
        rewrite Hport. reflexivity. }
      intros H. cursor_absent H. }
  destruct (connect w (execute_url cfg ssid port)) eqn:Hconnect.
  2:{ right. eexists _, _, _. split.
      { execute_prelude cfg ssid port self Hrequest Hport.
        rewrite Hconnect. erewrite bind_run_raise by reflexivity. reflexivity. }
      intros H. cursor_absent H. }
  destruct (cursor w) eqn:Hcursor.
  2:{ right. eexists _, _, _. split.
      { execute_prelude cfg ssid port self Hrequest Hport.
        rewrite Hconnect.
        erewrite bind_run_quiet by reflexivity; cbv beta.
        rewrite bind_run_emit, Hcursor.
        erewrite bind_run_raise by reflexivity. reflexivity. }
      intros H. cursor_absent H. }
  destruct (call_ADB2RE w (call_arguments (prepared cfg ssid port self)))
    as [rows|] eqn:Hcall.
  2:{ right. eexists _, _, _. split.
      { execute_prelude cfg ssid port self Hrequest Hport.
        rewrite Hconnect.
        erewrite bind_run_quiet by reflexivity; cbv beta.
        rewrite bind_run_emit, Hcursor.
        do 2 (erewrite bind_run_quiet by reflexivity; cbv beta).
        fold (call_arguments (prepared cfg ssid port self)).
        rewrite bind_run_emit, Hcall. simpl answer.
        erewrite bind_run_raise by reflexivity. reflexivity. }
      intros H. cursor_absent H. }
  destruct (decide (attr_value cfg self RPT_DSNAME = "")) as [Hds | Hds].
  - destruct (store_cases w rows (prepared cfg ssid port self))
      as [(lines & Hfetch & Hclose & Hrows & Hstore)
         | (s & ev & e & Hstore & Hev)].
    + left. exists port, rows, lines. do 8 (split; [done |]).
      left. split; [done |].
      execute_prelude cfg ssid port self Hrequest Hport.
      execute_call cfg ssid port self Hconnect Hcursor Hcall.
      execute_no_report Hds.
      rewrite Hstore. reflexivity.
    + right. eexists _, _, _. split.
      { execute_prelude cfg ssid port self Hrequest Hport.
        execute_call cfg ssid port self Hconnect Hcursor Hcall.
        execute_no_report Hds.
        rewrite Hstore. reflexivity. }
      simpl. intros H.
      repeat (apply elem_of_cons in H as [H | H]; [discriminate H |]).
      by apply Hev.
  - assert (Hds' : attr_value cfg (prepared cfg ssid port self) RPT_DSNAME ≠ "")
      by (by rewrite (prepared_other cfg ssid port self RPT_DSNAME)).
    destruct (read_ds w (attr_value cfg self RPT_DSNAME)) as [report|] eqn:Hread.
    2:{ right. eexists _, _, _. split.
        { execute_prelude cfg ssid port self Hrequest Hport.
          execute_call cfg ssid port self Hconnect Hcursor Hcall.
          rewrite bool_decide_eq_true_2 by done.
          erewrite bind_run_raise.
          2:{ apply report_block_unreadable.
              by rewrite (prepared_other cfg ssid port self RPT_DSNAME). }
          reflexivity. }
        intros H. cursor_absent H. }
    assert (Hread' :
      read_ds w (attr_value cfg (prepared cfg ssid port self) RPT_DSNAME)
      = Some report)
      by (by rewrite (prepared_other cfg ssid port self RPT_DSNAME)).
    destruct (validation_error report) as [msg|] eqn:Hvalid.
    { right. eexists _, _, _. split.
      { execute_prelude cfg ssid port self Hrequest Hport.
        execute_call cfg ssid port self Hconnect Hcursor Hcall.
        rewrite bool_decide_eq_true_2 by done.
        erewrite bind_run_raise
          by (rewrite (report_block_run cfg w _ report Hds' Hread'), Hvalid;
              reflexivity).
        reflexivity. }
      intros H. cursor_absent H. }
    destruct (store_cases w rows
                (set_saved_report report (prepared cfg ssid port self)))
      as [(lines & Hfetch & Hclose & Hrows & Hstore)
         | (s & ev & e & Hstore & Hev)].
    + left. exists port, rows, lines. do 8 (split; [done |]).
      right. split; [done |]. exists report. do 2 (split; [done |]).
      execute_prelude cfg ssid port self Hrequest Hport.
      execute_call cfg ssid port self Hconnect Hcursor Hcall.
      execute_report cfg w ssid port self report Hds Hread Hvalid.
      rewrite Hstore. reflexivity.
    + right. eexists _, _, _. split.
      { execute_prelude cfg ssid port self Hrequest Hport.
        execute_call cfg ssid port self Hconnect Hcursor Hcall.
        execute_report cfg w ssid port self report Hds Hread Hvalid.
        rewrite Hstore. reflexivity. }
      simpl. intros H.
      repeat (apply elem_of_cons in H as [H | H]; [discriminate H |]).
      by apply Hev.
Qed.

(** X15.  The closing of the cursor is the last thing [execute] does.
    Every run that returns has called [close].  A run that has called
    [close] and raises is one in which [close] itself raised: every run
    that raises for another reason, before or after the call of the
    procedure, leaves the cursor unclosed. *)
Theorem execute_closes_cursor_last
    (cfg : utility.Config) (w : World) (ssid : pystr) (self : Adb2re) :
  let run := execute cfg w ssid self in
  ((∃ x, out_result run = inr x) → ECursorClose ∈ out_events run ∧ close w = true)
  ∧ (ECursorClose ∈ out_events run →
     (∃ x, out_result run = inr x)
     ∨ (close w = false ∧ out_result run = inl (Exception ExternalError ""))).
Proof.
  intros run. subst run.
  destruct (execute_cases cfg w ssid self)
    as [(port & rows & lines & _ & _ & _ & _ & _ & _ & _ & Hclose
         & [[_ ->] | (_ & report & _ & _ & ->)])
       | (s & ev & e & -> & Hev)];
    cbn [out_result out_events].
  - split; [| intros _; left; by eexists].
    intros _. split; [| done].
    repeat first [apply list_elem_of_here | apply list_elem_of_further].
  - split; [| intros _; left; by eexists].
    intros _. split; [| done].
    repeat first [apply list_elem_of_here | apply list_elem_of_further].
  - split; [by intros [x ?] |].
    intros H. right. destruct (Hev H) as [? ->]. done.
Qed.

Lemma execute_closes_cursor_last_witness :
  let w := {| connect := λ _, true;
              cursor := true;
              call_ADB2RE := λ _, Some [[Str "1"; Str "CREATE TABLE A;"]];
              read_ds := λ _, Some banner;
              fetchall := true;
              close := false |} in
  let run := execute sample_cfg w (lit "DC1A") sample_ready in
  ECursorClose ∈ out_events run
  ∧ ((∃ x, out_result run = inr x)
     ∨ (close w = false ∧ out_result run = inl (Exception ExternalError ""))).
Proof.
  intros w run.
  assert (Hclosed : ECursorClose ∈ out_events run).
  { apply (bool_decide_unpack _). vm_compute. exact I. }
  split; [exact Hclosed |].
  by apply (execute_closes_cursor_last sample_cfg w (lit "DC1A") sample_ready).
Defined.

(** ** The checklist as a whole *)

Lemma first_candidate_unique {A} (P : A → Prop)
    (pre : list A) (c : A) (post pre' : list A) (c' : A) (post' : list A) :
  pre ++ c :: post = pre' ++ c' :: post' →
  Forall (λ x, ¬ P x) pre → P c →
  Forall (λ x, ¬ P x) pre' → P c' →
  pre = pre' ∧ c = c'.
Proof.
  revert pre'. induction pre as [|x pre IH]; intros [|x' pre'] Heq Hpre Hc Hpre' Hc'.
  - by injection Heq as -> _.
  - injection Heq as -> _. by destruct (Forall_inv Hpre').
  - injection Heq as -> _. by destruct (Forall_inv Hpre).
  - injection Heq as -> Heq.
    destruct (IH pre' Heq (Forall_inv_tail Hpre) Hc (Forall_inv_tail Hpre') Hc')
      as [-> ->].
    done.
Qed.

(** The scan of the statements for one row ends in one of three ways, and
    the first of them is that of a satisfied row. *)
Lemma stmt_loop_decides self row term split_ddl found_first_one :
  __executed_at_least_once self = true →
  split_ddl ≠ [] →
  (row_satisfied term split_ddl row
   ∧ stmt_loop row term split_ddl found_first_one self
     = Outcome self [] (inr (Some true)))
  ∨ (¬ row_satisfied term split_ddl row
     ∧ ((∃ msg, stmt_loop row term split_ddl found_first_one self
                = Outcome self [] (inl (Exception ChecklistMismatchError msg)))
        ∨ stmt_loop row term split_ddl found_first_one self
          = Outcome self [] (inr (Some false)))).
Proof.
  intros Hexecuted Hne. destruct row as [|first rest].
  { right. split.
    - by intros (? & ? & ? & ? & ? & ? & _).
    - right. by apply stmt_loop_unmatched. }
  destruct (Forall_or_first_failure
              (λ s, ¬ PyStr.occurs first (s +:+ term)) split_ddl)
    as [Hnone | (pre & c & post & -> & Hpre & Hc)].
  { intros s. destruct (occurs_or_not first (s +:+ term)) as [Hs | Hs];
      [right; intros Hn; by apply Hn | by left]. }
  { right. split.
    - intros (f & r & pre & c & post & [= <- <-] & -> & _ & Hc & _).
      apply Forall_app in Hnone as [_ Hnone]. by apply (Forall_inv Hnone).
    - right. apply stmt_loop_unmatched; [done |]. by intros ? [= <-]. }
  assert (Hc' : PyStr.occurs first (c +:+ term)).
  { by destruct (occurs_or_not first (c +:+ term)). }
  destruct (Forall_or_first_failure
              (λ item, PyStr.occurs item (c +:+ term)) rest)
    as [Hrest | (r1 & item & r2 & -> & Hr1 & Hitem)].
  { intros item. apply occurs_or_not. }
  - left. split; [by exists first, rest, pre, c, post |].
    by apply stmt_loop_candidate_ok.
  - right. split.
    + intros (f & r & pre' & c' & post' & [= <- <-] & Heq & Hpre' & Hc'' & Hall).
      destruct (first_candidate_unique
                  (λ s, PyStr.occurs first (s +:+ term)) _ _ _ _ _ _
                  Heq Hpre Hc' Hpre' Hc'') as [_ <-].
      apply Forall_app in Hall as [_ Hall]. by apply Hitem, (Forall_inv Hall).
    + left. eexists. by apply stmt_loop_candidate_missing.
Qed.

Lemma sublist_loop_decides self term split_ddl checklist :
  __executed_at_least_once self = true →
  split_ddl ≠ [] →
  (out_result (sublist_loop term split_ddl checklist None self) = inr ()
   ↔ Forall (row_satisfied term split_ddl) checklist)
  ∧ (∀ e, out_result (sublist_loop term split_ddl checklist None self) = inl e →
          kind e = ChecklistMismatchError).
Proof.
  intros Hexecuted Hne. induction checklist as [|row checklist IH].
  { split; [by split | by intros e [=]]. }
  rewrite sublist_loop_cons.
  destruct (stmt_loop_decides self row term split_ddl None Hexecuted Hne)
    as [[Hsat Hrun] | [Hns [[msg Hrun] | Hrun]]].
  - erewrite bind_run_pure by exact Hrun. cbv beta iota.
    rewrite (sublist_loop_unbound _ _ _ _ (Some true)) by done.
    destruct IH as [IH1 IH2]. split; [| done].
    rewrite IH1. split; [by apply Forall_cons_2 | apply Forall_inv_tail].
  - erewrite bind_run_raise by exact Hrun. cbn [out_result]. split.
    + split; [by intros [=] | by intros Hsat%Forall_inv].
    + by intros e [= <-].
  - erewrite bind_run_pure by exact Hrun. cbv beta iota. split.
    + split; [by intros [=] | by intros Hsat%Forall_inv].
    + by intros e [= <-].
Qed.

(** X16.  On an executed instance whose DDL string contains the
    terminator, [assert_text_between_terminators] returns exactly when
    every row of the checklist is satisfied by the split statements, in the
    sense of the first candidate; and whenever it raises, the exception is a
    [ChecklistMismatchError]. *)
Theorem checklist_passes_iff_rows_satisfied
    (self : Adb2re) (checklist : list (list string)) (term : string)
    (split_ddl : list string) :
  __executed_at_least_once self = true →
  PyStr.occurs term (__ddl_as_string self) →
  PyStr.split (__ddl_as_string self) term = Some split_ddl →
  (out_result (assert_text_between_terminators checklist term self) = inr ()
   ↔ Forall (row_satisfied term split_ddl) checklist)
  ∧ (∀ e, out_result (assert_text_between_terminators checklist term self) = inl e →
          kind e = ChecklistMismatchError).
Proof.
  intros Hexecuted Hterm Hsplit.
  rewrite (assert_text_between_terminators_run self Hexecuted _ term _ Hterm Hsplit).
  apply sublist_loop_decides; [done |]. by apply (split_nonempty _ _ _ Hsplit).
Qed.

Lemma checklist_passes_iff_rows_satisfied_witness :
  let self := executed_with sample_cfg "CREATE TABLE A COL1;CREATE TABLE B COL2;" in
  let checklist := [["CREATE TABLE B"; "COL2"]; ["CREATE TABLE A"]] in
  let split_ddl := ["CREATE TABLE A COL1"; "CREATE TABLE B COL2"; ""] in
  (out_result (assert_text_between_terminators checklist ";" self) = inr ()
   ↔ Forall (row_satisfied ";" split_ddl) checklist)
  ∧ (∀ e, out_result (assert_text_between_terminators checklist ";" self) = inl e →
          kind e = ChecklistMismatchError).
Proof.
  intros self checklist split_ddl.
  apply (checklist_passes_iff_rows_satisfied self checklist ";" split_ddl).
  - reflexivity.
  - occurs_by_count.
  - reflexivity.
Defined.

Lemma find_empty (s : string) : PyStr.find s "" = 0%Z.
Proof. unfold PyStr.find. by destruct s. Qed.

(** X17.  With the empty string as terminator the search for it succeeds
    at once, and the call fails in the split of the DDL string, with the
    [ValueError] of an empty separator, whatever the checklist holds. *)
Theorem checklist_empty_terminator_fails
    (self : Adb2re) (checklist : list (list string)) :
  __executed_at_least_once self = true →
  assert_text_between_terminators checklist "" self
  = Outcome self [] (inl (Exception ValueError "")).
Proof.
  intros Hexecuted. unfold assert_text_between_terminators.
  erewrite bind_run_pure by reflexivity. cbv beta.
  rewrite Hexecuted. cbn [negb].
  erewrite bind_run_pure by by apply get_ddl_as_string_run. cbv beta.
  rewrite find_empty, bool_decide_eq_false_2 by lia.
  erewrite bind_run_pure by by apply get_ddl_as_string_run. cbv beta.
  reflexivity.
Qed.

Lemma checklist_empty_terminator_fails_witness :
  let self := executed_with sample_cfg "CREATE TABLE A COL1;" in
  assert_text_between_terminators [["CREATE TABLE A"]] "" self
  = Outcome self [] (inl (Exception ValueError "")).
Proof.
  intros self.
  apply (checklist_empty_terminator_fails self [["CREATE TABLE A"]]).
  reflexivity.
Defined.

(** ** What [execute] reads of the instance *)

Lemma connection_attrs_override cfg (ssid : pystr) (a : attr) (v : pystr)
    (m : gmap attr pystr) :
  a ∈ [DB2SYS; DB2ALOC; DB2SERV] →
  <[DB2SERV := sum "DB2SERV" (utility.LPAR cfg) ssid]>
    (<[DB2ALOC := lit ""]> (<[DB2SYS := ssid]> (<[a := v]> m)))
  = <[DB2SERV := sum "DB2SERV" (utility.LPAR cfg) ssid]>
      (<[DB2ALOC := lit ""]> (<[DB2SYS := ssid]> m)).
Proof.
  intros Ha. apply map_eq. intros b. rewrite !lookup_insert.
  repeat (apply elem_of_cons in Ha as [-> | Ha]; [by repeat case_decide |]).
  by apply elem_of_nil in Ha.
Qed.

Lemma prepared_setattr cfg ssid port (a : attr) (v : pystr) self :
  a ∈ [DB2SYS; DB2ALOC; DB2SERV] →
  prepared cfg ssid port (out_self (setattr a v self)) = prepared cfg ssid port self.
Proof.
  intros Ha. unfold prepared. cbv zeta.
  cbn [setattr modify out_self attrs set_attrs].
  rewrite (connection_attrs_override cfg ssid a v (attrs self) Ha).
  reflexivity.
Qed.

Lemma prepared_set_PORT cfg ssid port (p : string) self :
  prepared cfg ssid port (set_PORT p self) = prepared cfg ssid port self.
Proof. reflexivity. Qed.

(** Past its first two checks, [execute] goes on from the prepared
    instance alone. *)
Lemma execute_from_prepared cfg w (ssid : pystr) port self1 self2 :
  request_list self1 ≠ "" → request_list self2 ≠ "" →
  utility.LPAR_SSID cfg (utility.LPAR cfg) ssid = Some port →
  prepared cfg ssid port self1 = prepared cfg ssid port self2 →
  execute cfg w ssid self1 = execute cfg w ssid self2.
Proof.
  intros Hrequest1 Hrequest2 Hport Hprepared. etransitivity.
  { execute_prelude cfg ssid port self1 Hrequest1 Hport. reflexivity. }
  symmetry.
  execute_prelude cfg ssid port self2 Hrequest2 Hport.
  rewrite Hprepared. reflexivity.
Qed.

(** X18.  What a caller assigns to [DB2SYS], [DB2ALOC], [DB2SERV] or
    [PORT] before [execute] has no effect on the execution: [execute]
    overwrites the four from its argument [ssid] before it uses them, so the
    run is the same, in what it returns or raises, in what it does outside
    and in the instance it leaves. *)
Theorem execute_overrides_connection_settings
    (cfg : utility.Config) (w : World) (ssid : pystr) (port : string)
    (a : attr) (v : pystr) (p : string) (self : Adb2re) :
  request_list self ≠ "" →
  utility.LPAR_SSID cfg (utility.LPAR cfg) ssid = Some port →
  a ∈ [DB2SYS; DB2ALOC; DB2SERV] →
  execute cfg w ssid (out_self (setattr a v self)) = execute cfg w ssid self
  ∧ execute cfg w ssid (set_PORT p self) = execute cfg w ssid self.
Proof.
  intros Hrequest Hport Ha. split.
  - apply (execute_from_prepared cfg w ssid port); [done.. |].
    by apply prepared_setattr.
  - by apply (execute_from_prepared cfg w ssid port).
Qed.

Lemma execute_overrides_connection_settings_witness :
  let w := sample_world [["1"; "CREATE TABLE A;"]] banner in
  execute sample_cfg w (lit "DC1A")
    (out_self (setattr DB2SERV (lit "ELSEWHERE") sample_ready))
  = execute sample_cfg w (lit "DC1A") sample_ready
  ∧ execute sample_cfg w (lit "DC1A") (set_PORT "1" sample_ready)
    = execute sample_cfg w (lit "DC1A") sample_ready.
Proof.
  intros w.
  apply (execute_overrides_connection_settings sample_cfg w (lit "DC1A") "3720"
           DB2SERV (lit "ELSEWHERE") "1" sample_ready).
  - by vm_compute.
  - reflexivity.
  - apply list_elem_of_further, list_elem_of_further, list_elem_of_here.
Defined.

Lemma connection_attrs_twice cfg (ssid : pystr) (m : gmap attr pystr) :
  <[DB2SERV := sum "DB2SERV" (utility.LPAR cfg) ssid]>
    (<[DB2ALOC := lit ""]> (<[DB2SYS := ssid]>
       (<[DB2SERV := sum "DB2SERV" (utility.LPAR cfg) ssid]>
          (<[DB2ALOC := lit ""]> (<[DB2SYS := ssid]> m)))))
  = <[DB2SERV := sum "DB2SERV" (utility.LPAR cfg) ssid]>
      (<[DB2ALOC := lit ""]> (<[DB2SYS := ssid]> m)).
Proof.
  apply map_eq. intros a. rewrite !lookup_insert. by repeat case_decide.
Qed.

(** Preparing an instance that differs from a prepared one in the stored
    results only changes nothing. *)
Lemma prepared_again cfg ssid port self (s : Adb2re) :
  set_saved_report "" (set_executed_at_least_once false
    (set_ddl_as_string "" (set_ddl_as_array [] s)))
  = set_saved_report "" (set_executed_at_least_once false
      (set_ddl_as_string "" (set_ddl_as_array [] (prepared cfg ssid port self)))) →
  prepared cfg ssid port s = s.
Proof.
  destruct s as [a po d pl rl sq rp arr str fl rep].
  intros [= -> -> -> -> -> -> ->].
  unfold prepared at 1. cbv zeta. cbn [attrs set_attrs set_PORT].
  rewrite connection_attrs_twice. reflexivity.
Qed.

Lemma run_agree {A} (o : outcome A) s ev r s' ev' r' :
  o = Outcome s ev r → o = Outcome s' ev' r' → s' = s ∧ ev' = ev ∧ r' = r.
Proof. intros -> [= -> -> ->]. done. Qed.

Lemma validation_error_none_inv (report : string) :
  validation_error report = None →
  PyStr.occurs banner report
  ∧ ¬ PyStr.occurs "SQLCODE=-805" report
  ∧ ¬ PyStr.occurs "SQLCODE = -805" report.
Proof.
  unfold validation_error. rewrite <- truthy_count, <- !truthy_count_false.
  destruct (truthy (PyStr.count report banner)); [| done].
  destruct (truthy (PyStr.count report "SQLCODE=-805")); [done |].
  by destruct (truthy (PyStr.count report "SQLCODE = -805")).
Qed.

(** The runs of [execute] that return are the two successful ones. *)
Lemma execute_returns_inv cfg w (ssid : pystr) self self' evs x :
  execute cfg w ssid self = Outcome self' evs (inr x) →
  ∃ port rows lines,
    request_list self ≠ ""
    ∧ utility.LPAR_SSID cfg (utility.LPAR cfg) ssid = Some port
    ∧ connect w (execute_url cfg ssid port) = true
    ∧ cursor w = true
    ∧ call_ADB2RE w (call_arguments (prepared cfg ssid port self)) = Some rows
    ∧ fetchall w = true
    ∧ Forall2 (λ row line, row !! 1 = Some (Str line)) rows lines
    ∧ close w = true
    ∧ ((attr_value cfg self RPT_DSNAME = ""
        ∧ self' = set_executed_at_least_once true
                    (set_ddl_as_string (lines_text lines)
                       (set_ddl_as_array (Str <$> lines)
                          (prepared cfg ssid port self)))
        ∧ evs = [EConnect (execute_url cfg ssid port);
                 ECursor;
                 ECall (call_statement cfg)
                   (call_arguments (prepared cfg ssid port self));
                 EFetchAll rows; ECursorClose])
       ∨ (attr_value cfg self RPT_DSNAME ≠ ""
          ∧ ∃ report,
              read_ds w (attr_value cfg self RPT_DSNAME) = Some report
              ∧ validation_error report = None
              ∧ self' = set_executed_at_least_once true
                          (set_ddl_as_string (lines_text lines)
                             (set_ddl_as_array (Str <$> lines)
                                (set_saved_report report
                                   (prepared cfg ssid port self))))
              ∧ evs = [EConnect (execute_url cfg ssid port);
                       ECursor;
                       ECall (call_statement cfg)
                         (call_arguments (prepared cfg ssid port self));
                       EReadDs (attr_value cfg self RPT_DSNAME);
                       EFetchAll rows; ECursorClose])).
Proof.
  intros Hrun.
  destruct (execute_cases cfg w ssid self)
    as [(port & rows & lines & Hrequest & Hport & Hconnect & Hcursor & Hcall
         & Hfetch & Hrows & Hclose
         & [[Hds Hcase] | (Hds & report & Hread & Hvalid & Hcase)])
       | (s & ev & e & Hcase & _)].
  - destruct (run_agree _ _ _ _ _ _ _ Hrun Hcase) as (<- & <- & _).
    exists port, rows, lines. do 8 (split; [done |]). by left.
  - destruct (run_agree _ _ _ _ _ _ _ Hrun Hcase) as (<- & <- & _).
    exists port, rows, lines. do 8 (split; [done |]).
    right. split; [done |]. by exists report.
  - by destruct (run_agree _ _ _ _ _ _ _ Hrun Hcase) as (_ & _ & ?).
Qed.

(** X19.  When [execute] returns on an instance with a report destination,
    the report it read from there is the one [get_report_as_string] now
    answers with, and it has passed the validation: it holds the banner and
    neither spelling of [SQLCODE -805]. *)
Theorem execute_returns_validated_report
    (cfg : utility.Config) (w : World) (ssid : pystr)
    (self self' : Adb2re) (evs : list event) :
  execute cfg w ssid self = Outcome self' evs (inr ()) →
  attr_value cfg self RPT_DSNAME ≠ "" →
  ∃ report,
    read_ds w (attr_value cfg self RPT_DSNAME) = Some report
    ∧ EReadDs (attr_value cfg self RPT_DSNAME) ∈ evs
    ∧ get_report_as_string self' = Outcome self' [] (inr report)
    ∧ PyStr.occurs banner report
    ∧ ¬ PyStr.occurs "SQLCODE=-805" report
    ∧ ¬ PyStr.occurs "SQLCODE = -805" report.
Proof.
  intros Hrun Hds.
  destruct (execute_returns_inv _ _ _ _ _ _ _ Hrun)
    as (port & rows & lines & _ & _ & _ & _ & _ & _ & _ & _
        & [[Hno _] | (_ & report & Hread & Hvalid & -> & ->)]); [done |].
  exists report. split; [done |].
  split; [do 3 apply list_elem_of_further; apply list_elem_of_here |].
  split; [by apply get_report_as_string_run |].
  by apply validation_error_none_inv.
Qed.

Lemma execute_returns_validated_report_witness :
  let run := sample_run [["1"; "CREATE TABLE A;"]] (banner +:+ LF +:+ "done") in
  ∃ report,
    read_ds (sample_world [["1"; "CREATE TABLE A;"]] (banner +:+ LF +:+ "done"))
      (attr_value sample_cfg sample_ready RPT_DSNAME) = Some report
    ∧ EReadDs (attr_value sample_cfg sample_ready RPT_DSNAME) ∈ out_events run
    ∧ get_report_as_string (out_self run) = Outcome (out_self run) [] (inr report)
    ∧ PyStr.occurs banner report
    ∧ ¬ PyStr.occurs "SQLCODE=-805" report
    ∧ ¬ PyStr.occurs "SQLCODE = -805" report.
Proof.
  intros run.
  apply (execute_returns_validated_report sample_cfg
           (sample_world [["1"; "CREATE TABLE A;"]] (banner +:+ LF +:+ "done"))
           (lit "DC1A") sample_ready (out_self run) (out_events run)).
  - apply outcome_of_result. vm_compute. reflexivity.
  - by vm_compute.
Defined.

(** An instance that preparing and storing leave as it is, executed. *)
Lemma execute_at_rest_without_report cfg w (ssid : pystr) port rows lines
    (s : Adb2re) :
  prepared cfg ssid port s = s →
  set_executed_at_least_once true
    (set_ddl_as_string (lines_text lines)
       (set_ddl_as_array (Str <$> lines) s)) = s →
  request_list s ≠ "" →
  utility.LPAR_SSID cfg (utility.LPAR cfg) ssid = Some port →
  connect w (execute_url cfg ssid port) = true →
  cursor w = true →
  call_ADB2RE w (call_arguments s) = Some rows →
  attr_value cfg s RPT_DSNAME = "" →
  fetchall w = true →
  Forall2 (λ row line, row !! 1 = Some (Str line)) rows lines →
  close w = true →
  execute cfg w ssid s
  = Outcome s
      [EConnect (execute_url cfg ssid port);
       ECursor;
       ECall (call_statement cfg) (call_arguments s);
       EFetchAll rows; ECursorClose] (inr ()).
Proof.
  intros Hprepared Hstored Hrequest Hport Hconnect Hcursor Hcall Hds Hfetch
    Hrows Hclose.
  rewrite <- Hprepared in Hcall.
  transitivity
    (Outcome
       (set_executed_at_least_once true
          (set_ddl_as_string (lines_text lines)
             (set_ddl_as_array (Str <$> lines) (prepared cfg ssid port s))))
       [EConnect (execute_url cfg ssid port);
        ECursor;
        ECall (call_statement cfg) (call_arguments (prepared cfg ssid port s));
        EFetchAll rows; ECursorClose]
       (inr ())).
  - execute_prelude cfg ssid port s Hrequest Hport.
    execute_call cfg ssid port s Hconnect Hcursor Hcall.
    execute_no_report Hds.
    rewrite (store_returns w rows lines _ Hfetch Hrows Hclose).
    reflexivity.
  - by rewrite Hprepared, Hstored.
Qed.

Lemma execute_at_rest_with_report cfg w (ssid : pystr) port rows lines report
    (s : Adb2re) :
  prepared cfg ssid port s = s →
  set_executed_at_least_once true
    (set_ddl_as_string (lines_text lines)
       (set_ddl_as_array (Str <$> lines) (set_saved_report report s))) = s →
  request_list s ≠ "" →
  utility.LPAR_SSID cfg (utility.LPAR cfg) ssid = Some port →
  connect w (execute_url cfg ssid port) = true →
  cursor w = true →
  call_ADB2RE w (call_arguments s) = Some rows →
  attr_value cfg s RPT_DSNAME ≠ "" →
  read_ds w (attr_value cfg s RPT_DSNAME) = Some report →
  validation_error report = None →
  fetchall w = true →
  Forall2 (λ row line, row !! 1 = Some (Str line)) rows lines →
  close w = true →
  execute cfg w ssid s
  = Outcome s
      [EConnect (execute_url cfg ssid port);
       ECursor;
       ECall (call_statement cfg) (call_arguments s);
       EReadDs (attr_value cfg s RPT_DSNAME);
       EFetchAll rows; ECursorClose] (inr ()).
Proof.
  intros Hprepared Hstored Hrequest Hport Hconnect Hcursor Hcall Hds Hread Hvalid
    Hfetch Hrows Hclose.
  rewrite <- Hprepared in Hcall.
  transitivity
    (Outcome
       (set_executed_at_least_once true
          (set_ddl_as_string (lines_text lines)
             (set_ddl_as_array (Str <$> lines)
                (set_saved_report report (prepared cfg ssid port s)))))
       [EConnect (execute_url cfg ssid port);
        ECursor;
        ECall (call_statement cfg) (call_arguments (prepared cfg ssid port s));
        EReadDs (attr_value cfg s RPT_DSNAME);
        EFetchAll rows; ECursorClose]
       (inr ())).
  - execute_prelude cfg ssid port s Hrequest Hport.
    execute_call cfg ssid port s Hconnect Hcursor Hcall.
    execute_report cfg w ssid port s report Hds Hread Hvalid.
    rewrite (store_returns w rows lines _ Hfetch Hrows Hclose).
    reflexivity.
  - by rewrite Hprepared, Hstored.
Qed.

(** What storing the results changes of an instance, and what not. *)
Lemma stored_without_report cfg (lines : list string) (a : Adb2re) :
  let s := set_executed_at_least_once true
             (set_ddl_as_string (lines_text lines)
                (set_ddl_as_array (Str <$> lines) a)) in
  set_executed_at_least_once true
    (set_ddl_as_string (lines_text lines)
       (set_ddl_as_array (Str <$> lines) s)) = s
  ∧ set_saved_report "" (set_executed_at_least_once false
      (set_ddl_as_string "" (set_ddl_as_array [] s)))
    = set_saved_report "" (set_executed_at_least_once false
        (set_ddl_as_string "" (set_ddl_as_array [] a)))
  ∧ call_arguments s = call_arguments a
  ∧ request_list s = request_list a
  ∧ attr_value cfg s RPT_DSNAME = attr_value cfg a RPT_DSNAME.
Proof. done. Qed.

Lemma stored_with_report cfg (lines : list string) report (a : Adb2re) :
  let s := set_executed_at_least_once true
             (set_ddl_as_string (lines_text lines)
                (set_ddl_as_array (Str <$> lines) (set_saved_report report a))) in
  set_executed_at_least_once true
    (set_ddl_as_string (lines_text lines)
       (set_ddl_as_array (Str <$> lines) (set_saved_report report s))) = s
  ∧ set_saved_report "" (set_executed_at_least_once false
      (set_ddl_as_string "" (set_ddl_as_array [] s)))
    = set_saved_report "" (set_executed_at_least_once false
        (set_ddl_as_string "" (set_ddl_as_array [] a)))
  ∧ call_arguments s = call_arguments a
  ∧ request_list s = request_list a
  ∧ attr_value cfg s RPT_DSNAME = attr_value cfg a RPT_DSNAME.
Proof. done. Qed.

Lemma prepared_request_list cfg ssid port self :
  request_list (prepared cfg ssid port self) = request_list self.
Proof. reflexivity. Qed.

(** X20.  [execute] accumulates nothing: when it has returned, executing
    the instance again against an outside that answers the same leaves the
    same instance, with the same interactions made.  The parameter list and
    the output lists are rebuilt, not extended, and the stored DDL is
    replaced, not appended to. *)
Theorem execute_again_same_outcome
    (cfg : utility.Config) (w : World) (ssid : pystr)
    (self self' : Adb2re) (evs : list event) :
  execute cfg w ssid self = Outcome self' evs (inr ()) →
  execute cfg w ssid self' = Outcome self' evs (inr ()).
Proof.
  intros Hrun.
  destruct (execute_returns_inv _ _ _ _ _ _ _ Hrun)
    as (port & rows & lines & Hrequest & Hport & Hconnect & Hcursor & Hcall
        & Hfetch & Hrows & Hclose
        & [(Hds & -> & ->) | (Hds & report & Hread & Hvalid & -> & ->)]);
    clear Hrun.
  - destruct (stored_without_report cfg lines (prepared cfg ssid port self))
      as (Hstored & Herase & Hargs & Hlist & Hname).
    rewrite <- Hargs.
    apply (execute_at_rest_without_report cfg w ssid port rows lines);
      [ by apply (prepared_again cfg ssid port self)
      | done
      | by rewrite Hlist, prepared_request_list
      | done
      | done
      | done
      | by rewrite Hargs
      | by rewrite Hname, (prepared_other cfg ssid port self RPT_DSNAME)
      | done
      | done
      | done ].
  - destruct (stored_with_report cfg lines report (prepared cfg ssid port self))
      as (Hstored & Herase & Hargs & Hlist & Hname).
    rewrite (prepared_other cfg ssid port self RPT_DSNAME) in Hname by done.
    rewrite <- Hargs, <- Hname.
    apply (execute_at_rest_with_report cfg w ssid port rows lines report);
      [ by apply (prepared_again cfg ssid port self)
      | done
      | by rewrite Hlist, prepared_request_list
      | done
      | done
      | done
      | by rewrite Hargs
      | by rewrite Hname
      | by rewrite Hname
      | done
      | done
      | done
      | done ].
Qed.

Lemma execute_again_same_outcome_witness :
  let w := sample_world [["1"; "CREATE TABLE A"]; ["2"; "COL1;"]] banner in
  let run := execute sample_cfg w (lit "DC1A") sample_ready in
  execute sample_cfg w (lit "DC1A") (out_self run)
  = Outcome (out_self run) (out_events run) (inr ()).
Proof.
  intros w run.
  apply (execute_again_same_outcome sample_cfg w (lit "DC1A") sample_ready
           (out_self run) (out_events run)).
  apply outcome_of_result. vm_compute. reflexivity.
Defined.
